(** * gitlabform.configuration: the hierarchical configuration resolver

    A shallow embedding of [gitlabform/configuration/core.py] and
    [gitlabform/configuration/projects.py], and the properties of their
    specification.

    Python strings are modelled as [string]. What [str.lower] does to a
    string is settled by the interpreter's case tables, which are not
    part of these sources: [lower] is a parameter of the embedding (class
    [PyStr.Lower]), and a property that needs a fact about it says which.
    On strings of ASCII characters it is the fold of 'A'..'Z'
    ([PyStr.ascii_lower]), which the examples use. YAML floats are not
    part of the value model. *)

From Stdlib Require Import String Ascii List ZArith Bool Lia Permutation Sorted.
From stdpp Require Import base list strings gmap.
Import ListNotations.
Open Scope string_scope.
Open Scope list_scope.

(** ** Python string primitives *)

Module PyStr.

(** [s.lower()], for every string: the case folding of the interpreter. *)
Class Lower := lower : string -> string.

(** [c.lower()] for one ASCII character: 'A'..'Z' are moved to 'a'..'z'. *)
Definition lower_ascii (c : ascii) : ascii :=
  let n := nat_of_ascii c in
  if Nat.leb 65 n && Nat.leb n 90 then ascii_of_nat (n + 32) else c.

(** [s.lower()] on a string of ASCII characters. *)
Fixpoint ascii_lower (s : string) : string :=
  match s with
  | EmptyString => EmptyString
  | String c s' => String (lower_ascii c) (ascii_lower s')
  end.

(** [lower] where every string at hand is made of ASCII characters. *)
Definition on_ascii : Lower := ascii_lower.

(** [s.startswith(p)] *)
Fixpoint startswith (s p : string) {struct p} : bool :=
  match p, s with
  | EmptyString, _ => true
  | String _ _, EmptyString => false
  | String b p', String a s' => Ascii.eqb a b && startswith s' p'
  end.

(** [s[n:]] for [0 <= n] *)
Fixpoint drop (n : nat) (s : string) : string :=
  match n, s with
  | O, _ => s
  | S _, EmptyString => EmptyString
  | S n', String _ s' => drop n' s'
  end.

(** [s[:n]] for [0 <= n] *)
Fixpoint take (n : nat) (s : string) : string :=
  match n, s with
  | O, _ => EmptyString
  | S _, EmptyString => EmptyString
  | S n', String a s' => String a (take n' s')
  end.

(** [s.endswith(suf)] *)
Definition endswith (s suf : string) : bool :=
  Nat.leb (String.length suf) (String.length s)
  && String.eqb (drop (String.length s - String.length suf) s) suf.

(** [s[:-2]]: everything but the last two characters (empty when [s]
    has fewer than two). *)
Definition chop2 (s : string) : string := take (String.length s - 2) s.

(** [sep in s] for a one-character [sep] *)
Fixpoint contains (sep : ascii) (s : string) : bool :=
  match s with
  | EmptyString => false
  | String a s' => Ascii.eqb a sep || contains sep s'
  end.

(** [s.split(sep)] for a one-character [sep]: never returns the empty
    list; [acc] is the segment read so far. *)
Fixpoint split_from (sep : ascii) (acc : string) (s : string) : list string :=
  match s with
  | EmptyString => [acc]
  | String a s' =>
      if Ascii.eqb a sep then acc :: split_from sep EmptyString s'
      else split_from sep (acc +:+ String a EmptyString) s'
  end.

Definition split (sep : ascii) (s : string) : list string :=
  split_from sep EmptyString s.

(** [s.rsplit(sep, 1)] for a one-character [sep]: [None] stands for the
    one-element answer [[s]] (no separator in [s]), [Some (a, b)] for
    the two-element answer [[a, b]], cut at the last separator. *)
Fixpoint rsplit1 (sep : ascii) (s : string) : option (string * string) :=
  match s with
  | EmptyString => None
  | String a s' =>
      match rsplit1 sep s' with
      | Some (l, r) => Some (String a l, r)
      | None => if Ascii.eqb a sep then Some (EmptyString, s') else None
      end
  end.

(** [sorted(l)] on a list of strings: ascending in [String.leb], the
    order of the character codes. *)
Fixpoint insert_sorted (x : string) (l : list string) : list string :=
  match l with
  | [] => [x]
  | y :: l' => if String.leb x y then x :: y :: l' else y :: insert_sorted x l'
  end.

Fixpoint sorted (l : list string) : list string :=
  match l with
  | [] => []
  | x :: l' => insert_sorted x (sorted l')
  end.

(** [len(set(l))] on a list of strings: the number of distinct elements. *)
Fixpoint distinct (l : list string) : list string :=
  match l with
  | [] => []
  | x :: l' => if existsb (String.eqb x) l' then distinct l' else x :: distinct l'
  end.

(** *** What is known of [str.lower]

    Three facts about [str.lower], each a hypothesis of the properties
    that use it. A lower-cased string is its own lower-cased form. *)
Definition lower_idempotent {L : Lower} : Prop :=
  forall s, lower (lower s) = lower s.

(** ['/'] and ['*'] have no case, and no character becomes one of them:
    a trailing ["/*"] stays, what stands before it is lower-cased as it
    is on its own, and a lower-cased string ends in ["/*"] only if the
    string does. *)
Definition lower_keeps_wildcard {L : Lower} : Prop :=
  (forall prefix, lower (prefix +:+ "/*") = lower prefix +:+ "/*")
  /\ (forall s, endswith (lower s) "/*" = true -> endswith s "/*" = true).

(** The cut of [rsplit("/", 1)] is at the same place in a string and
    in its lower-cased form, and the two parts are lower-cased as they
    are on their own. *)
Definition lower_keeps_rsplit {L : Lower} : Prop :=
  forall s,
    rsplit1 "/" (lower s)
    = match rsplit1 "/" s with
      | Some (l, r) => Some (lower l, lower r)
      | None => None
      end.

End PyStr.

(** ** Python values and exceptions *)

(** The parsed configuration tree ([yaml.safe_load]'s result): scalars,
    sequences and mappings with string keys. A [dict] is kept as its
    items in insertion order. *)
#[warning="-register-all"]
Inductive value : Type :=
| VNone
| VBool (b : bool)
| VInt (n : Z)
| VStr (s : string)
| VList (l : list value)
| VDict (d : list (string * value)).

(** What [cli_ui.fatal] reports before it exits. *)
Inductive fatal_error : Type :=
| ConfigSourceConflict
| ExampleConfigDetected
| UnsupportedConfigVersion
| AlmostDuplicateKeys (path : string) (almost_duplicates : list string).

Inductive exn : Type :=
| KeyNotFoundException
| ConfigFileNotFoundException (config_path : option string)
| ConfigInvalidException (underlying : exn)
| KeyError
| TypeError
| AttributeError
| ValueError
| OSError
| YAMLError
| SystemExit (why : fatal_error).

(** [except Exception]: everything but [SystemExit]. *)
Definition is_Exception (e : exn) : bool :=
  match e with SystemExit _ => false | _ => true end.

(** [except (FileNotFoundError, IOError)] *)
Definition is_IOError (e : exn) : bool :=
  match e with OSError => true | _ => false end.

Inductive result (A : Type) : Type :=
| Ok (a : A)
| Raise (e : exn).
Arguments Ok {A} a.
Arguments Raise {A} e.

#[global] Instance result_ret : MRet result := fun _ a => Ok a.
#[global] Instance result_bind : MBind result := fun _ _ f m =>
  match m with Ok a => f a | Raise e => Raise e end.

(** [try: body except KeyNotFoundException: handler] *)
Definition except_KeyNotFound {A} (body : result A) (handler : result A) : result A :=
  match body with
  | Raise KeyNotFoundException => handler
  | r => r
  end.

Module Py.

(** Truth value of an object, as [if x:] tests it. *)
Definition truthy (v : value) : bool :=
  match v with
  | VNone => false
  | VBool b => b
  | VInt n => negb (Z.eqb n 0)
  | VStr s => negb (String.eqb s "")
  | VList l => match l with [] => false | _ => true end
  | VDict d => match d with [] => false | _ => true end
  end.

(** [x is not None] *)
Definition is_not_None (v : value) : bool :=
  match v with VNone => false | _ => true end.

(** [x != 2]: a [bool] compares as the integer 0 or 1. *)
Definition ne_2 (v : value) : bool :=
  match v with
  | VInt n => negb (Z.eqb n 2)
  | _ => true
  end.

(** [d[k]] on the items of a dict *)
Fixpoint dict_get {V : Type} (k : string) (d : list (string * V)) : option V :=
  match d with
  | [] => None
  | (k', v) :: d' => if String.eqb k' k then Some v else dict_get k d'
  end.

(** [d[k] = v]: an existing key keeps its place, a new one goes last. *)
Fixpoint dict_set {V : Type} (k : string) (v : V) (d : list (string * V))
  : list (string * V) :=
  match d with
  | [] => [(k, v)]
  | (k', v') :: d' =>
      if String.eqb k' k then (k', v) :: d' else (k', v') :: dict_set k v d'
  end.

(** [d.keys()] *)
Definition dict_keys {V : Type} (d : list (string * V)) : list string := map fst d.

(** [current[token]] for a [str] token: only a dict can be indexed by a
    string. *)
Definition getitem (current : value) (token : string) : result value :=
  match current with
  | VDict d =>
      match dict_get token d with
      | Some v => Ok v
      | None => Raise KeyError
      end
  | _ => Raise TypeError
  end.

(** [d.get(k)] and [d.get(k, default)] on [self.config]: an attribute of
    dicts only. *)
Definition dict_get_method (config : value) (k : string) (default : value)
  : result value :=
  match config with
  | VDict d =>
      match dict_get k d with
      | Some v => Ok v
      | None => Ok default
      end
  | _ => Raise AttributeError
  end.

(** [x.keys()] *)
Definition keys_method (x : value) : result (list string) :=
  match x with
  | VDict d => Ok (dict_keys d)
  | _ => Raise AttributeError
  end.

(** The elements a [for] loop draws from [x]: the elements of a list,
    the keys of a dict, the characters of a string. *)
Definition iter (x : value) : result (list value) :=
  match x with
  | VList l => Ok l
  | VDict d => Ok (map VStr (dict_keys d))
  | VStr s => Ok (map (fun c => VStr (String c EmptyString)) (list_ascii_of_string s))
  | _ => Raise TypeError
  end.

(** [x.lower()]: a method of strings only. *)
Definition lower_method {L : PyStr.Lower} (x : value) : result string :=
  match x with
  | VStr s => Ok (PyStr.lower s)
  | _ => Raise AttributeError
  end.

End Py.

(** ** mergedeep *)

Module Mergedeep.

(** Modelled from the spec: [mergedeep.merge], which core.py imports and
    which is not part of this repository. [_deepmerge dst src] is the one
    step [merge] folds over its sources, with the default strategy: a
    key of [src] whose value and whose value in [dst] are both mappings is
    merged recursively, every other key of [src] is (re)bound in [dst] to
    a copy of the value [src] has. At this level a copy is the value
    itself; module [Store] below has the objects and the copies. *)
Fixpoint _deepmerge (dst : list (string * value)) (src : value) {struct src}
  : list (string * value) :=
  match src with
  | VDict s =>
      (fix for_key (items dst : list (string * value)) {struct items} :=
         match items with
         | [] => dst
         | (key, sv) :: rest =>
             for_key rest
               match Py.dict_get key dst, sv with
               | Some (VDict dd), VDict _ =>
                   Py.dict_set key (VDict (_deepmerge dd sv)) dst
               | _, _ => Py.dict_set key sv dst
               end
         end) s dst
  | _ => dst
  end.

(** One source of [merge]. A mapping is merged; [for key in src] does
    nothing on an empty list or string, and ends in a [TypeError] on
    every other object: a number, [None], a non-empty string (a string
    is not indexed by its characters) and a list whose first element is
    no integer. (A list that starts with an integer is indexed by it in
    Python and is an error here, too.) *)
Definition merge_source (dst : list (string * value)) (src : value)
  : result (list (string * value)) :=
  match src with
  | VDict _ => Ok (_deepmerge dst src)
  | VList [] => Ok dst
  | VStr EmptyString => Ok dst
  | _ => Raise TypeError
  end.

(** [merge(destination, *sources)] *)
Fixpoint merge (destination : list (string * value)) (sources : list value)
  : result (list (string * value)) :=
  match sources with
  | [] => Ok destination
  | src :: sources' =>
      dst ← merge_source destination src; merge dst sources'
  end.

End Mergedeep.

(** ** core.py: [ConfigurationCore] *)

Record ConfigurationCore : Type := {
  config : value;
  config_dir : string
}.

Module Core.

Section Lower.

Context {L : PyStr.Lower}.

(** The [try] block of [get]: [for token in tokens: current = current[token]] *)
Fixpoint descend (current : value) (tokens : list string) : result value :=
  match tokens with
  | [] => Ok current
  | token :: tokens' => current' ← Py.getitem current token; descend current' tokens'
  end.

(** [get(self, path, default=None)]; the bare [except:] catches whatever
    the loop raises. *)
Definition get (self : ConfigurationCore) (path : string) (default : value)
  : result value :=
  let tokens := PyStr.split "|" path in
  match descend (config self) tokens with
  | Ok current => Ok current
  | Raise _ =>
      if Py.is_not_None default then Ok default else Raise KeyNotFoundException
  end.

(** The loop of [get_case_insensitively] over [a_dict.keys()]. *)
Fixpoint first_key_ci (a_dict : value) (keys : list string) (a_key : string)
  : result value :=
  match keys with
  | [] => Raise KeyNotFoundException
  | dict_key :: keys' =>
      if String.eqb (PyStr.lower dict_key) (PyStr.lower a_key)
      then Py.getitem a_dict dict_key
      else first_key_ci a_dict keys' a_key
  end.

Definition get_case_insensitively (a_dict : value) (a_key : string) : result value :=
  keys ← Py.keys_method a_dict; first_key_ci a_dict keys a_key.

Definition get_group_config (self : ConfigurationCore) (group : string) : result value :=
  except_KeyNotFound
    (a_dict ← get self "projects_and_groups" VNone;
     get_case_insensitively a_dict (group +:+ "/*"))
    (Ok (VDict [])).

Definition get_project_config (self : ConfigurationCore) (group_and_project : string)
  : result value :=
  except_KeyNotFound
    (a_dict ← get self "projects_and_groups" VNone;
     get_case_insensitively a_dict group_and_project)
    (Ok (VDict [])).

Definition get_common_config (self : ConfigurationCore) : result value :=
  get self "projects_and_groups|*" (VDict []).

(** The loop of [is_skipped_case_insensitively]; [item] is already
    lower-cased. *)
Fixpoint skipped_loop (an_array : list value) (item : string) : result bool :=
  match an_array with
  | [] => Ok false
  | list_element :: an_array' =>
      list_element ← Py.lower_method list_element;
      if String.eqb list_element item then Ok true
      else if PyStr.endswith list_element "/*"
              && PyStr.startswith item (PyStr.chop2 list_element)
              && Nat.leb (String.length (PyStr.chop2 list_element)) (String.length item)
      then Ok true
      else skipped_loop an_array' item
  end.

Definition is_skipped_case_insensitively (an_array : value) (item : string)
  : result bool :=
  let item := PyStr.lower item in
  elements ← Py.iter an_array; skipped_loop elements item.

Definition is_project_skipped (self : ConfigurationCore) (project : string)
  : result bool :=
  an_array ← get self "skip_projects" (VList []);
  is_skipped_case_insensitively an_array project.

Definition is_group_skipped (self : ConfigurationCore) (group : string)
  : result bool :=
  an_array ← get self "skip_groups" (VList []);
  is_skipped_case_insensitively an_array group.

(** [dict(merge({}, more_general_config, more_specific_config))] *)
Definition merge_configs (more_general_config more_specific_config : value)
  : result value :=
  merged ← Mergedeep.merge [] [more_general_config; more_specific_config];
  Ok (VDict merged).

(** [[x.lower() for x in items]] asks every item for its [lower]
    method, so it goes through only when every item is a string; these
    are the strings. *)
Fixpoint strings_of (items : list value) : result (list string) :=
  match items with
  | [] => Ok []
  | VStr x :: items' => xs ← strings_of items'; Ok (x :: xs)
  | _ :: _ => Raise AttributeError
  end.

(** The inner loop of [_find_almost_duplicate]: does [first_item]
    reach a second occurrence in [items_with_lowercase_names]? *)
Fixpoint second_occurrence (first_item : string)
    (items_with_lowercase_names : list string) (occurrences : nat) : bool :=
  match items_with_lowercase_names with
  | [] => false
  | second_item :: rest =>
      if String.eqb (PyStr.lower first_item) (PyStr.lower second_item)
      then if Nat.eqb (S occurrences) 2 then true
           else second_occurrence first_item rest (S occurrences)
      else second_occurrence first_item rest occurrences
  end.

(** The outer loop: [almost_duplicates], in the order of the appends. *)
Fixpoint almost_duplicates_of (items items_with_lowercase_names : list string)
  : list string :=
  match items with
  | [] => []
  | first_item :: items' =>
      if second_occurrence first_item items_with_lowercase_names 0
      then first_item :: almost_duplicates_of items' items_with_lowercase_names
      else almost_duplicates_of items' items_with_lowercase_names
  end.

(** The part of [_find_almost_duplicate] that follows the reading of
    the items. *)
Definition almost_duplicates_among (items : list string) : list string :=
  let items_with_lowercase_names := map PyStr.lower items in
  if negb (Nat.eqb (length (PyStr.distinct items))
                   (length (PyStr.distinct items_with_lowercase_names)))
  then almost_duplicates_of items items_with_lowercase_names
  else [].

Definition _find_almost_duplicate (self : ConfigurationCore)
    (configuration_path : string) : result (list string) :=
  dict_or_list ← get self configuration_path VNone;
  items ← match dict_or_list with
           | VDict d => Ok (map VStr (Py.dict_keys d))
           | _ => Py.iter dict_or_list
           end;
  items ← strings_of items;
  Ok (almost_duplicates_among items).

(** The loop of [_find_almost_duplicates] over the protected sections. *)
Fixpoint scan_sections (self : ConfigurationCore) (paths : list string)
  : result unit :=
  match paths with
  | [] => Ok tt
  | path :: paths' =>
      section ← get self path (VInt 0);
      _ ← (if Py.truthy section
           then almost_duplicates ← _find_almost_duplicate self path;
                match almost_duplicates with
                | [] => Ok tt
                | _ :: _ => Raise (SystemExit (AlmostDuplicateKeys path almost_duplicates))
                end
           else Ok tt);
      scan_sections self paths'
  end.

Definition protected_sections : list string :=
  ["projects_and_groups"; "skip_groups"; "skip_projects"].

Definition _find_almost_duplicates (self : ConfigurationCore) : result unit :=
  scan_sections self protected_sections.

(** *** Loading

    The file system, the environment and the YAML parser are the
    surroundings of [_load_config]. *)
Section Loading.

(** [yaml.safe_load] on the text of the configuration *)
Variable yaml_safe_load : string -> result value.
Variable textwrap_dedent : string -> string.
(** [open(config_path, "r")] and the reading of the file *)
Variable open_read : string -> result string.
(** [os.environ["APP_HOME"]], when it is set *)
Variable APP_HOME : option string.
(** [str(Path.home())] and [os.getcwd()] *)
Variable home : string.
Variable getcwd : string.
Variable path_join : string -> string -> string.
Variable path_dirname : string -> string.

(** Truth value of an optional string argument ([None] or [str]). *)
Definition given (arg : option string) : bool :=
  match arg with
  | Some s => negb (String.eqb s "")
  | None => false
  end.

(** The three cases that settle [config_path] in the [else] branch. *)
Definition resolve_config_path (config_path : option string) : string :=
  match APP_HOME with
  | Some app_home => path_join app_home "config.yml"
  | None =>
      match config_path with
      | Some p =>
          if negb (given config_path)
          then path_join (path_join home ".gitlabform") "config.yml"
          else if existsb (String.eqb p) [path_join "." "config.yml"; "config.yml"]
          then path_join getcwd "config.yml"
          else p
      | None => path_join (path_join home ".gitlabform") "config.yml"
      end
  end.

(** The [else] branch of the [try] block, from the opening of the file
    to the two checks on the top level of the tree. *)
Definition load_from_path (config_path : string) : result ConfigurationCore :=
  text ← open_read config_path;
  tree ← yaml_safe_load text;
  let self := {| config := tree; config_dir := path_dirname config_path |} in
  example_config ← Py.dict_get_method (config self) "example_config" VNone;
  if Py.truthy example_config then Raise (SystemExit ExampleConfigDetected)
  else
    config_version ← Py.dict_get_method (config self) "config_version" (VInt 1);
    if Py.ne_2 config_version then Raise (SystemExit UnsupportedConfigVersion)
    else Ok self.

(** The [if config_string] branch of the [try] block. *)
Definition load_from_string (config_string : string) : result ConfigurationCore :=
  tree ← yaml_safe_load (textwrap_dedent config_string);
  Ok {| config := tree; config_dir := "." |}.

(** The two [except] clauses; [config_path] is the variable as the
    [try] block left it. *)
Definition load_handlers (config_path : option string)
    (body : result ConfigurationCore) : result ConfigurationCore :=
  match body with
  | Ok self => Ok self
  | Raise e =>
      if is_IOError e then Raise (ConfigFileNotFoundException config_path)
      else if is_Exception e then Raise (ConfigInvalidException e)
      else Raise e
  end.

Definition _load_config (config_string config_path : option string)
  : result ConfigurationCore :=
  if given config_path && given config_string
  then Raise (SystemExit ConfigSourceConflict)
  else
    match config_string with
    | Some s =>
        if given config_string
        then load_handlers config_path (load_from_string s)
        else let config_path := resolve_config_path config_path in
             load_handlers (Some config_path) (load_from_path config_path)
    | None =>
        let config_path := resolve_config_path config_path in
        load_handlers (Some config_path) (load_from_path config_path)
    end.

(** [ConfigurationCore.__init__], which [Configuration.__init__] calls
    before it builds its two helpers. *)
Definition __init__ (config_path config_string : option string)
  : result ConfigurationCore :=
  self ← _load_config config_string config_path;
  _ ← _find_almost_duplicates self;
  Ok self.

End Loading.

End Lower.

End Core.

(** ** projects.py: [ConfigurationProjects] *)

Module Projects.

Section Projects.

Context {L : PyStr.Lower}.

(** [ConfigurationGroups.get_effective_subgroup_config] of groups.py,
    which is not among the sources: the resolver of a subgroup chain
    ["g1/g2/..."] on the configuration it was built with. *)
Variable get_effective_subgroup_config :
  ConfigurationCore -> string -> result value.

(** [self.config] of a [ConfigurationProjects] is the
    [ConfigurationCore] it was built with. *)
Definition get_projects (self_config : ConfigurationCore) : result (list string) :=
  projects_and_groups ← Core.get self_config "projects_and_groups" VNone;
  keys ← Py.keys_method projects_and_groups;
  let projects :=
    List.filter (fun element =>
                   negb (String.eqb element "*")
                   && negb (PyStr.endswith element "/*"))
                keys in
  Ok (PyStr.sorted projects).

Definition get_effective_config_for_project (self_config : ConfigurationCore)
    (group_and_project : string) : result value :=
  common_config ← Core.get_common_config self_config;
  '(group, project) ← match PyStr.rsplit1 "/" group_and_project with
                       | Some parts => Ok parts
                       | None => Raise ValueError
                       end;
  group_config ← (if PyStr.contains "/" group
                  then get_effective_subgroup_config self_config group
                  else Core.get_group_config self_config group);
  project_config ← Core.get_project_config self_config group_and_project;
  common_and_group_config ← Core.merge_configs common_config group_config;
  effective_config ← Core.merge_configs common_and_group_config project_config;
  Ok effective_config.

End Projects.

End Projects.

(** ** The object store

    [merge_configs] hands its arguments to [mergedeep.merge], which
    works by updating its destination in place. Here the objects live in
    a store, a dict or a list holds references, and every assignment is
    a write to the store. *)

Module Store.

Abbreviation loc := nat.

(** What a variable or a slot of a container holds: an immutable scalar
    or a reference to a dict or list of the store. *)
Inductive pyval : Type :=
| PNone
| PBool (b : bool)
| PInt (n : Z)
| PStr (s : string)
| PRef (l : loc).

Inductive obj : Type :=
| OList (elements : list pyval)
| ODict (items : list (string * pyval)).

(** The object at address [l] is the [l]-th one; a new object goes last. *)
Abbreviation heap := (list obj).

Inductive outcome (A : Type) : Type :=
| Returns (a : A)
| Raises (e : exn)
| OutOfFuel
| Dangling.
Arguments Returns {A} a.
Arguments Raises {A} e.
Arguments OutOfFuel {A}.
Arguments Dangling {A}.

Definition M (A : Type) : Type := heap -> heap * outcome A.

Definition ret {A} (a : A) : M A := fun h => (h, Returns a).

Definition bind {A B} (m : M A) (f : A -> M B) : M B := fun h =>
  match m h with
  | (h', Returns a) => f a h'
  | (h', Raises e) => (h', Raises e)
  | (h', OutOfFuel) => (h', OutOfFuel)
  | (h', Dangling) => (h', Dangling)
  end.

Definition raise {A} (e : exn) : M A := fun h => (h, Raises e).
Definition out_of_fuel {A} : M A := fun h => (h, OutOfFuel).

#[global] Instance M_ret : MRet M := @ret.
#[global] Instance M_bind : MBind M := fun A B f m => bind m f.

Definition alloc (o : obj) : M loc := fun h => (h ++ [o], Returns (length h)).

Definition load (l : loc) : M obj := fun h =>
  match h !! l with
  | Some o => (h, Returns o)
  | None => (h, Dangling)
  end.

Definition store (l : loc) (o : obj) : M unit := fun h => (<[l := o]> h, Returns tt).

(** [d[key] = v] *)
Definition dict_setitem (d : loc) (key : string) (v : pyval) : M unit :=
  o ← load d;
  match o with
  | ODict items => store d (ODict (Py.dict_set key v items))
  | OList _ => raise TypeError
  end.

(** [y.append(v)] *)
Definition list_append (y : loc) (v : pyval) : M unit :=
  o ← load y;
  match o with
  | OList elements => store y (OList (elements ++ [v]))
  | ODict _ => raise AttributeError
  end.

(** [copy.deepcopy(x, memo)]: a scalar is its own copy; a container
    already in [memo] is copied once; a new container is entered in
    [memo] before its contents are copied into it. *)
Fixpoint deepcopy (fuel : nat) (x : pyval) (memo : gmap loc loc)
  : M (pyval * gmap loc loc) :=
  match x with
  | PRef l =>
      match memo !! l with
      | Some y => ret (PRef y, memo)
      | None =>
          match fuel with
          | O => out_of_fuel
          | S fuel' =>
              o ← load l;
              match o with
              | ODict items =>
                  y ← alloc (ODict []);
                  (fix for_item (items : list (string * pyval)) (memo : gmap loc loc)
                     : M (pyval * gmap loc loc) :=
                     match items with
                     | [] => ret (PRef y, memo)
                     | (key, value) :: items' =>
                         c ← deepcopy fuel' value memo;
                         _ ← dict_setitem y key (fst c);
                         for_item items' (snd c)
                     end) items (<[l := y]> memo)
              | OList elements =>
                  y ← alloc (OList []);
                  (fix for_element (elements : list pyval) (memo : gmap loc loc)
                     : M (pyval * gmap loc loc) :=
                     match elements with
                     | [] => ret (PRef y, memo)
                     | a :: elements' =>
                         c ← deepcopy fuel' a memo;
                         _ ← list_append y (fst c);
                         for_element elements' (snd c)
                     end) elements (<[l := y]> memo)
              end
          end
      end
  | _ => ret (x, memo)
  end.

(** The keys [for key in src] goes through. *)
Definition iter_keys (src : pyval) : M (list string) :=
  match src with
  | PRef l =>
      o ← load l;
      match o with
      | ODict items => ret (Py.dict_keys items)
      | OList [] => ret []
      | OList (_ :: _) => raise TypeError
      end
  | PStr EmptyString => ret []
  | _ => raise TypeError
  end.

(** [src[key]] for a key of the dict [src] *)
Definition getitem (src : pyval) (key : string) : M pyval :=
  match src with
  | PRef l =>
      o ← load l;
      match o with
      | ODict items =>
          match Py.dict_get key items with
          | Some v => ret v
          | None => raise KeyError
          end
      | OList _ => raise TypeError
      end
  | _ => raise TypeError
  end.

(** [isinstance(x, Mapping)] *)
Definition is_mapping (x : pyval) : M bool :=
  match x with
  | PRef l =>
      o ← load l;
      match o with
      | ODict _ => ret true
      | OList _ => ret false
      end
  | _ => ret false
  end.

(** Modelled from the spec: [mergedeep._deepmerge] with the default
    strategy, on the store. The destination [dst] is updated in place,
    one key of [src] after the other. *)
Fixpoint _deepmerge (fuel : nat) (dst : loc) (src : pyval) : M unit :=
  match fuel with
  | O => out_of_fuel
  | S fuel' =>
      keys ← iter_keys src;
      (fix for_key (keys : list string) : M unit :=
         match keys with
         | [] => ret tt
         | key :: keys' =>
             d ← load dst;
             sv ← getitem src key;
             _ ← match d with
                  | ODict items =>
                      match Py.dict_get key items with
                      | Some dv =>
                          a ← is_mapping dv;
                          b ← is_mapping sv;
                          match dv with
                          | PRef dl =>
                              if a && b then _deepmerge fuel' dl sv
                              else c ← deepcopy fuel' sv ∅;
                                   dict_setitem dst key (fst c)
                          | _ => c ← deepcopy fuel' sv ∅;
                                 dict_setitem dst key (fst c)
                          end
                      | None =>
                          c ← deepcopy fuel' sv ∅;
                          dict_setitem dst key (fst c)
                      end
                  | OList _ => raise TypeError
                  end;
             for_key keys'
         end) keys
  end.

(** [merge(destination, *sources)] *)
Fixpoint merge (fuel : nat) (destination : loc) (sources : list pyval) : M loc :=
  match sources with
  | [] => ret destination
  | src :: sources' =>
      _ ← _deepmerge fuel destination src;
      merge fuel destination sources'
  end.

(** [dict(d)]: a new dict with the items of [d] *)
Definition dict_of (d : loc) : M loc :=
  o ← load d;
  match o with
  | ODict items => alloc (ODict items)
  | OList _ => raise TypeError
  end.

(** [ConfigurationCore.merge_configs] on the store:
    [dict(merge({}, more_general_config, more_specific_config))] *)
Definition merge_configs (fuel : nat) (more_general_config more_specific_config : pyval)
  : M pyval :=
  empty ← alloc (ODict []);
  merged ← merge fuel empty [more_general_config; more_specific_config];
  result ← dict_of merged;
  ret (PRef result).

(** The tree an object of the store stands for, read to depth [fuel]. *)
Fixpoint read (fuel : nat) (h : heap) (x : pyval) : option value :=
  match x with
  | PNone => Some VNone
  | PBool b => Some (VBool b)
  | PInt n => Some (VInt n)
  | PStr s => Some (VStr s)
  | PRef l =>
      match fuel with
      | O => None
      | S fuel' =>
          match h !! l with
          | Some (OList elements) =>
              option_map VList
                ((fix read_all (elements : list pyval) : option (list value) :=
                    match elements with
                    | [] => Some []
                    | a :: elements' =>
                        match read fuel' h a, read_all elements' with
                        | Some v, Some vs => Some (v :: vs)
                        | _, _ => None
                        end
                    end) elements)
          | Some (ODict items) =>
              option_map VDict
                ((fix read_items (items : list (string * pyval))
                    : option (list (string * value)) :=
                    match items with
                    | [] => Some []
                    | (k, a) :: items' =>
                        match read fuel' h a, read_items items' with
                        | Some v, Some vs => Some ((k, v) :: vs)
                        | _, _ => None
                        end
                    end) items)
          | None => None
          end
      end
  end.

(** *** The invariant of a call

    [h0] is the store at the call, [h] a store during it. *)

(** A slot that holds no reference below [n]. *)
Definition val_fresh (n : nat) (v : pyval) : Prop :=
  match v with
  | PRef l => n <= l
  | _ => True
  end.

Definition obj_fresh (n : nat) (o : obj) : Prop :=
  match o with
  | OList elements => List.Forall (val_fresh n) elements
  | ODict items => List.Forall (fun kv => val_fresh n (snd kv)) items
  end.

Definition memo_fresh (n : nat) (memo : gmap loc loc) : Prop :=
  forall l y, memo !! l = Some y -> n <= y.

(** Every object of [h0] is in [h] as it was, and the objects made
    since refer to objects made since. *)
Definition frame (h0 h : heap) : Prop :=
  length h0 <= length h
  /\ (forall l, l < length h0 -> h !! l = h0 !! l)
  /\ (forall l o, length h0 <= l -> h !! l = Some o -> obj_fresh (length h0) o).

(** [m] keeps the invariant, however it ends, and what it returns
    satisfies [Q]. *)
Definition safe (h0 : heap) {A} (m : M A) (Q : A -> Prop) : Prop :=
  forall h, frame h0 h ->
            frame h0 (fst (m h)) /\ forall a, snd (m h) = Returns a -> Q a.

(** A slot of [h] that refers to an object of [h], if to any. *)
Definition val_in (h : heap) (v : pyval) : Prop :=
  match v with
  | PRef l => l < length h
  | _ => True
  end.

(** No object of [h] refers outside [h]. *)
Definition closed (h : heap) : Prop :=
  forall l o, h !! l = Some o ->
              match o with
              | OList elements => List.Forall (val_in h) elements
              | ODict items => List.Forall (fun kv => val_in h (snd kv)) items
              end.

End Store.

(** ** The specification's own notions *)

Module Spec.

Section Lower.

Context {L : PyStr.Lower}.

(** The value a path addresses (4.1): one exact key of a mapping per
    segment. *)
Inductive resolves : value -> list string -> value -> Prop :=
| resolves_here v : resolves v [] v
| resolves_step d segment v segments r :
    Py.dict_get segment d = Some v ->
    resolves v segments r ->
    resolves (VDict d) (segment :: segments) r.

(** A traversal stops at [v] on [segment] (4.1): [v] is not a mapping,
    or it is one without that key. *)
Definition stops_at (v : value) (segment : string) : Prop :=
  forall d, v = VDict d -> Py.dict_get segment d = None.

(** Some segment of the path is absent, or the value reached before it
    is not a mapping. *)
Definition unresolved (tree : value) (segments : list string) : Prop :=
  exists before segment after v,
    segments = before ++ segment :: after
    /\ resolves tree before v
    /\ stops_at v segment.

(** The segments of a path, joined by the delimiter. *)
Fixpoint join (sep : ascii) (segments : list string) : string :=
  match segments with
  | [] => EmptyString
  | [segment] => segment
  | segment :: segments' => segment +:+ String sep (join sep segments')
  end.

(** An entry of a skip-list against an item (4.2): equal when both are
    lower-cased, or the entry is [prefix/*] and the lower-cased item
    starts with the lower-cased prefix. *)
Definition skip_match (entry item : string) : Prop :=
  PyStr.lower item = PyStr.lower entry \/
  exists prefix rest,
    entry = prefix +:+ "/*" /\ PyStr.lower item = PyStr.lower prefix +:+ rest.

(** Two items of a section collide under lower-casing (3, 4.3). *)
Definition case_collision (items : list string) : Prop :=
  exists x y, In x items /\ In y items /\ x <> y /\ PyStr.lower x = PyStr.lower y.

(** The items whose lower-cased form is the lower-cased form of [x]. *)
Definition collision_group (x : string) (items : list string) : list string :=
  List.filter (fun y => String.eqb (PyStr.lower y) (PyStr.lower x)) items.

(** What a section holds for the duplicate detector (4.3): the keys of
    a mapping, or the elements of a sequence of strings. *)
Definition section_items (section : value) (items : list string) : Prop :=
  (exists d, section = VDict d /\ items = Py.dict_keys d)
  \/ section = VList (map VStr items).

(** One representative per collision group: no two reported items, at
    different places of the report, are equal when lower-cased. *)
Definition one_representative_per_group (reported : list string) : Prop :=
  forall x, In x reported -> length (collision_group x reported) = 1.

(** A section is absent, empty or otherwise falsy: its path does not
    resolve, or it resolves to a value that counts as false. *)
Definition absent_or_falsy (tree : value) (path : string) : Prop :=
  unresolved tree (PyStr.split "|" path)
  \/ exists section,
       resolves tree (PyStr.split "|" path) section /\ Py.truthy section = false.

(** A key that names a project: neither ["*"] nor a key that ends in
    ["/*"] (3). *)
Definition is_project_key (key : string) : Prop :=
  key <> "*" /\ ~ exists prefix, key = prefix +:+ "/*".

(** Keys are unique within a mapping (3), at every depth. *)
Fixpoint well_formed (v : value) : Prop :=
  match v with
  | VDict d =>
      List.NoDup (Py.dict_keys d)
      /\ (fix all (d : list (string * value)) : Prop :=
            match d with
            | [] => True
            | (_, v') :: d' => well_formed v' /\ all d'
            end) d
  | VList l =>
      (fix all (l : list value) : Prop :=
         match l with
         | [] => True
         | v' :: l' => well_formed v' /\ all l'
         end) l
  | _ => True
  end.

(** [lookup_ci] (4.2): the value of the first key whose lower-cased form
    is the lower-cased [key]. *)
Fixpoint lookup_ci (mapping : list (string * value)) (key : string) : option value :=
  match mapping with
  | [] => None
  | (k, v) :: mapping' =>
      if String.eqb (PyStr.lower k) (PyStr.lower key) then Some v
      else lookup_ci mapping' key
  end.

(** A layer of the hierarchy (4.5, 4.6): the entry of [projects_and_groups]
    found for [key] without regard to case, the empty tree when there is
    none. *)
Definition layer (projects_and_groups : list (string * value)) (key : string) : value :=
  default (VDict []) (lookup_ci projects_and_groups key).

(** The mapping under [projects_and_groups], empty when the section is
    absent. *)
Definition projects_and_groups_of (tree : value) (pg : list (string * value)) : Prop :=
  resolves tree ["projects_and_groups"] (VDict pg)
  \/ (unresolved tree ["projects_and_groups"] /\ pg = []).

(** The merge of two trees (4.4): a key of both whose two values are
    mappings holds their merge; any other key of [specific] holds the value
    [specific] has; a key of [general] alone keeps its value. *)
#[warning="-register-all"]
Inductive merged :
  list (string * value) -> list (string * value) -> list (string * value) -> Prop :=
| merged_mappings general specific m :
    (forall key gd sd,
        Py.dict_get key general = Some (VDict gd) ->
        Py.dict_get key specific = Some (VDict sd) ->
        exists md, Py.dict_get key m = Some (VDict md) /\ merged gd sd md) ->
    (forall key sv,
        Py.dict_get key specific = Some sv ->
        (forall gd sd, ~ (Py.dict_get key general = Some (VDict gd) /\ sv = VDict sd)) ->
        Py.dict_get key m = Some sv) ->
    (forall key,
        Py.dict_get key specific = None ->
        Py.dict_get key m = Py.dict_get key general) ->
    merged general specific m.

End Lower.

End Spec.

(** ** Loop bodies, named for the proofs *)

Module Body.

(** The test the loop of [is_skipped_case_insensitively] makes on one
    element, already lower-cased or not, against the lower-cased item. *)
Definition entry_test {L : PyStr.Lower} (entry item : string) : bool :=
  String.eqb (PyStr.lower entry) item
  || PyStr.endswith (PyStr.lower entry) "/*"
     && PyStr.startswith item (PyStr.chop2 (PyStr.lower entry))
     && Nat.leb (String.length (PyStr.chop2 (PyStr.lower entry))) (String.length item).

(** What the loop of [_deepmerge] does to [dst] for one key of [src]. *)
Definition merge_step (key : string) (sv : value) (dst : list (string * value))
  : list (string * value) :=
  match Py.dict_get key dst, sv with
  | Some (VDict dd), VDict _ => Py.dict_set key (VDict (Mergedeep._deepmerge dd sv)) dst
  | _, _ => Py.dict_set key sv dst
  end.

End Body.

(** ** A sample environment

    A parser and a file system that know a few files, for the examples.
    Every string of the examples is made of ASCII characters, so [lower]
    is [PyStr.on_ascii] there. *)

Module Sample.

(** A configuration with the three protected sections. *)
Definition tree : value :=
  VDict [("config_version", VInt 2);
         ("projects_and_groups",
          VDict [("*", VDict [("a", VInt 1)]);
                 ("team/*", VDict [("a", VInt 2); ("b", VInt 1)]);
                 ("team/proj", VDict [("a", VInt 3)]);
                 ("Other/App", VDict [])]);
         ("skip_groups", VList [VStr "Archive/*"]);
         ("skip_projects", VList [VStr "team/old"])].

Definition parse (text : string) : result value :=
  if String.eqb text "config_version: 2" then Ok (VDict [("config_version", VInt 2)])
  else if String.eqb text "example_config: true"
  then Ok (VDict [("example_config", VBool true); ("config_version", VInt 2)])
  else if String.eqb text "team" then Ok tree
  else if String.eqb text "" then Ok VNone
  else Raise YAMLError.

Definition open_read (path : string) : result string :=
  if String.eqb path "/etc/gitlabform/config.yml" then Ok "config_version: 2"
  else if String.eqb path "/etc/gitlabform/example.yml" then Ok "example_config: true"
  else if String.eqb path "/etc/gitlabform/team.yml" then Ok "team"
  else if String.eqb path "/etc/gitlabform/empty.yml" then Ok ""
  else if String.eqb path "/etc/gitlabform/broken.yml" then Ok "{"
  else Raise OSError.

Definition dedent (text : string) : string := text.

Definition join (a b : string) : string := a +:+ "/" +:+ b.

Definition dirname (path : string) : string := "/etc/gitlabform".

(** [_load_config] and the constructor in this environment, [APP_HOME]
    unset. *)
Definition load : option string -> option string -> result ConfigurationCore :=
  Core._load_config parse dedent open_read None "/home/user" "/srv" join dirname.

Definition construct : option string -> option string -> result ConfigurationCore :=
  Core.__init__ (L := PyStr.on_ascii)
    parse dedent open_read None "/home/user" "/srv" join dirname.

Definition configuration : ConfigurationCore :=
  {| config := tree; config_dir := "." |}.

End Sample.

(** * Properties *)

(** ** Strings *)

Module PyStrFacts.

Lemma append_cons c s t : String c s +:+ t = String c (s +:+ t).
Proof. reflexivity. Qed.

Lemma lower_ascii_idem c : PyStr.lower_ascii (PyStr.lower_ascii c) = PyStr.lower_ascii c.
Proof. destruct c as [[] [] [] [] [] [] [] []]; reflexivity. Qed.

Lemma lower_idem s : PyStr.ascii_lower (PyStr.ascii_lower s) = PyStr.ascii_lower s.
Proof. induction s as [|c s IH]; simpl; [reflexivity|]. now rewrite lower_ascii_idem, IH. Qed.

Lemma lower_length s : String.length (PyStr.ascii_lower s) = String.length s.
Proof. induction s as [|c s IH]; simpl; [reflexivity|now rewrite IH]. Qed.

Lemma lower_drop n s : PyStr.drop n (PyStr.ascii_lower s) = PyStr.ascii_lower (PyStr.drop n s).
Proof. revert s; induction n; intros [|c s]; simpl; auto. Qed.

Lemma lower_take n s : PyStr.take n (PyStr.ascii_lower s) = PyStr.ascii_lower (PyStr.take n s).
Proof. revert s; induction n; intros [|c s]; simpl; auto. now rewrite IHn. Qed.

Lemma lower_ascii_slash c : PyStr.lower_ascii c = "/"%char -> c = "/"%char.
Proof. destruct c as [[] [] [] [] [] [] [] []]; vm_compute; congruence. Qed.

Lemma lower_ascii_star c : PyStr.lower_ascii c = "*"%char -> c = "*"%char.
Proof. destruct c as [[] [] [] [] [] [] [] []]; vm_compute; congruence. Qed.

Lemma lower_wildcard t : PyStr.ascii_lower t = "/*" <-> t = "/*".
Proof.
  split; [|intros ->; reflexivity].
  destruct t as [|a [|b [|c t]]]; simpl; try discriminate.
  intros H; injection H as Ha Hb.
  now rewrite (lower_ascii_slash _ Ha), (lower_ascii_star _ Hb).
Qed.

Lemma app_length s t : String.length (s +:+ t) = String.length s + String.length t.
Proof.
  induction s as [|c s IH]; [reflexivity|].
  rewrite append_cons. simpl. now rewrite IH.
Qed.

Lemma take_drop n s : PyStr.take n s +:+ PyStr.drop n s = s.
Proof.
  revert s; induction n; intros [|c s]; simpl; auto.
  rewrite append_cons. f_equal; apply IHn.
Qed.

Lemma take_app s t : PyStr.take (String.length s) (s +:+ t) = s.
Proof.
  induction s as [|c s IH]; [now destruct t|].
  rewrite append_cons. simpl. now rewrite IH.
Qed.

Lemma drop_app s t : PyStr.drop (String.length s) (s +:+ t) = t.
Proof. induction s as [|c s IH]; [reflexivity|]. rewrite append_cons. simpl. apply IH. Qed.

Lemma startswith_spec s p :
  PyStr.startswith s p = true <-> exists rest, s = p +:+ rest.
Proof.
  revert s; induction p as [|b p IH]; intros s; simpl.
  - split; eauto.
  - destruct s as [|a s].
    + split; [discriminate|]. intros [rest H]; discriminate.
    + rewrite andb_true_iff, IH. split.
      * intros [Hab [rest ->]]. apply Ascii.eqb_eq in Hab as ->. eauto.
      * intros [rest H]. injection H as -> ->. split; [apply Ascii.eqb_refl|eauto].
Qed.

Lemma endswith_spec s suf :
  PyStr.endswith s suf = true <-> exists p, s = p +:+ suf.
Proof.
  unfold PyStr.endswith. rewrite andb_true_iff, Nat.leb_le, String.eqb_eq. split.
  - intros [_ H]. exists (PyStr.take (String.length s - String.length suf) s).
    rewrite <- H at 2. symmetry. apply take_drop.
  - intros [p ->]. rewrite app_length. split; [lia|].
    replace (String.length p + String.length suf - String.length suf)
      with (String.length p) by lia.
    apply drop_app.
Qed.

Lemma chop2_wildcard p : PyStr.chop2 (p +:+ "/*") = p.
Proof.
  unfold PyStr.chop2. rewrite app_length. simpl.
  replace (String.length p + 2 - 2) with (String.length p) by lia.
  apply take_app.
Qed.

Lemma chop2_lower s : PyStr.chop2 (PyStr.ascii_lower s) = PyStr.ascii_lower (PyStr.chop2 s).
Proof. unfold PyStr.chop2. now rewrite lower_length, lower_take. Qed.

Lemma endswith_wildcard_lower s :
  PyStr.endswith (PyStr.ascii_lower s) "/*" = PyStr.endswith s "/*".
Proof.
  unfold PyStr.endswith. rewrite lower_length, lower_drop. f_equal.
  destruct (String.eqb_spec (PyStr.drop (String.length s - String.length "/*") s) "/*") as [E|E].
  - rewrite E. reflexivity.
  - apply String.eqb_neq. intros H. apply E. now apply lower_wildcard.
Qed.

Lemma lower_ascii_is_slash a :
  Ascii.eqb (PyStr.lower_ascii a) "/" = Ascii.eqb a "/".
Proof. destruct a as [[] [] [] [] [] [] [] []]; reflexivity. Qed.

Lemma ascii_lower_append s t :
  PyStr.ascii_lower (s +:+ t) = PyStr.ascii_lower s +:+ PyStr.ascii_lower t.
Proof.
  induction s as [|c s IH]; [reflexivity|].
  rewrite append_cons. simpl. now rewrite IH, append_cons.
Qed.

(** The ASCII fold has the three properties asked of [lower]. *)

Lemma on_ascii_idempotent : PyStr.lower_idempotent (L := PyStr.on_ascii).
Proof. exact lower_idem. Qed.

Lemma on_ascii_keeps_wildcard : PyStr.lower_keeps_wildcard (L := PyStr.on_ascii).
Proof.
  split.
  - intros prefix. apply ascii_lower_append.
  - intros s H. now rewrite <- endswith_wildcard_lower.
Qed.

Lemma on_ascii_keeps_rsplit : PyStr.lower_keeps_rsplit (L := PyStr.on_ascii).
Proof.
  intros s. unfold PyStr.lower, PyStr.on_ascii.
  induction s as [|a s IH]; [reflexivity|].
  cbn [PyStr.ascii_lower PyStr.rsplit1]. rewrite IH, lower_ascii_is_slash.
  destruct (PyStr.rsplit1 "/" s) as [[l r]|]; [reflexivity|].
  now destruct (Ascii.eqb a "/").
Qed.

End PyStrFacts.

(** ** The case-insensitive matcher *)

Module MatcherFacts.

Import PyStrFacts.

Section Lower.

Context {L : PyStr.Lower}.

Lemma skipped_loop_strings (an_array : list string) (item : string) :
  Core.skipped_loop (map VStr an_array) item
  = Ok (existsb (fun entry => Body.entry_test entry item) an_array).
Proof.
  induction an_array as [|entry an_array IH]; [reflexivity|].
  cbn [map Core.skipped_loop Py.lower_method existsb mbind result_bind].
  unfold Body.entry_test at 1.
  destruct (String.eqb (PyStr.lower entry) item); [reflexivity|].
  cbn [orb].
  destruct (PyStr.endswith (PyStr.lower entry) "/*"
            && PyStr.startswith item (PyStr.chop2 (PyStr.lower entry))
            && Nat.leb (String.length (PyStr.chop2 (PyStr.lower entry)))
                       (String.length item)); [reflexivity|].
  exact IH.
Qed.

Lemma entry_test_spec (entry item : string) :
  PyStr.lower_keeps_wildcard ->
  Body.entry_test entry (PyStr.lower item) = true <-> Spec.skip_match entry item.
Proof.
  intros [Hkeeps Honly].
  unfold Body.entry_test, Spec.skip_match.
  rewrite orb_true_iff, !andb_true_iff, String.eqb_eq, startswith_spec, Nat.leb_le.
  split.
  - intros [H|[[Hends [rest Hrest]] _]]; [left; congruence|right].
    apply Honly, endswith_spec in Hends as [p Hp].
    exists p, rest. split; [exact Hp|].
    rewrite Hrest, Hp, Hkeeps, chop2_wildcard. reflexivity.
  - intros [H|[p [rest [Hp Hrest]]]]; [left; congruence|right].
    subst entry. rewrite Hkeeps, chop2_wildcard, Hrest. repeat split; eauto.
    + apply endswith_spec. eauto.
    + rewrite app_length. lia.
Qed.

End Lower.

End MatcherFacts.

(** C6. [is_skipped_case_insensitively] answers true exactly when some
    entry of the skip-list matches the item: the two are equal once
    lower-cased, or the entry ends in the two characters [/*] and the
    lower-cased item starts with the lower-cased rest of the entry. This
    holds for every [lower] that keeps a trailing [/*] as [str.lower]
    does. For the list [["GroupA/*"]] the items "groupa/sub" and "GroupA"
    are skipped and "groupb/sub" is not; the prefix is a plain string
    prefix, so ["myteam/*"] also skips "myteamfoo". *)
Theorem is_skipped_case_insensitively_prefix_match {L : PyStr.Lower} :
  PyStr.lower_keeps_wildcard ->
  (forall (an_array : list string) (item : string),
      exists b : bool,
        Core.is_skipped_case_insensitively (VList (map VStr an_array)) item = Ok b
        /\ (b = true <-> Exists (fun entry => Spec.skip_match entry item) an_array))
  /\ Core.is_skipped_case_insensitively (L := PyStr.on_ascii)
       (VList [VStr "GroupA/*"]) "groupa/sub" = Ok true
  /\ Core.is_skipped_case_insensitively (L := PyStr.on_ascii)
       (VList [VStr "GroupA/*"]) "groupb/sub" = Ok false
  /\ Core.is_skipped_case_insensitively (L := PyStr.on_ascii)
       (VList [VStr "GroupA/*"]) "GroupA" = Ok true
  /\ Core.is_skipped_case_insensitively (L := PyStr.on_ascii)
       (VList [VStr "myteam/*"]) "myteamfoo" = Ok true.
Proof.
  intros Hkeeps.
  split; [|repeat split; reflexivity].
  intros an_array item.
  exists (existsb (fun entry => Body.entry_test entry (PyStr.lower item)) an_array).
  split.
  - unfold Core.is_skipped_case_insensitively. cbn [Py.iter mbind result_bind].
    apply MatcherFacts.skipped_loop_strings.
  - rewrite existsb_exists, Stdlib.Lists.List.Exists_exists. split.
    + intros [entry [Hin Ht]]. exists entry. split; [exact Hin|].
      now apply MatcherFacts.entry_test_spec.
    + intros [entry [Hin Hm]]. exists entry. split; [exact Hin|].
      now apply MatcherFacts.entry_test_spec.
Qed.

Section OnAscii.

Local Existing Instance PyStr.on_ascii.

Lemma is_skipped_case_insensitively_prefix_match_witness :
  PyStr.lower_keeps_wildcard
  /\ exists b : bool,
       Core.is_skipped_case_insensitively (VList (map VStr ["Archive/*"; "Team/Old"]))
         "ARCHIVE/2019" = Ok b
       /\ (b = true
           <-> Exists (fun entry => Spec.skip_match entry "ARCHIVE/2019")
                 ["Archive/*"; "Team/Old"]).
Proof.
  split; [exact PyStrFacts.on_ascii_keeps_wildcard|].
  exact (proj1 (is_skipped_case_insensitively_prefix_match
                  PyStrFacts.on_ascii_keeps_wildcard)
           ["Archive/*"; "Team/Old"] "ARCHIVE/2019").
Defined.

End OnAscii.

(** ** The tree accessor *)

Module AccessorFacts.

Import PyStrFacts.

Lemma append_nil_r s : s +:+ EmptyString = s.
Proof. induction s as [|c s IH]; [reflexivity|]. rewrite append_cons. now rewrite IH. Qed.

Lemma append_assoc s t u : (s +:+ t) +:+ u = s +:+ (t +:+ u).
Proof. induction s as [|c s IH]; [reflexivity|]. rewrite !append_cons. now rewrite IH. Qed.

Lemma split_from_nonempty sep acc s : PyStr.split_from sep acc s <> [].
Proof.
  revert acc; induction s as [|a s IH]; intros acc; simpl; [discriminate|].
  destruct (Ascii.eqb a sep); [discriminate|apply IH].
Qed.

Lemma join_cons sep segment segments :
  segments <> [] ->
  Spec.join sep (segment :: segments) = segment +:+ String sep (Spec.join sep segments).
Proof. destruct segments; [congruence|reflexivity]. Qed.

Lemma join_split_from sep acc s :
  Spec.join sep (PyStr.split_from sep acc s) = acc +:+ s.
Proof.
  revert acc; induction s as [|a s IH]; intros acc; simpl.
  - now rewrite append_nil_r.
  - destruct (Ascii.eqb_spec a sep) as [->|Hne].
    + rewrite join_cons by apply split_from_nonempty. now rewrite IH.
    + rewrite IH, append_assoc. reflexivity.
Qed.

Lemma contains_app sep s t :
  PyStr.contains sep (s +:+ t) = PyStr.contains sep s || PyStr.contains sep t.
Proof.
  induction s as [|c s IH]; [reflexivity|].
  rewrite append_cons. simpl. now rewrite IH, orb_assoc.
Qed.

Lemma split_from_segments sep acc s :
  PyStr.contains sep acc = false ->
  Forall (fun segment => PyStr.contains sep segment = false) (PyStr.split_from sep acc s).
Proof.
  revert acc; induction s as [|a s IH]; intros acc Hacc; simpl.
  - constructor; [exact Hacc|constructor].
  - destruct (Ascii.eqb a sep) eqn:E.
    + constructor; [exact Hacc|]. now apply IH.
    + apply IH. rewrite contains_app, Hacc. simpl. now rewrite E.
Qed.

Lemma descend_resolves tree segments r :
  Core.descend tree segments = Ok r <-> Spec.resolves tree segments r.
Proof.
  split.
  - revert tree; induction segments as [|segment segments IH]; intros tree; simpl.
    + intros [= ->]. constructor.
    + destruct tree; simpl; try discriminate.
      destruct (Py.dict_get segment d) eqn:E; simpl; [|discriminate].
      intros H. econstructor; eauto.
  - induction 1 as [|d segment v segments r Hget _ IH]; simpl; [reflexivity|].
    rewrite Hget. exact IH.
Qed.

Lemma descend_unresolved tree segments :
  (exists e, Core.descend tree segments = Raise e) <-> Spec.unresolved tree segments.
Proof.
  split.
  - revert tree; induction segments as [|segment segments IH]; intros tree; simpl.
    + intros [e [=]].
    + destruct (Py.getitem tree segment) as [v|e'] eqn:E; simpl.
      * intros H. destruct (IH v H) as (before & sg & after & w & -> & Hres & Hstop).
        exists (segment :: before), sg, after, w. repeat split; [|exact Hstop].
        destruct tree; simpl in E; try discriminate.
        destruct (Py.dict_get segment d) eqn:E'; [|discriminate].
        injection E as ->. econstructor; eauto.
      * intros _. exists [], segment, segments, tree. repeat split; [constructor|].
        intros d ->. simpl in E. now destruct (Py.dict_get segment d).
  - intros (before & sg & after & w & -> & Hres & Hstop).
    induction Hres as [w|d segment v segments r Hget _ IH]; simpl.
    + destruct w; simpl; eauto. rewrite (Hstop d eq_refl). simpl. eauto.
    + rewrite Hget. simpl. now apply IH.
Qed.

Lemma get_resolved self path default v :
  Spec.resolves (config self) (PyStr.split "|" path) v ->
  Core.get self path default = Ok v.
Proof. intros H. apply descend_resolves in H. unfold Core.get. now rewrite H. Qed.

Lemma get_unresolved self path default :
  Spec.unresolved (config self) (PyStr.split "|" path) ->
  Core.get self path default
  = if Py.is_not_None default then Ok default else Raise KeyNotFoundException.
Proof.
  intros H. apply descend_unresolved in H as [e H]. unfold Core.get. now rewrite H.
Qed.

Lemma resolved_or_unresolved tree segments :
  (exists v, Spec.resolves tree segments v) \/ Spec.unresolved tree segments.
Proof.
  destruct (Core.descend tree segments) as [v|e] eqn:E.
  - left. exists v. now apply descend_resolves.
  - right. apply descend_unresolved. eauto.
Qed.

Lemma get_Ok_inv self path default v :
  Core.get self path default = Ok v ->
  Spec.resolves (config self) (PyStr.split "|" path) v
  \/ (Spec.unresolved (config self) (PyStr.split "|" path)
      /\ v = default /\ default <> VNone).
Proof.
  unfold Core.get.
  destruct (Core.descend (config self) (PyStr.split "|" path)) as [w|e] eqn:E.
  - intros [= ->]. left. now apply descend_resolves.
  - intros H. right. split; [apply descend_unresolved; eauto|].
    destruct default; simpl in H; try discriminate; injection H as <-;
      split; congruence.
Qed.

End AccessorFacts.

(** C7. [get] splits its path at the pipes and goes down the tree one
    segment per step, by exact key. When every segment resolves, the
    value the path addresses is returned. When a segment is absent, or
    the value reached before it is not a mapping, the default is returned
    if the caller gave one (a default that is not [None]), and
    [KeyNotFoundException] is raised otherwise. One of the two is always
    the case. *)
Theorem get_descends_or_falls_back (self : ConfigurationCore) (path : string)
    (default : value) :
  let segments := PyStr.split "|" path in
  Spec.join "|" segments = path
  /\ Forall (fun segment => PyStr.contains "|" segment = false) segments
  /\ (forall v, Spec.resolves (config self) segments v ->
             Core.get self path default = Ok v)
  /\ (Spec.unresolved (config self) segments ->
      Core.get self path default
      = if Py.is_not_None default then Ok default else Raise KeyNotFoundException)
  /\ ((exists v, Spec.resolves (config self) segments v)
      \/ Spec.unresolved (config self) segments).
Proof.
  cbv zeta. split; [|split; [|split; [|split]]].
  - unfold PyStr.split. now rewrite AccessorFacts.join_split_from.
  - now apply AccessorFacts.split_from_segments.
  - intros v. apply AccessorFacts.get_resolved.
  - apply AccessorFacts.get_unresolved.
  - apply AccessorFacts.resolved_or_unresolved.
Qed.

(** C9. [None] as the default is no default: when the traversal fails,
    [get(path, None)] raises [KeyNotFoundException] as [get(path)] does,
    and whatever [get(path, None)] returns, [None] included, is the value
    the path addresses in the tree, never a fallback. A default that is
    not [None], such as [0], is returned. *)
Theorem get_default_None_is_no_default (self : ConfigurationCore) (path : string) :
  (Spec.unresolved (config self) (PyStr.split "|" path) ->
   Core.get self path VNone = Raise KeyNotFoundException)
  /\ (forall v, Core.get self path VNone = Ok v ->
                Spec.resolves (config self) (PyStr.split "|" path) v)
  /\ Core.get {| config := VDict []; config_dir := "." |} "skip_groups" VNone
     = Raise KeyNotFoundException
  /\ Core.get {| config := VDict []; config_dir := "." |} "skip_groups" (VInt 0)
     = Ok (VInt 0).
Proof.
  split; [|split; [|split; reflexivity]].
  - intros H. now rewrite AccessorFacts.get_unresolved.
  - intros v H. apply AccessorFacts.get_Ok_inv in H as [H|(_ & _ & H)]; [exact H|].
    congruence.
Qed.

(** ** Listing the projects *)

Module ListingFacts.

Lemma ascii_compare_N a b : Ascii.compare a b = N.compare (N_of_ascii a) (N_of_ascii b).
Proof. reflexivity. Qed.

Lemma compare_not_Gt_trans s1 s2 s3 :
  String.compare s1 s2 <> Gt -> String.compare s2 s3 <> Gt -> String.compare s1 s3 <> Gt.
Proof.
  revert s2 s3; induction s1 as [|a s1 IH]; intros [|b s2] [|c s3]; simpl;
    try congruence.
  rewrite !ascii_compare_N.
  destruct (N.compare_spec (N_of_ascii a) (N_of_ascii b)) as [Hab|Hab|Hab];
    destruct (N.compare_spec (N_of_ascii b) (N_of_ascii c)) as [Hbc|Hbc|Hbc];
    destruct (N.compare_spec (N_of_ascii a) (N_of_ascii c)) as [Hac|Hac|Hac];
    try congruence; try lia.
  apply IH.
Qed.

Lemma leb_not_Gt s1 s2 : String.leb s1 s2 = true <-> String.compare s1 s2 <> Gt.
Proof. unfold String.leb. destruct (String.compare s1 s2); split; congruence. Qed.

Lemma leb_trans s1 s2 s3 :
  String.leb s1 s2 = true -> String.leb s2 s3 = true -> String.leb s1 s3 = true.
Proof. rewrite !leb_not_Gt. apply compare_not_Gt_trans. Qed.

Lemma insert_sorted_perm x l : Permutation (PyStr.insert_sorted x l) (x :: l).
Proof.
  induction l as [|y l IH]; simpl; [reflexivity|].
  destruct (String.leb x y); [reflexivity|].
  rewrite IH. apply perm_swap.
Qed.

Lemma sorted_perm l : Permutation (PyStr.sorted l) l.
Proof.
  induction l as [|x l IH]; simpl; [reflexivity|].
  rewrite insert_sorted_perm. now constructor.
Qed.

Lemma insert_sorted_ascending x l :
  StronglySorted (fun a b => String.leb a b = true) l ->
  StronglySorted (fun a b => String.leb a b = true) (PyStr.insert_sorted x l).
Proof.
  induction 1 as [|y l Hl IH Hy]; simpl.
  - constructor; constructor.
  - destruct (String.leb x y) eqn:E.
    + constructor; [now constructor|].
      constructor; [exact E|].
      eapply Stdlib.Lists.List.Forall_impl; [|exact Hy]. intros z Hz. simpl in Hz.
      now apply leb_trans with y.
    + constructor; [exact IH|].
      assert (Hyx : String.leb y x = true).
      { destruct (String.leb_total x y); congruence. }
      eapply Permutation_Forall; [symmetry; apply insert_sorted_perm|].
      now constructor.
Qed.

Lemma sorted_ascending l :
  StronglySorted (fun a b => String.leb a b = true) (PyStr.sorted l).
Proof.
  induction l as [|x l IH]; simpl; [constructor|]. now apply insert_sorted_ascending.
Qed.

Lemma project_key_test key :
  negb (String.eqb key "*") && negb (PyStr.endswith key "/*") = true
  <-> Spec.is_project_key key.
Proof.
  unfold Spec.is_project_key.
  rewrite andb_true_iff, !negb_true_iff, String.eqb_neq.
  rewrite <- PyStrFacts.endswith_spec.
  destruct (PyStr.endswith key "/*"); split; intros [H1 H2]; split;
    congruence.
Qed.

End ListingFacts.

(** C8. On a tree whose [projects_and_groups] is a mapping,
    [get_projects] returns the keys of that mapping that are not ["*"]
    and do not end in ["/*"], each as often as it is a key, in ascending
    order of the character codes (upper case before lower case). The keys
    ["z/proj2"], ["*"], ["a/*"], ["a/proj1"] give ["a/proj1"],
    ["z/proj2"]. *)
Theorem get_projects_sorted_explicit_projects :
  (forall (self : ConfigurationCore) (top d : list (string * value)),
      config self = VDict top ->
      Py.dict_get "projects_and_groups" top = Some (VDict d) ->
      exists projects,
        Projects.get_projects self = Ok projects
        /\ (forall key, In key projects <->
                        In key (Py.dict_keys d) /\ Spec.is_project_key key)
        /\ Permutation projects
             (List.filter (fun key => negb (String.eqb key "*")
                                      && negb (PyStr.endswith key "/*"))
                          (Py.dict_keys d))
        /\ StronglySorted (fun a b => String.leb a b = true) projects)
  /\ Projects.get_projects
       {| config := VDict [("projects_and_groups",
                            VDict [("z/proj2", VDict []); ("*", VDict []);
                                   ("a/*", VDict []); ("a/proj1", VDict [])])];
          config_dir := "." |}
     = Ok ["a/proj1"; "z/proj2"]
  /\ String.leb "B/proj" "a/proj" = true.
Proof.
  split; [|split; reflexivity].
  intros self top d Hconfig Hget.
  eexists. split.
  - unfold Projects.get_projects, Core.get.
    change (PyStr.split "|" "projects_and_groups") with ["projects_and_groups"].
    rewrite Hconfig. cbn [Core.descend Py.getitem mbind result_bind].
    rewrite Hget. cbn [Py.keys_method mbind result_bind]. reflexivity.
  - split; [|split].
    + intros key. rewrite <- ListingFacts.project_key_test. split.
      * intros H. apply (Permutation_in _ (ListingFacts.sorted_perm _)) in H.
        now apply filter_In in H.
      * intros H. apply (Permutation_in _ (Permutation_sym (ListingFacts.sorted_perm _))).
        now apply filter_In.
    + apply ListingFacts.sorted_perm.
    + apply ListingFacts.sorted_ascending.
Qed.

(** ** The duplicate detector *)

Module DetectorFacts.

Section Lower.

Context {L : PyStr.Lower}.

Lemma distinct_nodup l : PyStr.distinct l = nodup string_dec l.
Proof.
  induction l as [|x l IH]; simpl; [reflexivity|].
  rewrite IH. destruct (in_dec string_dec x l) as [Hin|Hnin].
  - replace (existsb (String.eqb x) l) with true; [reflexivity|].
    symmetry. apply existsb_exists. exists x. split; [exact Hin|apply String.eqb_refl].
  - replace (existsb (String.eqb x) l) with false; [reflexivity|].
    symmetry. apply not_true_is_false. intros H.
    apply existsb_exists in H as [y [Hy E]]. apply String.eqb_eq in E. congruence.
Qed.

(** Lower-casing merges two different items: one distinct element less. *)
Lemma collision_shrinks items :
  Spec.case_collision items ->
  length (PyStr.distinct (map PyStr.lower items)) < length (PyStr.distinct items).
Proof.
  intros (x & y & Hx & Hy & Hne & He). rewrite !distinct_nodup.
  apply Nat.le_lt_trans
    with (length (map PyStr.lower (remove string_dec y (nodup string_dec items)))).
  - apply NoDup_incl_length; [apply NoDup_nodup|].
    intros z Hz. apply nodup_In, in_map_iff in Hz as [w [<- Hw]].
    destruct (string_dec w y) as [->|Hwy].
    + rewrite <- He. apply in_map, in_in_remove; [exact Hne|]. now apply nodup_In.
    + apply in_map, in_in_remove; [exact Hwy|]. now apply nodup_In.
  - rewrite length_map. apply remove_length_lt. now apply nodup_In.
Qed.

(** No collision: lower-casing keeps the distinct elements apart. *)
Lemma no_collision_same_size items :
  ~ Spec.case_collision items ->
  length (PyStr.distinct (map PyStr.lower items)) = length (PyStr.distinct items).
Proof.
  intros Hno. rewrite !distinct_nodup.
  rewrite <- (length_map PyStr.lower (nodup string_dec items)).
  apply Permutation_length, Stdlib.Sorting.Permutation.NoDup_Permutation.
  - apply NoDup_nodup.
  - apply NoDup_map_NoDup_ForallPairs; [|apply NoDup_nodup].
    intros a b Ha Hb Hab. apply nodup_In in Ha, Hb.
    destruct (string_dec a b) as [E|E]; [exact E|].
    exfalso. apply Hno. exists a, b. auto.
  - intros z. rewrite nodup_In, !in_map_iff.
    split; intros [w [<- Hw]]; exists w; (split; [reflexivity|]).
    + now apply nodup_In.
    + now apply nodup_In in Hw.
Qed.

Lemma second_occurrence_counts first_item lowered occurrences :
  occurrences <= 1 ->
  Core.second_occurrence first_item lowered occurrences
  = Nat.leb 2 (occurrences
               + length (List.filter
                           (fun second_item =>
                              String.eqb (PyStr.lower first_item) (PyStr.lower second_item))
                           lowered)).
Proof.
  revert occurrences; induction lowered as [|y lowered IH]; intros k Hk;
    cbn [Core.second_occurrence List.filter].
  - cbn [length]. rewrite Nat.add_0_r. symmetry. apply Nat.leb_gt. lia.
  - destruct (String.eqb (PyStr.lower first_item) (PyStr.lower y)); cbn [length].
    + destruct k as [|[|k]]; [| |lia].
      * change (Nat.eqb 1 2) with false. cbv iota. rewrite IH by lia. f_equal.
      * change (Nat.eqb 2 2) with true. cbv iota. symmetry. apply Nat.leb_le. lia.
    + now apply IH.
Qed.

Lemma second_occurrence_group first_item items :
  PyStr.lower_idempotent ->
  Core.second_occurrence first_item (map PyStr.lower items) 0
  = Nat.leb 2 (length (Spec.collision_group first_item items)).
Proof.
  intros Hidem.
  rewrite second_occurrence_counts by lia. rewrite Nat.add_0_l. f_equal.
  unfold Spec.collision_group.
  induction items as [|y items IH]; simpl; [reflexivity|].
  rewrite Hidem, (String.eqb_sym (PyStr.lower first_item)).
  destruct (String.eqb (PyStr.lower y) (PyStr.lower first_item)); simpl; now rewrite IH.
Qed.

Lemma almost_duplicates_of_filter items lowered :
  Core.almost_duplicates_of items lowered
  = List.filter (fun first_item => Core.second_occurrence first_item lowered 0) items.
Proof.
  induction items as [|x items IH]; simpl; [reflexivity|].
  destruct (Core.second_occurrence x lowered 0); now rewrite IH.
Qed.

Lemma almost_duplicates_among_collision items :
  PyStr.lower_idempotent ->
  Spec.case_collision items ->
  Core.almost_duplicates_among items
  = List.filter (fun x => Nat.leb 2 (length (Spec.collision_group x items))) items.
Proof.
  intros Hidem H. unfold Core.almost_duplicates_among.
  replace (Nat.eqb _ _) with false.
  - simpl. rewrite almost_duplicates_of_filter. apply filter_ext.
    intros x. now apply second_occurrence_group.
  - symmetry. apply Nat.eqb_neq. apply collision_shrinks in H. lia.
Qed.

Lemma almost_duplicates_among_no_collision items :
  ~ Spec.case_collision items -> Core.almost_duplicates_among items = [].
Proof.
  intros H. unfold Core.almost_duplicates_among.
  rewrite (no_collision_same_size _ H), Nat.eqb_refl. reflexivity.
Qed.

Lemma collision_reported items :
  PyStr.lower_idempotent ->
  Spec.case_collision items -> Core.almost_duplicates_among items <> [].
Proof.
  intros Hidem H. rewrite (almost_duplicates_among_collision _ Hidem H).
  destruct H as (x & y & Hx & Hy & Hne & He).
  assert (Hin : In x (List.filter
                        (fun x => Nat.leb 2 (length (Spec.collision_group x items)))
                        items)).
  { apply filter_In. split; [exact Hx|]. apply Nat.leb_le.
    change 2 with (length [x; y]). apply NoDup_incl_length.
    - constructor; [simpl; intuition congruence|]. constructor; [simpl; tauto|constructor].
    - intros z [<-|[<-|[]]]; apply filter_In; split; auto.
      + apply String.eqb_refl.
      + apply String.eqb_eq. congruence. }
  intros E. rewrite E in Hin. exact Hin.
Qed.

Lemma strings_of_strings items : Core.strings_of (map VStr items) = Ok items.
Proof. induction items as [|x items IH]; simpl; [reflexivity|]. now rewrite IH. Qed.

Lemma find_almost_duplicate_items self path section items :
  Core.get self path VNone = Ok section ->
  Spec.section_items section items ->
  Core._find_almost_duplicate self path = Ok (Core.almost_duplicates_among items).
Proof.
  intros Hget Hitems. unfold Core._find_almost_duplicate. rewrite Hget.
  destruct Hitems as [(d & -> & ->)| ->]; cbn [mbind result_bind Py.iter];
    now rewrite strings_of_strings.
Qed.

End Lower.

End DetectorFacts.

(** C4, as the code has it. The detector reads the keys of a mapping or
    the elements of a sequence of strings. When two different items are
    equal once lower-cased, it returns a non-empty list: every item whose
    lower-cased form occurs at least twice among the lower-cased items,
    in the original order, so every member of a collision group and not
    one representative of it; the inner loop lower-cases the lower-cased
    items once more, which changes nothing since [lower] is idempotent, as
    [str.lower] is. When no two different items collide, it returns the
    empty list, whatever [lower] is. *)
Theorem find_almost_duplicate_reports_every_member {L : PyStr.Lower}
    (self : ConfigurationCore) (path : string) (section : value) (items : list string) :
  Core.get self path VNone = Ok section ->
  Spec.section_items section items ->
  exists reported,
    Core._find_almost_duplicate self path = Ok reported
    /\ (PyStr.lower_idempotent ->
        Spec.case_collision items ->
        reported <> []
        /\ reported
           = List.filter (fun x => Nat.leb 2 (length (Spec.collision_group x items)))
                         items)
    /\ (~ Spec.case_collision items -> reported = []).
Proof.
  intros Hget Hitems. exists (Core.almost_duplicates_among items).
  split; [|split].
  - now apply DetectorFacts.find_almost_duplicate_items with section.
  - intros Hidem H. split.
    + now apply DetectorFacts.collision_reported.
    + now apply DetectorFacts.almost_duplicates_among_collision.
  - apply DetectorFacts.almost_duplicates_among_no_collision.
Qed.

Section OnAscii.

Local Existing Instance PyStr.on_ascii.

Lemma find_almost_duplicate_reports_every_member_witness :
  exists reported,
    Core._find_almost_duplicate
      {| config := VDict [("skip_groups", VList [VStr "Team"; VStr "other"; VStr "team"])];
         config_dir := "." |}
      "skip_groups" = Ok reported
    /\ (PyStr.lower_idempotent ->
        Spec.case_collision ["Team"; "other"; "team"] ->
        reported <> []
        /\ reported
           = List.filter
               (fun x => Nat.leb 2 (length (Spec.collision_group x ["Team"; "other"; "team"])))
               ["Team"; "other"; "team"])
    /\ (~ Spec.case_collision ["Team"; "other"; "team"] -> reported = []).
Proof.
  apply (find_almost_duplicate_reports_every_member
           {| config := VDict [("skip_groups", VList [VStr "Team"; VStr "other"; VStr "team"])];
              config_dir := "." |}
           "skip_groups"
           (VList [VStr "Team"; VStr "other"; VStr "team"])
           ["Team"; "other"; "team"]).
  - reflexivity.
  - right. reflexivity.
Defined.

(** C4 as stated fails: on the section [{"Team": {}, "team": {}}] the two
    keys collide, they form one collision group, and both are reported. *)
Lemma find_almost_duplicate_reports_both_members :
  Spec.case_collision ["Team"; "team"]
  /\ Core._find_almost_duplicate
       {| config := VDict [("projects_and_groups",
                            VDict [("Team", VDict []); ("team", VDict [])])];
          config_dir := "." |}
       "projects_and_groups" = Ok ["Team"; "team"]
  /\ ~ Spec.one_representative_per_group ["Team"; "team"].
Proof.
  split; [|split].
  - exists "Team", "team". repeat split; simpl; auto.
  - reflexivity.
  - intros H. specialize (H "Team" (or_introl eq_refl)). discriminate H.
Qed.

End OnAscii.

(** ** The scan at load time *)

Module ScanFacts.

Section Lower.

Context {L : PyStr.Lower}.

Lemma find_almost_duplicate_raises self path e :
  Core._find_almost_duplicate self path = Raise e ->
  e = KeyNotFoundException \/ e = TypeError \/ e = AttributeError.
Proof.
  unfold Core._find_almost_duplicate, Core.get.
  destruct (Core.descend (config self) (PyStr.split "|" path)) as [section|e'];
    cbn [Py.is_not_None mbind result_bind]; [|intros [= <-]; auto].
  assert (Hs : forall items e, Core.strings_of items = Raise e -> e = AttributeError).
  { induction items as [|[] items IH]; simpl; intros e0; try congruence.
    destruct (Core.strings_of items) eqn:E; simpl; [discriminate|].
    intros [= <-]. now apply IH. }
  destruct section; cbn [Py.iter mbind result_bind]; try (intros [= <-]; auto);
    match goal with
    | |- context [Core.strings_of ?l] =>
        destruct (Core.strings_of l) eqn:E; cbn [mbind result_bind];
          [discriminate|intros [= <-]; apply Hs in E; auto]
    end.
Qed.

(** The step of the scan on a section that counts as false. *)
Lemma scan_skips self path paths :
  (exists section, Core.get self path (VInt 0) = Ok section /\ Py.truthy section = false) ->
  Core.scan_sections self (path :: paths) = Core.scan_sections self paths.
Proof.
  intros (section & Hget & Hfalsy).
  cbn [Core.scan_sections]. rewrite Hget. cbn [mbind result_bind].
  rewrite Hfalsy. reflexivity.
Qed.

Lemma scan_without self path paths :
  (exists section, Core.get self path (VInt 0) = Ok section /\ Py.truthy section = false) ->
  Core.scan_sections self paths
  = Core.scan_sections self (remove string_dec path paths).
Proof.
  intros H. induction paths as [|p paths IH]; [reflexivity|].
  cbn [remove]. destruct (string_dec path p) as [<-|Hne].
  - now rewrite scan_skips.
  - cbn [Core.scan_sections]. now rewrite IH.
Qed.

Lemma scan_reports_scanned self paths path almost_duplicates :
  Core.scan_sections self paths
  = Raise (SystemExit (AlmostDuplicateKeys path almost_duplicates)) ->
  In path paths.
Proof.
  induction paths as [|p paths IH]; cbn [Core.scan_sections]; [discriminate|].
  destruct (Core.get self p (VInt 0)) as [section|e] eqn:Hget.
  - cbn [mbind result_bind]. destruct (Py.truthy section).
    + destruct (Core._find_almost_duplicate self p) as [[|d ds]|e] eqn:Hdup;
        cbn [mbind result_bind].
      * intros H. right. now apply IH.
      * intros [= <- _]. now left.
      * intros [= ->]. apply find_almost_duplicate_raises in Hdup.
        destruct Hdup as [|[|]]; discriminate.
    + cbn [mbind result_bind]. intros H. right. now apply IH.
  - unfold Core.get in Hget.
    destruct (Core.descend (config self) (PyStr.split "|" p)); discriminate.
Qed.

Lemma absent_or_falsy_get self path :
  Spec.absent_or_falsy (config self) path ->
  exists section, Core.get self path (VInt 0) = Ok section /\ Py.truthy section = false.
Proof.
  intros [H|(section & H & Hfalsy)].
  - exists (VInt 0). split; [|reflexivity]. now rewrite AccessorFacts.get_unresolved.
  - exists section. split; [|exact Hfalsy]. now apply AccessorFacts.get_resolved.
Qed.

End Lower.

End ScanFacts.

(** C10. A protected section that is absent, empty or otherwise falsy
    is skipped by the scan at load time: the scan goes as it does over
    the other sections alone, it never ends in the almost-duplicate error
    for that section, and so neither does the construction that loaded
    the tree. *)
Theorem falsy_section_is_skipped {L : PyStr.Lower}
    (yaml_safe_load : string -> result value) (textwrap_dedent : string -> string)
    (open_read : string -> result string) (APP_HOME : option string)
    (home getcwd : string) (path_join : string -> string -> string)
    (path_dirname : string -> string)
    (config_path config_string : option string)
    (self : ConfigurationCore) (path : string) :
  In path Core.protected_sections ->
  Spec.absent_or_falsy (config self) path ->
  Core._find_almost_duplicates self
  = Core.scan_sections self (remove string_dec path Core.protected_sections)
  /\ (forall almost_duplicates,
        Core._find_almost_duplicates self
        <> Raise (SystemExit (AlmostDuplicateKeys path almost_duplicates)))
  /\ (Core._load_config yaml_safe_load textwrap_dedent open_read APP_HOME home getcwd
        path_join path_dirname config_string config_path = Ok self ->
      forall almost_duplicates,
        Core.__init__ yaml_safe_load textwrap_dedent open_read APP_HOME home getcwd
          path_join path_dirname config_path config_string
        <> Raise (SystemExit (AlmostDuplicateKeys path almost_duplicates))).
Proof.
  intros Hin Hfalsy.
  pose proof (ScanFacts.absent_or_falsy_get _ _ Hfalsy) as Hget.
  assert (Hscan : Core._find_almost_duplicates self
                  = Core.scan_sections self (remove string_dec path Core.protected_sections)).
  { unfold Core._find_almost_duplicates. now apply ScanFacts.scan_without. }
  assert (Hnever : forall almost_duplicates,
             Core._find_almost_duplicates self
             <> Raise (SystemExit (AlmostDuplicateKeys path almost_duplicates))).
  { intros almost_duplicates H. rewrite Hscan in H.
    apply ScanFacts.scan_reports_scanned in H. now apply remove_In in H. }
  split; [exact Hscan|split; [exact Hnever|]].
  intros Hload almost_duplicates. unfold Core.__init__. rewrite Hload.
  cbn [mbind result_bind].
  destruct (Core._find_almost_duplicates self) as [[]|e] eqn:E; [discriminate|].
  intros [= ->]. now apply (Hnever almost_duplicates).
Qed.

Section OnAscii.

Local Existing Instance PyStr.on_ascii.

Lemma falsy_section_is_skipped_witness :
  Core._find_almost_duplicates
    {| config := VDict [("config_version", VInt 2); ("skip_groups", VList [])];
       config_dir := "." |}
  = Core.scan_sections
      {| config := VDict [("config_version", VInt 2); ("skip_groups", VList [])];
         config_dir := "." |}
      (remove string_dec "skip_groups" Core.protected_sections)
  /\ (forall almost_duplicates,
        Core._find_almost_duplicates
          {| config := VDict [("config_version", VInt 2); ("skip_groups", VList [])];
             config_dir := "." |}
        <> Raise (SystemExit (AlmostDuplicateKeys "skip_groups" almost_duplicates)))
  /\ (Core._load_config
        (fun _ => Ok (VDict [("config_version", VInt 2); ("skip_groups", VList [])]))
        (fun text => text) (fun _ => Raise OSError) None "/home/user" "/srv"
        (fun a b => a +:+ "/" +:+ b) (fun _ => ".")
        (Some "config_version: 2") None
      = Ok {| config := VDict [("config_version", VInt 2); ("skip_groups", VList [])];
              config_dir := "." |} ->
      forall almost_duplicates,
        Core.__init__
          (fun _ => Ok (VDict [("config_version", VInt 2); ("skip_groups", VList [])]))
          (fun text => text) (fun _ => Raise OSError) None "/home/user" "/srv"
          (fun a b => a +:+ "/" +:+ b) (fun _ => ".")
          None (Some "config_version: 2")
        <> Raise (SystemExit (AlmostDuplicateKeys "skip_groups" almost_duplicates))).
Proof.
  apply (falsy_section_is_skipped
           (fun _ => Ok (VDict [("config_version", VInt 2); ("skip_groups", VList [])]))
           (fun text => text) (fun _ => Raise OSError) None "/home/user" "/srv"
           (fun a b => a +:+ "/" +:+ b) (fun _ => ".")
           None (Some "config_version: 2")
           {| config := VDict [("config_version", VInt 2); ("skip_groups", VList [])];
              config_dir := "." |}
           "skip_groups").
  - simpl. auto.
  - right. exists (VList []). split; [|reflexivity].
    apply AccessorFacts.descend_resolves. reflexivity.
Defined.

End OnAscii.

(** ** Loading *)

Section LoadingFacts.

Context {L : PyStr.Lower}.

Variable yaml_safe_load : string -> result value.
Variable textwrap_dedent : string -> string.
Variable open_read : string -> result string.
Variable APP_HOME : option string.
Variable home : string.
Variable getcwd : string.
Variable path_join : string -> string -> string.
Variable path_dirname : string -> string.

Local Abbreviation resolve_config_path :=
  (Core.resolve_config_path APP_HOME home getcwd path_join).
Local Abbreviation load_from_path :=
  (Core.load_from_path yaml_safe_load open_read path_dirname).
Local Abbreviation _load_config :=
  (Core._load_config yaml_safe_load textwrap_dedent open_read APP_HOME home getcwd
     path_join path_dirname).

(** Without an inline string, [_load_config] is its [else] branch. *)
Lemma load_config_from_path config_path config_string :
  Core.given config_string = false ->
  _load_config config_string config_path
  = Core.load_handlers (Some (resolve_config_path config_path))
      (load_from_path (resolve_config_path config_path)).
Proof.
  intros Hgiven. unfold Core._load_config. rewrite Hgiven, andb_false_r.
  destruct config_string; reflexivity.
Qed.

(** With an inline string and no path, it is the other branch. *)
Lemma load_config_from_string config_path s :
  Core.given (Some s) = true ->
  Core.given config_path = false ->
  _load_config (Some s) config_path
  = Core.load_handlers config_path (Core.load_from_string yaml_safe_load textwrap_dedent s).
Proof.
  intros Hs Hp. unfold Core._load_config. rewrite Hs, Hp. reflexivity.
Qed.

(** The two checks of the [else] branch on a parsed mapping. *)
Lemma load_from_path_checks config_path text d :
  open_read config_path = Ok text ->
  yaml_safe_load text = Ok (VDict d) ->
  load_from_path config_path
  = if Py.truthy (default VNone (Py.dict_get "example_config" d))
    then Raise (SystemExit ExampleConfigDetected)
    else if Py.ne_2 (default (VInt 1) (Py.dict_get "config_version" d))
         then Raise (SystemExit UnsupportedConfigVersion)
         else Ok {| config := VDict d; config_dir := path_dirname config_path |}.
Proof.
  intros Hopen Hyaml. unfold Core.load_from_path. rewrite Hopen.
  cbn [mbind result_bind]. rewrite Hyaml.
  cbn [mbind result_bind config Py.dict_get_method].
  destruct (Py.dict_get "example_config" d) as [example_config|];
    cbn [mbind result_bind default];
    (destruct (Py.truthy _); [reflexivity|]);
    destruct (Py.dict_get "config_version" d) as [config_version|];
    reflexivity.
Qed.

End LoadingFacts.

(** C3, as the code has it. Constructed from a path (no inline string
    given), on a parsed mapping whose [example_config] is not truthy: a
    [config_version] that is absent or 1 ends the construction in the
    unsupported-version error, and one that is the integer 2 passes the
    check. Constructed from an inline string, the tree is taken as it is
    parsed: the two checks belong to the branch that reads a file. *)
Theorem config_version_checked_on_the_path_branch {L : PyStr.Lower}
    (yaml_safe_load : string -> result value) (textwrap_dedent : string -> string)
    (open_read : string -> result string) (APP_HOME : option string)
    (home getcwd : string) (path_join : string -> string -> string)
    (path_dirname : string -> string) :
  (forall (config_path config_string : option string) (text : string)
          (d : list (string * value)),
      Core.given config_string = false ->
      open_read (Core.resolve_config_path APP_HOME home getcwd path_join config_path)
      = Ok text ->
      yaml_safe_load text = Ok (VDict d) ->
      (forall v, Py.dict_get "example_config" d = Some v -> Py.truthy v = false) ->
      (Py.dict_get "config_version" d = None
       \/ Py.dict_get "config_version" d = Some (VInt 1) ->
       Core.__init__ yaml_safe_load textwrap_dedent open_read APP_HOME home getcwd
         path_join path_dirname config_path config_string
       = Raise (SystemExit UnsupportedConfigVersion))
      /\ (Py.dict_get "config_version" d = Some (VInt 2) ->
          Core._load_config yaml_safe_load textwrap_dedent open_read APP_HOME home getcwd
            path_join path_dirname config_string config_path
          = Ok {| config := VDict d;
                  config_dir :=
                    path_dirname
                      (Core.resolve_config_path APP_HOME home getcwd path_join
                         config_path) |}))
  /\ (forall (config_path : option string) (config_string : string) (tree : value),
        Core.given (Some config_string) = true ->
        Core.given config_path = false ->
        yaml_safe_load (textwrap_dedent config_string) = Ok tree ->
        Core._load_config yaml_safe_load textwrap_dedent open_read APP_HOME home getcwd
          path_join path_dirname (Some config_string) config_path
        = Ok {| config := tree; config_dir := "." |}).
Proof.
  split.
  - intros config_path config_string text d Hgiven Hopen Hyaml Hexample.
    pose proof (load_from_path_checks yaml_safe_load open_read path_dirname
                  _ _ _ Hopen Hyaml) as Hchecks.
    assert (Hex : Py.truthy (default VNone (Py.dict_get "example_config" d)) = false).
    { destruct (Py.dict_get "example_config" d) as [v|] eqn:E; [now apply Hexample|reflexivity]. }
    rewrite Hex in Hchecks. split.
    + intros Hversion. unfold Core.__init__.
      rewrite load_config_from_path by exact Hgiven. rewrite Hchecks.
      destruct Hversion as [-> | ->]; reflexivity.
    + intros Hversion. rewrite load_config_from_path by exact Hgiven.
      rewrite Hchecks, Hversion. reflexivity.
  - intros config_path config_string tree Hs Hp Hyaml.
    rewrite load_config_from_string by assumption.
    unfold Core.load_from_string. rewrite Hyaml. reflexivity.
Qed.

Section OnAscii.

Local Existing Instance PyStr.on_ascii.

(** C3 as stated fails. From the inline string, a tree without
    [config_version], or with [config_version: 1], is loaded and the
    construction succeeds; from a path, a tree with a truthy
    [example_config] and no [config_version] ends in the example-config
    error, not in the unsupported-version error. *)
Lemma inline_string_skips_the_version_check :
  Core.__init__
    (fun _ => Ok (VDict [("projects_and_groups", VDict [])]))
    (fun text => text) (fun _ => Raise OSError) None "/home/user" "/srv"
    (fun a b => a +:+ "/" +:+ b) (fun _ => ".")
    None (Some "projects_and_groups: {}")
  = Ok {| config := VDict [("projects_and_groups", VDict [])]; config_dir := "." |}
  /\ Core.__init__
       (fun _ => Ok (VDict [("config_version", VInt 1)]))
       (fun text => text) (fun _ => Raise OSError) None "/home/user" "/srv"
       (fun a b => a +:+ "/" +:+ b) (fun _ => ".")
       None (Some "config_version: 1")
     = Ok {| config := VDict [("config_version", VInt 1)]; config_dir := "." |}
  /\ Core.__init__
       (fun _ => Ok (VDict [("example_config", VBool true)]))
       (fun text => text) (fun _ => Ok "example_config: true") None "/home/user" "/srv"
       (fun a b => a +:+ "/" +:+ b) (fun _ => "/etc")
       (Some "/etc/config.yml") None
     = Raise (SystemExit ExampleConfigDetected).
Proof. repeat split. Qed.

Lemma config_version_checked_on_the_path_branch_witness :
  (Py.dict_get "config_version" [("skip_groups", VList [])] = None
   \/ Py.dict_get "config_version" [("skip_groups", VList [])] = Some (VInt 1) ->
   Core.__init__
     (fun _ => Ok (VDict [("skip_groups", VList [])]))
     (fun text => text) (fun _ => Ok "skip_groups: []") None "/home/user" "/srv"
     (fun a b => a +:+ "/" +:+ b) (fun _ => "/etc")
     (Some "/etc/config.yml") None
   = Raise (SystemExit UnsupportedConfigVersion))
  /\ (Py.dict_get "config_version" [("skip_groups", VList [])] = Some (VInt 2) ->
      Core._load_config
        (fun _ => Ok (VDict [("skip_groups", VList [])]))
        (fun text => text) (fun _ => Ok "skip_groups: []") None "/home/user" "/srv"
        (fun a b => a +:+ "/" +:+ b) (fun _ => "/etc")
        None (Some "/etc/config.yml")
      = Ok {| config := VDict [("skip_groups", VList [])];
              config_dir :=
                (fun _ => "/etc")
                  (Core.resolve_config_path None "/home/user" "/srv"
                     (fun a b => a +:+ "/" +:+ b) (Some "/etc/config.yml")) |}).
Proof.
  apply (proj1 (config_version_checked_on_the_path_branch
                  (fun _ => Ok (VDict [("skip_groups", VList [])]))
                  (fun text => text) (fun _ => Ok "skip_groups: []") None
                  "/home/user" "/srv" (fun a b => a +:+ "/" +:+ b) (fun _ => "/etc"))
               (Some "/etc/config.yml") None "skip_groups: []"
               [("skip_groups", VList [])]).
  - reflexivity.
  - reflexivity.
  - reflexivity.
  - intros v H. discriminate H.
Defined.

End OnAscii.

(** ** Absent sections *)

Module AbsenceFacts.

Section Lower.

Context {L : PyStr.Lower}.

Lemma except_KeyNotFound_converts {A} (body : result A) (a : A) :
  except_KeyNotFound body (Ok a) <> Raise KeyNotFoundException.
Proof. destruct body as [b|[]]; discriminate. Qed.

Lemma get_with_default self path default :
  default <> VNone -> exists v, Core.get self path default = Ok v.
Proof.
  intros Hd. unfold Core.get.
  destruct (Core.descend (config self) (PyStr.split "|" path)); [eauto|].
  destruct default; simpl; eauto. congruence.
Qed.

Lemma skipped_loop_raises an_array item e :
  Core.skipped_loop an_array item = Raise e -> e = AttributeError.
Proof.
  induction an_array as [|x an_array IH]; cbn [Core.skipped_loop]; [discriminate|].
  destruct x; cbn [Py.lower_method mbind result_bind]; try (intros [= <-]; reflexivity).
  destruct (String.eqb (PyStr.lower s) item); [discriminate|].
  destruct (_ && _); [discriminate|]. exact IH.
Qed.

Lemma is_skipped_raises an_array item e :
  Core.is_skipped_case_insensitively an_array item = Raise e ->
  e = TypeError \/ e = AttributeError.
Proof.
  unfold Core.is_skipped_case_insensitively.
  destruct an_array; cbn [Py.iter mbind result_bind];
    try (intros [= <-]; now left);
    intros H; apply skipped_loop_raises in H; now right.
Qed.

Lemma merge_configs_raises general specific e :
  Core.merge_configs general specific = Raise e -> e = TypeError.
Proof.
  unfold Core.merge_configs. cbn [Mergedeep.merge mbind result_bind].
  assert (Hs : forall dst src e', Mergedeep.merge_source dst src = Raise e' -> e' = TypeError).
  { intros dst src e'. unfold Mergedeep.merge_source.
    destruct src as [| | |[]|[]|]; congruence. }
  destruct (Mergedeep.merge_source [] general) as [d1|e1] eqn:E1;
    cbn [mbind result_bind]; [|intros [= <-]; now apply Hs in E1].
  destruct (Mergedeep.merge_source d1 specific) as [d2|e2] eqn:E2;
    cbn [mbind result_bind]; [discriminate|intros [= <-]; now apply Hs in E2].
Qed.

End Lower.

End AbsenceFacts.

(** C5, as the code has it. The callers in core.py that tolerate
    absence never pass [KeyNotFoundException] on: [get_group_config] and
    [get_project_config] catch it and [get_common_config],
    [is_project_skipped] and [is_group_skipped] give a default, so that
    on a tree without the section they return the empty mapping or
    false; [get_effective_config_for_project] raises it only if the
    subgroup resolver does. *)
Theorem absence_is_empty_or_false {L : PyStr.Lower}
    (get_effective_subgroup_config : ConfigurationCore -> string -> result value)
    (self : ConfigurationCore) :
  (forall name,
      Core.get_group_config self name <> Raise KeyNotFoundException
      /\ Core.get_project_config self name <> Raise KeyNotFoundException
      /\ Core.get_common_config self <> Raise KeyNotFoundException
      /\ Core.is_project_skipped self name <> Raise KeyNotFoundException
      /\ Core.is_group_skipped self name <> Raise KeyNotFoundException)
  /\ (Spec.unresolved (config self) (PyStr.split "|" "projects_and_groups") ->
      forall name,
        Core.get_group_config self name = Ok (VDict [])
        /\ Core.get_project_config self name = Ok (VDict []))
  /\ (Spec.unresolved (config self) (PyStr.split "|" "projects_and_groups|*") ->
      Core.get_common_config self = Ok (VDict []))
  /\ (Spec.unresolved (config self) (PyStr.split "|" "skip_projects") ->
      forall project, Core.is_project_skipped self project = Ok false)
  /\ (Spec.unresolved (config self) (PyStr.split "|" "skip_groups") ->
      forall group, Core.is_group_skipped self group = Ok false)
  /\ ((forall group,
          get_effective_subgroup_config self group <> Raise KeyNotFoundException) ->
      forall group_and_project,
        Projects.get_effective_config_for_project get_effective_subgroup_config
          self group_and_project
        <> Raise KeyNotFoundException).
Proof.
  assert (Hgroup : forall name, Core.get_group_config self name <> Raise KeyNotFoundException)
    by (intros name; apply AbsenceFacts.except_KeyNotFound_converts).
  assert (Hproject : forall name,
             Core.get_project_config self name <> Raise KeyNotFoundException)
    by (intros name; apply AbsenceFacts.except_KeyNotFound_converts).
  assert (Hcommon : Core.get_common_config self <> Raise KeyNotFoundException).
  { unfold Core.get_common_config.
    destruct (AbsenceFacts.get_with_default self "projects_and_groups|*" (VDict []))
      as [v ->]; discriminate. }
  assert (Hskip : forall section name,
             (an_array ← Core.get self section (VList []);
              Core.is_skipped_case_insensitively an_array name)
             <> Raise KeyNotFoundException).
  { intros section name.
    destruct (AbsenceFacts.get_with_default self section (VList [])) as [v ->];
      [discriminate|].
    cbn [mbind result_bind]. intros H.
    apply AbsenceFacts.is_skipped_raises in H as [H|H]; discriminate. }
  split; [|split; [|split; [|split; [|split]]]].
  - intros name. repeat split; auto; apply Hskip.
  - intros H name. unfold Core.get_group_config, Core.get_project_config.
    rewrite (AccessorFacts.get_unresolved _ _ _ H). split; reflexivity.
  - intros H. unfold Core.get_common_config.
    now rewrite (AccessorFacts.get_unresolved _ _ _ H).
  - intros H project. unfold Core.is_project_skipped.
    now rewrite (AccessorFacts.get_unresolved _ _ _ H).
  - intros H group. unfold Core.is_group_skipped.
    now rewrite (AccessorFacts.get_unresolved _ _ _ H).
  - intros Hsub group_and_project. unfold Projects.get_effective_config_for_project.
    destruct (Core.get_common_config self) as [common|e] eqn:Ec;
      cbn [mbind result_bind]; [|congruence].
    destruct (PyStr.rsplit1 "/" group_and_project) as [[group project]|];
      cbn [mbind result_bind]; [|discriminate].
    destruct (PyStr.contains "/" group).
    + destruct (get_effective_subgroup_config self group) as [g|e] eqn:Eg;
        cbn [mbind result_bind]; [|specialize (Hsub group); congruence].
      destruct (Core.get_project_config self group_and_project) as [p|e] eqn:Ep;
        cbn [mbind result_bind]; [|specialize (Hproject group_and_project); congruence].
      destruct (Core.merge_configs common g) as [cg|e] eqn:E1;
        cbn [mbind result_bind];
        [|apply AbsenceFacts.merge_configs_raises in E1; congruence].
      destruct (Core.merge_configs cg p) as [r|e] eqn:E2;
        cbn [mbind result_bind];
        [discriminate|apply AbsenceFacts.merge_configs_raises in E2; congruence].
    + destruct (Core.get_group_config self group) as [g|e] eqn:Eg;
        cbn [mbind result_bind]; [|specialize (Hgroup group); congruence].
      destruct (Core.get_project_config self group_and_project) as [p|e] eqn:Ep;
        cbn [mbind result_bind]; [|specialize (Hproject group_and_project); congruence].
      destruct (Core.merge_configs common g) as [cg|e] eqn:E1;
        cbn [mbind result_bind];
        [|apply AbsenceFacts.merge_configs_raises in E1; congruence].
      destruct (Core.merge_configs cg p) as [r|e] eqn:E2;
        cbn [mbind result_bind];
        [discriminate|apply AbsenceFacts.merge_configs_raises in E2; congruence].
Qed.

(** C5 as stated fails: [get_projects] calls [get] without a default
    and does not catch, so on a tree without [projects_and_groups] it
    ends in [KeyNotFoundException]. *)
Lemma get_projects_raises_KeyNotFound :
  Spec.unresolved (VDict [("config_version", VInt 2)])
    (PyStr.split "|" "projects_and_groups")
  /\ Projects.get_projects
       {| config := VDict [("config_version", VInt 2)]; config_dir := "." |}
     = Raise KeyNotFoundException.
Proof.
  split; [|reflexivity].
  exists [], "projects_and_groups", [], (VDict [("config_version", VInt 2)]).
  repeat split; [constructor|]. intros d [= <-]. reflexivity.
Qed.

(** ** The merger *)

Module MergeFacts.

(** Induction on a tree, with the hypothesis for every element of a
    sequence and every value of a mapping. *)
Lemma value_induction (P : value -> Prop) :
  P VNone -> (forall b, P (VBool b)) -> (forall n, P (VInt n)) -> (forall s, P (VStr s)) ->
  (forall l, List.Forall P l -> P (VList l)) ->
  (forall d, List.Forall (fun kv => P (snd kv)) d -> P (VDict d)) ->
  forall v, P v.
Proof.
  intros HNone HBool HInt HStr HList HDict.
  fix IH 1. intros [| b | n | s | l | d].
  - exact HNone.
  - apply HBool.
  - apply HInt.
  - apply HStr.
  - apply HList. induction l as [|v l IHl]; constructor; [apply IH|exact IHl].
  - apply HDict. induction d as [|[k v] d IHd]; constructor; [apply IH|exact IHd].
Qed.

Lemma dict_get_In {V} key (d : list (string * V)) v :
  Py.dict_get key d = Some v -> In (key, v) d.
Proof.
  induction d as [|[k w] d IH]; simpl; [discriminate|].
  destruct (String.eqb_spec k key) as [->|Hne].
  - intros [= ->]. now left.
  - intros H. right. now apply IH.
Qed.

Lemma dict_get_None {V} key (d : list (string * V)) :
  Py.dict_get key d = None <-> ~ In key (Py.dict_keys d).
Proof.
  induction d as [|[k w] d IH]; simpl; [tauto|].
  destruct (String.eqb_spec k key) as [->|Hne].
  - split; [discriminate|]. intros H. exfalso. apply H. now left.
  - rewrite IH. tauto.
Qed.

Lemma dict_get_set_eq {V} key (v : V) d : Py.dict_get key (Py.dict_set key v d) = Some v.
Proof.
  induction d as [|[k w] d IH]; simpl.
  - now rewrite String.eqb_refl.
  - destruct (String.eqb k key) eqn:E; simpl; rewrite E; [reflexivity|exact IH].
Qed.

Lemma dict_get_set_ne {V} key key' (v : V) d :
  key <> key' -> Py.dict_get key' (Py.dict_set key v d) = Py.dict_get key' d.
Proof.
  intros Hne. induction d as [|[k w] d IH]; simpl.
  - apply String.eqb_neq in Hne. now rewrite Hne.
  - destruct (String.eqb_spec k key) as [->|Hk]; simpl.
    + apply String.eqb_neq in Hne. now rewrite Hne.
    + destruct (String.eqb k key'); [reflexivity|exact IH].
Qed.

Lemma well_formed_keys d : Spec.well_formed (VDict d) -> List.NoDup (Py.dict_keys d).
Proof. now intros [H _]. Qed.

Lemma well_formed_value d key v :
  Spec.well_formed (VDict d) -> Py.dict_get key d = Some v -> Spec.well_formed v.
Proof.
  intros [_ H]. induction d as [|[k w] d IH]; simpl; [discriminate|].
  destruct H as [Hw Hd]. destruct (String.eqb k key); [intros [= <-]; exact Hw|].
  now apply IH.
Qed.

Lemma well_formed_tail k v d :
  Spec.well_formed (VDict ((k, v) :: d)) -> Spec.well_formed (VDict d).
Proof.
  intros [Hk [_ Hd]]. split; [|exact Hd]. now inversion Hk.
Qed.

Lemma deepmerge_nil dst : Mergedeep._deepmerge dst (VDict []) = dst.
Proof. reflexivity. Qed.

Lemma deepmerge_cons dst key sv rest :
  Mergedeep._deepmerge dst (VDict ((key, sv) :: rest))
  = Mergedeep._deepmerge (Body.merge_step key sv dst) (VDict rest).
Proof. reflexivity. Qed.

Lemma merge_step_get_eq key sv dst :
  Py.dict_get key (Body.merge_step key sv dst)
  = match Py.dict_get key dst, sv with
    | Some (VDict dd), VDict _ => Some (VDict (Mergedeep._deepmerge dd sv))
    | _, _ => Some sv
    end.
Proof.
  unfold Body.merge_step.
  destruct (Py.dict_get key dst) as [[]|]; try apply dict_get_set_eq;
    destruct sv; apply dict_get_set_eq.
Qed.

Lemma merge_step_get_ne key key' sv dst :
  key <> key' -> Py.dict_get key' (Body.merge_step key sv dst) = Py.dict_get key' dst.
Proof.
  intros Hne. unfold Body.merge_step.
  destruct (Py.dict_get key dst) as [[]|]; try (now apply dict_get_set_ne);
    destruct sv; now apply dict_get_set_ne.
Qed.

(** The merged mapping, key by key. *)
Lemma deepmerge_get src key dst :
  List.NoDup (Py.dict_keys src) ->
  Py.dict_get key (Mergedeep._deepmerge dst (VDict src))
  = match Py.dict_get key src with
    | None => Py.dict_get key dst
    | Some sv =>
        match Py.dict_get key dst, sv with
        | Some (VDict dd), VDict _ => Some (VDict (Mergedeep._deepmerge dd sv))
        | _, _ => Some sv
        end
    end.
Proof.
  revert dst; induction src as [|[k sv] src IH]; intros dst Hnd; [reflexivity|].
  rewrite deepmerge_cons. inversion Hnd as [|? ? Hk Hnd']; subst.
  rewrite IH by exact Hnd'. cbn [Py.dict_get].
  destruct (String.eqb_spec k key) as [->|Hne].
  - apply dict_get_None in Hk. rewrite Hk. apply merge_step_get_eq.
  - rewrite merge_step_get_ne by exact Hne. reflexivity.
Qed.

(** [_deepmerge] computes the merge of the specification. *)
Lemma deepmerge_merged specific :
  Spec.well_formed specific ->
  forall sd general,
    specific = VDict sd -> Spec.merged general sd (Mergedeep._deepmerge general specific).
Proof.
  induction specific as [| | | | |d IH] using value_induction; intros Hwf sd general;
    try discriminate.
  intros [= <-]. pose proof (well_formed_keys _ Hwf) as Hnd.
  constructor.
  - intros key gd sd' Hg Hs. rewrite deepmerge_get, Hs, Hg by exact Hnd.
    eexists. split; [reflexivity|].
    rewrite List.Forall_forall in IH.
    apply (IH (key, VDict sd') (dict_get_In _ _ _ Hs)); [|reflexivity].
    now apply (well_formed_value d key).
  - intros key sv Hs Hnot. rewrite deepmerge_get, Hs by exact Hnd.
    destruct (Py.dict_get key general) as [[]|] eqn:Hg; try reflexivity.
    destruct sv; try reflexivity. exfalso. eapply Hnot. eauto.
  - intros key Hs. now rewrite deepmerge_get, Hs by exact Hnd.
Qed.

(** Merging into the empty mapping copies the source. *)
Lemma dict_set_fresh {V} key (v : V) d :
  ~ In key (Py.dict_keys d) -> Py.dict_set key v d = d ++ [(key, v)].
Proof.
  induction d as [|[k w] d IH]; simpl; [reflexivity|]. intros H.
  destruct (String.eqb_spec k key) as [->|Hne]; [tauto|].
  rewrite IH by tauto. reflexivity.
Qed.

Lemma deepmerge_append src dst :
  List.NoDup (Py.dict_keys dst ++ Py.dict_keys src) ->
  Mergedeep._deepmerge dst (VDict src) = dst ++ src.
Proof.
  revert dst; induction src as [|[k sv] src IH]; intros dst Hnd.
  - now rewrite deepmerge_nil, app_nil_r.
  - rewrite deepmerge_cons.
    assert (Hk : ~ In k (Py.dict_keys dst)).
    { apply NoDup_remove_2 in Hnd. intros H. apply Hnd. apply in_or_app. now left. }
    assert (Hstep : Body.merge_step k sv dst = dst ++ [(k, sv)]).
    { unfold Body.merge_step. apply dict_get_None in Hk. rewrite Hk.
      apply dict_set_fresh. now apply dict_get_None. }
    rewrite Hstep, IH.
    + now rewrite <- app_assoc.
    + unfold Py.dict_keys in *. rewrite map_app. simpl. rewrite <- app_assoc. exact Hnd.
Qed.

Lemma deepmerge_empty src :
  List.NoDup (Py.dict_keys src) -> Mergedeep._deepmerge [] (VDict src) = src.
Proof. intros H. now rewrite deepmerge_append. Qed.

(** [merge_configs] on two well-formed mappings. *)
Lemma merge_configs_mappings general specific :
  List.NoDup (Py.dict_keys general) ->
  Core.merge_configs (VDict general) (VDict specific)
  = Ok (VDict (Mergedeep._deepmerge general (VDict specific))).
Proof.
  intros H. unfold Core.merge_configs.
  cbn [Mergedeep.merge Mergedeep.merge_source mbind result_bind].
  now rewrite deepmerge_empty.
Qed.

End MergeFacts.

(** ** The layers of a project *)

Module LayerFacts.

Import MergeFacts.

Section Lower.

Context {L : PyStr.Lower}.

Lemma dict_set_keys {V} key (v : V) d :
  Py.dict_keys (Py.dict_set key v d)
  = if existsb (String.eqb key) (Py.dict_keys d) then Py.dict_keys d
    else Py.dict_keys d ++ [key].
Proof.
  induction d as [|[k w] d IH]; simpl; [reflexivity|].
  rewrite (String.eqb_sym key k).
  destruct (String.eqb k key); simpl; [reflexivity|].
  rewrite IH. now destruct (existsb (String.eqb key) (Py.dict_keys d)).
Qed.

Lemma dict_set_NoDup {V} key (v : V) d :
  List.NoDup (Py.dict_keys d) -> List.NoDup (Py.dict_keys (Py.dict_set key v d)).
Proof.
  intros H. rewrite dict_set_keys.
  destruct (existsb (String.eqb key) (Py.dict_keys d)) eqn:E; [exact H|].
  apply NoDup_app_remove_l with (l := []). simpl.
  apply Stdlib.Sorting.Permutation.Permutation_NoDup with (key :: Py.dict_keys d).
  - apply Permutation_cons_append.
  - constructor; [|exact H]. intros Hin.
    apply not_true_iff_false in E. apply E, existsb_exists.
    exists key. split; [exact Hin|apply String.eqb_refl].
Qed.

Lemma merge_step_NoDup key sv dst :
  List.NoDup (Py.dict_keys dst) -> List.NoDup (Py.dict_keys (Body.merge_step key sv dst)).
Proof.
  intros H. unfold Body.merge_step.
  destruct (Py.dict_get key dst) as [[]|]; try (now apply dict_set_NoDup);
    destruct sv; now apply dict_set_NoDup.
Qed.

Lemma deepmerge_NoDup src dst :
  List.NoDup (Py.dict_keys dst) ->
  List.NoDup (Py.dict_keys (Mergedeep._deepmerge dst (VDict src))).
Proof.
  revert dst; induction src as [|[k sv] src IH]; intros dst H; [exact H|].
  rewrite deepmerge_cons. apply IH. now apply merge_step_NoDup.
Qed.

Lemma resolves_well_formed tree segments v :
  Spec.resolves tree segments v -> Spec.well_formed tree -> Spec.well_formed v.
Proof.
  induction 1 as [|d segment v segments r Hget _ IH]; [auto|].
  intros Hwf. apply IH. now apply (well_formed_value d segment).
Qed.

Lemma lookup_ci_well_formed d key v :
  Spec.well_formed (VDict d) -> Spec.lookup_ci d key = Some v -> Spec.well_formed v.
Proof.
  induction d as [|[k w] d IH]; simpl; [discriminate|]. intros Hwf.
  destruct (String.eqb (PyStr.lower k) (PyStr.lower key)).
  - intros [= <-]. now apply (well_formed_value ((k, w) :: d) k); [|simpl; rewrite String.eqb_refl].
  - apply IH. now apply well_formed_tail in Hwf.
Qed.

Lemma layer_well_formed d key :
  Spec.well_formed (VDict d) -> Spec.well_formed (Spec.layer d key).
Proof.
  intros Hwf. unfold Spec.layer.
  destruct (Spec.lookup_ci d key) as [v|] eqn:E; simpl.
  - now apply (lookup_ci_well_formed d key).
  - split; [constructor|exact I].
Qed.

(** The loop of [get_case_insensitively], from any place of the keys on. *)
Lemma first_key_ci_from before d key :
  (forall k, In k (Py.dict_keys before) ->
             String.eqb (PyStr.lower k) (PyStr.lower key) = false) ->
  Core.first_key_ci (VDict (before ++ d)) (Py.dict_keys d) key
  = match Spec.lookup_ci d key with
    | Some v => Ok v
    | None => Raise KeyNotFoundException
    end.
Proof.
  revert before; induction d as [|[k v] d IH]; intros before Hbefore; [reflexivity|].
  cbn [Py.dict_keys map fst Core.first_key_ci Spec.lookup_ci].
  destruct (String.eqb (PyStr.lower k) (PyStr.lower key)) eqn:E.
  - cbn [Py.getitem].
    assert (Hget : Py.dict_get k (before ++ (k, v) :: d) = Some v).
    { clear IH. induction before as [|[k' v'] before IHb]; simpl.
      - now rewrite String.eqb_refl.
      - destruct (String.eqb_spec k' k) as [->|Hne].
        + rewrite (Hbefore k) in E; [discriminate|now left].
        + apply IHb. intros k0 Hk0. apply Hbefore. now right. }
    now rewrite Hget.
  - replace (before ++ (k, v) :: d) with ((before ++ [(k, v)]) ++ d)
      by now rewrite <- app_assoc.
    apply IH. intros k0 Hk0. unfold Py.dict_keys in Hk0.
    rewrite map_app in Hk0. apply in_app_or in Hk0 as [Hk0|[<-|[]]]; [|exact E].
    now apply Hbefore.
Qed.

Lemma get_case_insensitively_lookup_ci d key :
  Core.get_case_insensitively (VDict d) key
  = match Spec.lookup_ci d key with
    | Some v => Ok v
    | None => Raise KeyNotFoundException
    end.
Proof.
  unfold Core.get_case_insensitively. cbn [Py.keys_method mbind result_bind].
  apply (first_key_ci_from [] d key). intros k [].
Qed.

Lemma get_section self section :
  Spec.resolves (config self) ["projects_and_groups"] section ->
  Core.get self "projects_and_groups" VNone = Ok section.
Proof. apply (AccessorFacts.get_resolved self "projects_and_groups"). Qed.

Lemma get_section_absent self :
  Spec.unresolved (config self) ["projects_and_groups"] ->
  Core.get self "projects_and_groups" VNone = Raise KeyNotFoundException.
Proof. apply (AccessorFacts.get_unresolved self "projects_and_groups" VNone). Qed.

(** [get_project_config] and [get_group_config] return the layer. *)
Lemma get_project_config_layer self pg name :
  Spec.projects_and_groups_of (config self) pg ->
  Core.get_project_config self name = Ok (Spec.layer pg name).
Proof.
  intros [H|[H ->]]; unfold Core.get_project_config.
  - rewrite (get_section _ _ H). cbn [mbind result_bind].
    rewrite get_case_insensitively_lookup_ci. unfold Spec.layer.
    now destruct (Spec.lookup_ci pg name).
  - now rewrite (get_section_absent _ H).
Qed.

Lemma get_group_config_layer self pg group :
  Spec.projects_and_groups_of (config self) pg ->
  Core.get_group_config self group = Ok (Spec.layer pg (group +:+ "/*")).
Proof. apply get_project_config_layer. Qed.

(** [get_common_config] returns the entry ["*"], looked up as it is. *)
Lemma get_common_config_layer self pg :
  Spec.projects_and_groups_of (config self) pg ->
  Core.get_common_config self = Ok (default (VDict []) (Py.dict_get "*" pg)).
Proof.
  unfold Core.get_common_config, Core.get.
  change (PyStr.split "|" "projects_and_groups|*") with ["projects_and_groups"; "*"].
  intros [H|[H ->]].
  - apply AccessorFacts.descend_resolves in H. cbn [Core.descend] in *.
    destruct (Py.getitem (config self) "projects_and_groups") as [v|e];
      cbn [mbind result_bind] in *; [|discriminate].
    injection H as ->. cbn [Py.getitem].
    now destruct (Py.dict_get "*" pg).
  - apply AccessorFacts.descend_unresolved in H as [e H]. cbn [Core.descend] in *.
    destruct (Py.getitem (config self) "projects_and_groups") as [v|e'];
      cbn [mbind result_bind] in *; [discriminate|reflexivity].
Qed.

Lemma projects_and_groups_well_formed tree pg :
  Spec.well_formed tree -> Spec.projects_and_groups_of tree pg ->
  Spec.well_formed (VDict pg).
Proof.
  intros Hwf [H|[_ ->]].
  - now apply (resolves_well_formed _ _ _ H).
  - split; [constructor|exact I].
Qed.

End Lower.

End LayerFacts.

(** C1. The effective configuration of a project ["group/.../project"]
    is the merge of three layers, from general to specific: the common
    layer (the entry ["*"]), then the layer of the group (for a chain of
    subgroups, what the subgroup resolver returns), then the project's own
    layer; the group's and the project's entry are found without regard
    to case, and a layer that is absent is the empty tree. With common
    [{a: 1}], group [team/*] = [{a: 2, b: 1}] and project [team/proj] =
    [{a: 3}], the effective configuration of "team/proj" is
    [{a: 3, b: 1}]. The first part holds whatever [lower] is; the
    examples are made of ASCII characters. *)
Theorem effective_config_for_project_merges_layers {L : PyStr.Lower}
    (get_effective_subgroup_config : ConfigurationCore -> string -> result value) :
  (forall (self : ConfigurationCore) (pg : list (string * value))
          (group_and_project group project : string)
          (common_config group_config project_config : list (string * value)),
      Spec.well_formed (config self) ->
      Spec.projects_and_groups_of (config self) pg ->
      PyStr.rsplit1 "/" group_and_project = Some (group, project) ->
      default (VDict []) (Py.dict_get "*" pg) = VDict common_config ->
      (if PyStr.contains "/" group
       then get_effective_subgroup_config self group = Ok (VDict group_config)
            /\ Spec.well_formed (VDict group_config)
       else Spec.layer pg (group +:+ "/*") = VDict group_config) ->
      Spec.layer pg group_and_project = VDict project_config ->
      exists common_and_group_config effective_config,
        Projects.get_effective_config_for_project get_effective_subgroup_config
          self group_and_project
        = Ok (VDict effective_config)
        /\ Spec.merged common_config group_config common_and_group_config
        /\ Spec.merged common_and_group_config project_config effective_config)
  /\ Projects.get_effective_config_for_project (L := PyStr.on_ascii)
       get_effective_subgroup_config
       {| config :=
            VDict [("projects_and_groups",
                    VDict [("*", VDict [("a", VInt 1)]);
                           ("team/*", VDict [("a", VInt 2); ("b", VInt 1)]);
                           ("team/proj", VDict [("a", VInt 3)])])];
          config_dir := "." |}
       "team/proj"
     = Ok (VDict [("a", VInt 3); ("b", VInt 1)])
  /\ Projects.get_effective_config_for_project (L := PyStr.on_ascii)
       get_effective_subgroup_config
       {| config :=
            VDict [("projects_and_groups",
                    VDict [("*", VDict [("a", VInt 1)]);
                           ("Team/*", VDict [("a", VInt 2); ("b", VInt 1)]);
                           ("TEAM/Proj", VDict [("a", VInt 3)])])];
          config_dir := "." |}
       "team/proj"
     = Ok (VDict [("a", VInt 3); ("b", VInt 1)]).
Proof.
  split; [|split; reflexivity].
  intros self pg group_and_project group project common_config group_config
    project_config Hwf Hpg Hsplit Hcommon Hgroup Hproject.
  pose proof (LayerFacts.projects_and_groups_well_formed _ _ Hwf Hpg) as Hwfpg.
  assert (Hwfc : Spec.well_formed (VDict common_config)).
  { rewrite <- Hcommon. destruct (Py.dict_get "*" pg) as [v|] eqn:E; simpl.
    - now apply (MergeFacts.well_formed_value pg "*").
    - split; [constructor|exact I]. }
  assert (Hwfp : Spec.well_formed (VDict project_config)).
  { rewrite <- Hproject. now apply LayerFacts.layer_well_formed. }
  assert (Hg : (if PyStr.contains "/" group
                then get_effective_subgroup_config self group
                else Core.get_group_config self group) = Ok (VDict group_config)
               /\ Spec.well_formed (VDict group_config)).
  { destruct (PyStr.contains "/" group); [exact Hgroup|]. split.
    - rewrite (LayerFacts.get_group_config_layer _ _ _ Hpg). now rewrite Hgroup.
    - rewrite <- Hgroup. now apply LayerFacts.layer_well_formed. }
  destruct Hg as [Hg Hwfg].
  exists (Mergedeep._deepmerge common_config (VDict group_config)).
  exists (Mergedeep._deepmerge (Mergedeep._deepmerge common_config (VDict group_config))
            (VDict project_config)).
  split; [|split].
  - unfold Projects.get_effective_config_for_project.
    rewrite (LayerFacts.get_common_config_layer _ _ Hpg), Hcommon.
    cbn [mbind result_bind]. rewrite Hsplit. cbn [mbind result_bind].
    rewrite Hg. cbn [mbind result_bind].
    rewrite (LayerFacts.get_project_config_layer _ _ _ Hpg), Hproject.
    cbn [mbind result_bind].
    rewrite MergeFacts.merge_configs_mappings
      by now apply MergeFacts.well_formed_keys.
    cbn [mbind result_bind].
    rewrite MergeFacts.merge_configs_mappings; [reflexivity|].
    apply LayerFacts.deepmerge_NoDup. now apply MergeFacts.well_formed_keys.
  - now apply (MergeFacts.deepmerge_merged (VDict group_config)).
  - now apply (MergeFacts.deepmerge_merged (VDict project_config)).
Qed.

Section OnAscii.

Local Existing Instance PyStr.on_ascii.

Lemma effective_config_for_project_merges_layers_witness :
  exists common_and_group_config effective_config,
    Projects.get_effective_config_for_project (fun _ _ => Raise TypeError)
      {| config :=
           VDict [("projects_and_groups",
                   VDict [("*", VDict [("a", VInt 1); ("n", VDict [("x", VInt 1)])]);
                          ("team/*", VDict [("a", VInt 2); ("n", VDict [("y", VInt 2)])])])];
         config_dir := "." |}
      "Team/proj"
    = Ok (VDict effective_config)
    /\ Spec.merged [("a", VInt 1); ("n", VDict [("x", VInt 1)])]
         [("a", VInt 2); ("n", VDict [("y", VInt 2)])] common_and_group_config
    /\ Spec.merged common_and_group_config [] effective_config.
Proof.
  apply (proj1 (effective_config_for_project_merges_layers (fun _ _ => Raise TypeError))
           {| config :=
                VDict [("projects_and_groups",
                        VDict [("*", VDict [("a", VInt 1); ("n", VDict [("x", VInt 1)])]);
                               ("team/*",
                                VDict [("a", VInt 2); ("n", VDict [("y", VInt 2)])])])];
              config_dir := "." |}
           [("*", VDict [("a", VInt 1); ("n", VDict [("x", VInt 1)])]);
            ("team/*", VDict [("a", VInt 2); ("n", VDict [("y", VInt 2)])])]
           "Team/proj" "Team" "proj").
  - simpl. repeat split; repeat constructor; simpl; intuition discriminate.
  - left. apply AccessorFacts.descend_resolves. reflexivity.
  - reflexivity.
  - reflexivity.
  - reflexivity.
  - reflexivity.
Defined.

End OnAscii.

(** ** The store *)

Module StoreFacts.

Import Store.

Section Frame.

Variable h0 : heap.

Lemma frame_refl : frame h0 h0.
Proof.
  split; [lia|split; [reflexivity|]]. intros l o Hl Ho.
  apply lookup_lt_Some in Ho. lia.
Qed.

Lemma safe_ret {A} (a : A) (Q : A -> Prop) : Q a -> safe h0 (ret a) Q.
Proof. intros Ha h Hh. split; [exact Hh|]. now intros a' [= <-]. Qed.

Lemma safe_raise {A} (e : exn) (Q : A -> Prop) : safe h0 (raise e) Q.
Proof. intros h Hh. split; [exact Hh|]. intros a [=]. Qed.

Lemma safe_out_of_fuel {A} (Q : A -> Prop) : safe h0 out_of_fuel Q.
Proof. intros h Hh. split; [exact Hh|]. intros a [=]. Qed.

Lemma safe_bind {A B} (m : M A) (f : A -> M B) (Q : A -> Prop) (R : B -> Prop) :
  safe h0 m Q -> (forall a, Q a -> safe h0 (f a) R) -> safe h0 (m ≫= f) R.
Proof.
  intros Hm Hf h Hh. unfold mbind, M_bind, bind.
  destruct (Hm h Hh) as [Hh' Hq]. destruct (m h) as [h' [a|e| |]]; simpl in *;
    try (split; [exact Hh'|intros b [=]]).
  apply (Hf a (Hq a eq_refl) h' Hh').
Qed.

Lemma safe_read_only {A} (m : M A) :
  (forall h, fst (m h) = h) -> safe h0 m (fun _ => True).
Proof. intros Hm h Hh. rewrite Hm. split; [exact Hh|auto]. Qed.

Lemma safe_load l :
  safe h0 (load l) (fun o => length h0 <= l -> obj_fresh (length h0) o).
Proof.
  intros h Hh. unfold load. destruct (h !! l) as [o|] eqn:E; simpl.
  - split; [exact Hh|]. intros o' [= <-] Hl. destruct Hh as (_ & _ & Hfresh). eauto.
  - split; [exact Hh|]. intros o' [=].
Qed.

Lemma safe_alloc o :
  obj_fresh (length h0) o -> safe h0 (alloc o) (fun y => length h0 <= y).
Proof.
  intros Ho h (Hlen & Hold & Hnew). unfold alloc. simpl. split; [|intros y [= <-]; exact Hlen].
  split; [rewrite length_app; lia|split].
  - intros l Hl. rewrite lookup_app_l by lia. now apply Hold.
  - intros l o' Hl Hlookup.
    destruct (decide (l < length h)) as [Hlt|Hge].
    + rewrite lookup_app_l in Hlookup by exact Hlt. eauto.
    + rewrite lookup_app_r in Hlookup by lia.
      destruct (l - length h) as [|k]; simpl in Hlookup; [|discriminate].
      now injection Hlookup as <-.
Qed.

Lemma safe_store l o :
  length h0 <= l -> obj_fresh (length h0) o -> safe h0 (store l o) (fun _ => True).
Proof.
  intros Hl Ho h (Hlen & Hold & Hnew). unfold store. simpl. split; [|auto].
  split; [rewrite length_insert; lia|split].
  - intros l' Hl'. rewrite list_lookup_insert_ne by lia. now apply Hold.
  - intros l' o' Hl' Hlookup. destruct (decide (l = l')) as [<-|Hne].
    + destruct (decide (l < length h)) as [Hlt|Hge].
      * rewrite list_lookup_insert_eq in Hlookup by exact Hlt. now injection Hlookup as <-.
      * rewrite list_insert_ge in Hlookup by lia. eauto.
    + rewrite list_lookup_insert_ne in Hlookup by exact Hne. eauto.
Qed.

Lemma dict_set_fresh_items n key v items :
  val_fresh n v ->
  List.Forall (fun kv => val_fresh n (snd kv)) items ->
  List.Forall (fun kv => val_fresh n (snd kv)) (Py.dict_set key v items).
Proof.
  intros Hv. induction 1 as [|[k w] items Hw Hitems IH]; simpl.
  - constructor; [exact Hv|constructor].
  - destruct (String.eqb k key); constructor; auto.
Qed.

Lemma dict_get_fresh n key items (v : pyval) :
  List.Forall (fun kv => val_fresh n (snd kv)) items ->
  Py.dict_get key items = Some v -> val_fresh n v.
Proof.
  intros Hitems Hget. apply MergeFacts.dict_get_In in Hget.
  rewrite List.Forall_forall in Hitems. now apply (Hitems (key, v)).
Qed.

Lemma safe_dict_setitem d key v :
  length h0 <= d -> val_fresh (length h0) v ->
  safe h0 (dict_setitem d key v) (fun _ => True).
Proof.
  intros Hd Hv. unfold dict_setitem.
  eapply safe_bind; [apply safe_load|]. intros [elements|items] Ho.
  - apply safe_raise.
  - apply safe_store; [exact Hd|]. apply dict_set_fresh_items; [exact Hv|]. now apply Ho.
Qed.

Lemma safe_list_append y v :
  length h0 <= y -> val_fresh (length h0) v ->
  safe h0 (list_append y v) (fun _ => True).
Proof.
  intros Hy Hv. unfold list_append.
  eapply safe_bind; [apply safe_load|]. intros [elements|items] Ho.
  - apply safe_store; [exact Hy|]. simpl. apply List.Forall_app. split.
    + now apply Ho.
    + constructor; [exact Hv|constructor].
  - apply safe_raise.
Qed.

Lemma memo_fresh_insert memo l y :
  memo_fresh (length h0) memo -> length h0 <= y ->
  memo_fresh (length h0) (<[l := y]> memo).
Proof.
  intros Hm Hy l' y' Hl. destruct (decide (l = l')) as [<-|Hne].
  - rewrite lookup_insert_eq in Hl. now injection Hl as <-.
  - rewrite lookup_insert_ne in Hl by exact Hne. eauto.
Qed.

(** A copy is made of new objects only. *)
Lemma safe_deepcopy fuel :
  forall x memo,
    memo_fresh (length h0) memo ->
    safe h0 (deepcopy fuel x memo)
      (fun c => val_fresh (length h0) (fst c) /\ memo_fresh (length h0) (snd c)).
Proof.
  induction fuel as [|fuel IH]; intros x memo Hmemo;
    (destruct x as [| | | |l]; try (apply safe_ret; split; [exact I|exact Hmemo]));
    cbn [deepcopy]; destruct (memo !! l) as [y|] eqn:E;
    try (apply safe_ret; split; [exact (Hmemo _ _ E)|exact Hmemo]).
  - apply safe_out_of_fuel.
  - eapply safe_bind; [apply safe_load|]. intros [elements|items] _.
    + eapply safe_bind; [apply safe_alloc; constructor|]. intros y Hy.
      pose proof (memo_fresh_insert memo l y Hmemo Hy) as Hmemo'.
      revert Hmemo'. generalize (<[l := y]> memo). clear E Hmemo memo.
      induction elements as [|a elements IHe]; intros memo Hmemo.
      * apply safe_ret. split; [exact Hy|exact Hmemo].
      * eapply safe_bind; [apply IH; exact Hmemo|]. intros c [Hc Hm].
        eapply safe_bind; [apply safe_list_append; [exact Hy|exact Hc]|].
        intros _ _. now apply IHe.
    + eapply safe_bind; [apply safe_alloc; constructor|]. intros y Hy.
      pose proof (memo_fresh_insert memo l y Hmemo Hy) as Hmemo'.
      revert Hmemo'. generalize (<[l := y]> memo). clear E Hmemo memo.
      induction items as [|[key value] items IHi]; intros memo Hmemo.
      * apply safe_ret. split; [exact Hy|exact Hmemo].
      * eapply safe_bind; [apply IH; exact Hmemo|]. intros c [Hc Hm].
        eapply safe_bind; [apply safe_dict_setitem; [exact Hy|exact Hc]|].
        intros _ _. now apply IHi.
Qed.

Lemma memo_fresh_empty : memo_fresh (length h0) ∅.
Proof. intros l y H. rewrite lookup_empty in H. discriminate. Qed.

Lemma safe_iter_keys src : safe h0 (iter_keys src) (fun _ => True).
Proof.
  apply safe_read_only. intros h. unfold iter_keys, load.
  destruct src as [| | |[]|l]; try reflexivity.
  unfold mbind, M_bind, bind. destruct (h !! l) as [[[]|]|]; reflexivity.
Qed.

Lemma safe_getitem src key : safe h0 (getitem src key) (fun _ => True).
Proof.
  apply safe_read_only. intros h. unfold getitem, load.
  destruct src as [| | | |l]; try reflexivity.
  unfold mbind, M_bind, bind. destruct (h !! l) as [[|items]|]; try reflexivity.
  now destruct (Py.dict_get key items).
Qed.

Lemma safe_is_mapping x : safe h0 (is_mapping x) (fun _ => True).
Proof.
  apply safe_read_only. intros h. unfold is_mapping, load.
  destruct x as [| | | |l]; try reflexivity.
  unfold mbind, M_bind, bind. now destruct (h !! l) as [[]|].
Qed.

Lemma safe_copy_into fuel dst key sv :
  length h0 <= dst ->
  safe h0 (c ← deepcopy fuel sv ∅; dict_setitem dst key (fst c)) (fun _ => True).
Proof.
  intros Hdst. eapply safe_bind; [apply safe_deepcopy, memo_fresh_empty|].
  intros c [Hc _]. now apply safe_dict_setitem.
Qed.

(** [_deepmerge] writes to its destination and to new objects only. *)
Lemma safe_deepmerge fuel :
  forall dst src, length h0 <= dst -> safe h0 (_deepmerge fuel dst src) (fun _ => True).
Proof.
  induction fuel as [|fuel IH]; intros dst src Hdst; cbn [_deepmerge];
    [apply safe_out_of_fuel|].
  eapply safe_bind; [apply safe_iter_keys|]. intros keys _.
  induction keys as [|key keys IHk]; [now apply safe_ret|].
  eapply safe_bind; [apply safe_load|]. intros d Hd.
  eapply safe_bind; [apply safe_getitem|]. intros sv _.
  eapply safe_bind with (Q := fun _ => True); [|intros _ _; exact IHk].
  destruct d as [elements|items]; [apply safe_raise|].
  destruct (Py.dict_get key items) as [dv|] eqn:Hget; [|now apply safe_copy_into].
  eapply safe_bind; [apply safe_is_mapping|]. intros a _.
  eapply safe_bind; [apply safe_is_mapping|]. intros b _.
  destruct dv as [| | | |dl]; try now apply safe_copy_into.
  destruct (a && b); [|now apply safe_copy_into].
  apply IH. apply (dict_get_fresh _ key items (PRef dl)); [|exact Hget]. now apply Hd.
Qed.

Lemma safe_merge fuel destination sources :
  length h0 <= destination ->
  safe h0 (merge fuel destination sources) (fun d => length h0 <= d).
Proof.
  intros Hd. induction sources as [|src sources IH]; cbn [merge].
  - now apply safe_ret.
  - eapply safe_bind; [now apply safe_deepmerge|]. intros _ _. exact IH.
Qed.

Lemma safe_dict_of d :
  length h0 <= d -> safe h0 (dict_of d) (fun y => length h0 <= y).
Proof.
  intros Hd. unfold dict_of. eapply safe_bind; [apply safe_load|].
  intros [elements|items] Ho; [apply safe_raise|]. apply safe_alloc. now apply Ho.
Qed.

Lemma safe_merge_configs fuel general specific :
  safe h0 (merge_configs fuel general specific) (val_fresh (length h0)).
Proof.
  unfold merge_configs.
  eapply safe_bind; [apply safe_alloc; constructor|]. intros empty Hempty.
  eapply safe_bind; [now apply safe_merge|]. intros merged Hmerged.
  eapply safe_bind; [now apply safe_dict_of|]. intros result Hresult.
  now apply safe_ret.
Qed.

End Frame.

(** What is read from objects that are as they were is as it was. *)
Lemma read_frame h0 h fuel :
  closed h0 -> frame h0 h ->
  forall x, val_in h0 x -> read fuel h x = read fuel h0 x.
Proof.
  intros Hclosed (_ & Hold & _).
  induction fuel as [|fuel IH]; intros x Hx; destruct x as [| | | |l]; try reflexivity.
  cbn [read]. simpl in Hx. rewrite (Hold l Hx).
  destruct (h0 !! l) as [[elements|items]|] eqn:E; [| |reflexivity];
    pose proof (Hclosed l _ E) as Hin; simpl in Hin; clear E; f_equal.
  - induction Hin as [|a elements Ha _ IHe]; [reflexivity|].
    now rewrite (IH a Ha), IHe.
  - induction Hin as [|[k a] items Ha _ IHi]; [reflexivity|].
    simpl in Ha. now rewrite (IH a Ha), IHi.
Qed.

End StoreFacts.

(** C2. [merge_configs] leaves its two arguments as they were. In the
    store, whatever the arguments are and however the call ends, every
    object that was there before the call is there after it, unchanged:
    the call writes only to objects it has made, and these refer only to
    objects it has made, the result among them. So every tree read from
    an object of before, at any depth, reads the same after the call. On
    two mappings that share a nested mapping the call returns their merge
    and both still read as before. *)
Theorem merge_configs_leaves_inputs_unchanged
    (fuel : nat) (h : list Store.obj)
    (more_general_config more_specific_config : Store.pyval) :
  let after :=
    Store.merge_configs fuel more_general_config more_specific_config h in
  length h <= length (fst after)
  /\ (forall l, l < length h -> fst after !! l = h !! l)
  /\ (forall l o, length h <= l -> fst after !! l = Some o ->
                  Store.obj_fresh (length h) o)
  /\ (forall result, snd after = Store.Returns result ->
                     Store.val_fresh (length h) result)
  /\ (Store.closed h ->
      forall depth x, Store.val_in h x ->
                      Store.read depth (fst after) x = Store.read depth h x)
  /\ (let before :=
        [Store.ODict [("x", Store.PInt 1)];
         Store.ODict [("a", Store.PInt 1); ("n", Store.PRef 0)];
         Store.ODict [("y", Store.PInt 2)];
         Store.ODict [("a", Store.PInt 2); ("n", Store.PRef 2); ("m", Store.PRef 2)]] in
      let call := Store.merge_configs 3 (Store.PRef 1) (Store.PRef 3) before in
      exists result,
        snd call = Store.Returns result
        /\ Store.read 3 (fst call) result
           = Some (VDict [("a", VInt 2);
                          ("n", VDict [("x", VInt 1); ("y", VInt 2)]);
                          ("m", VDict [("y", VInt 2)])])
        /\ Core.merge_configs
             (VDict [("a", VInt 1); ("n", VDict [("x", VInt 1)])])
             (VDict [("a", VInt 2); ("n", VDict [("y", VInt 2)]);
                     ("m", VDict [("y", VInt 2)])])
           = Ok (VDict [("a", VInt 2);
                        ("n", VDict [("x", VInt 1); ("y", VInt 2)]);
                        ("m", VDict [("y", VInt 2)])])
        /\ Store.read 3 (fst call) (Store.PRef 1)
           = Some (VDict [("a", VInt 1); ("n", VDict [("x", VInt 1)])])
        /\ Store.read 3 (fst call) (Store.PRef 3)
           = Some (VDict [("a", VInt 2); ("n", VDict [("y", VInt 2)]);
                          ("m", VDict [("y", VInt 2)])])).
Proof.
  cbv zeta.
  destruct (StoreFacts.safe_merge_configs h fuel more_general_config
              more_specific_config h (StoreFacts.frame_refl h))
    as [Hframe Hresult].
  split; [apply Hframe|]. split; [apply Hframe|]. split; [apply Hframe|].
  split; [exact Hresult|]. split.
  - intros Hclosed depth x Hx. now apply StoreFacts.read_frame.
  - eexists. repeat split.
Qed.

(** * Further properties of the code *)

(** ** [_load_config]: what ends a load *)

Section LoadingErrors.

Context {L : PyStr.Lower}.

Variable yaml_safe_load : string -> result value.
Variable textwrap_dedent : string -> string.
Variable open_read : string -> result string.
Variable APP_HOME : option string.
Variable home : string.
Variable getcwd : string.
Variable path_join : string -> string -> string.
Variable path_dirname : string -> string.

Local Abbreviation the_path :=
  (Core.resolve_config_path APP_HOME home getcwd path_join).
Local Abbreviation load :=
  (Core._load_config yaml_safe_load textwrap_dedent open_read APP_HOME home getcwd
     path_join path_dirname).
Local Abbreviation construct :=
  (Core.__init__ yaml_safe_load textwrap_dedent open_read APP_HOME home getcwd
     path_join path_dirname).

(** X1. Both a path and an inline string: the load ends in the
    source-conflict error, whatever the file system and the parser would
    answer, and so does the construction. *)
Theorem both_sources_conflict (config_path config_string : option string) :
  Core.given config_path = true ->
  Core.given config_string = true ->
  load config_string config_path = Raise (SystemExit ConfigSourceConflict)
  /\ construct config_path config_string = Raise (SystemExit ConfigSourceConflict).
Proof.
  intros Hp Hs. unfold Core.__init__, Core._load_config. rewrite Hp, Hs. split; reflexivity.
Qed.

(** X2. A file that cannot be opened: [ConfigFileNotFoundException], with
    the path that was tried, not the path that was given. *)
Theorem unreadable_file_is_not_found (config_path config_string : option string) :
  Core.given config_string = false ->
  open_read (the_path config_path) = Raise OSError ->
  construct config_path config_string
  = Raise (ConfigFileNotFoundException (Some (the_path config_path))).
Proof.
  intros Hs Hopen. unfold Core.__init__.
  rewrite (load_config_from_path yaml_safe_load textwrap_dedent open_read APP_HOME home
             getcwd path_join path_dirname _ _ Hs).
  unfold Core.load_from_path. rewrite Hopen. reflexivity.
Qed.

(** X3. A file whose parse is not a mapping (an empty file parses to [None],
    a sequence to a list): the [get] of the first check fails and the
    load ends in [ConfigInvalidException] over an [AttributeError]. From
    an inline string the same tree is loaded. *)
Theorem file_must_parse_to_a_mapping
    (config_path : option string) (text : string) (tree : value) :
  open_read (the_path config_path) = Ok text ->
  yaml_safe_load text = Ok tree ->
  (forall d, tree <> VDict d) ->
  load None config_path = Raise (ConfigInvalidException AttributeError)
  /\ (forall config_string,
        Core.given (Some config_string) = true ->
        yaml_safe_load (textwrap_dedent config_string) = Ok tree ->
        load (Some config_string) None = Ok {| config := tree; config_dir := "." |}).
Proof.
  intros Hopen Hyaml Htree. split.
  - rewrite (load_config_from_path yaml_safe_load textwrap_dedent open_read APP_HOME home
               getcwd path_join path_dirname _ None eq_refl).
    unfold Core.load_from_path. rewrite Hopen. cbn [mbind result_bind]. rewrite Hyaml.
    cbn [mbind result_bind config].
    destruct tree; try reflexivity. now destruct (Htree d).
  - intros config_string Hs Hparse.
    rewrite (load_config_from_string yaml_safe_load textwrap_dedent open_read APP_HOME
               home getcwd path_join path_dirname None _ Hs eq_refl).
    unfold Core.load_from_string. now rewrite Hparse.
Qed.

(** X4. A truthy [example_config] in the file ends the construction in the
    example-config error before the version is looked at. *)
Theorem example_config_is_refused
    (config_path config_string : option string) (text : string)
    (d : list (string * value)) (example_config : value) :
  Core.given config_string = false ->
  open_read (the_path config_path) = Ok text ->
  yaml_safe_load text = Ok (VDict d) ->
  Py.dict_get "example_config" d = Some example_config ->
  Py.truthy example_config = true ->
  construct config_path config_string = Raise (SystemExit ExampleConfigDetected).
Proof.
  intros Hs Hopen Hyaml Hget Htruthy. unfold Core.__init__.
  rewrite (load_config_from_path yaml_safe_load textwrap_dedent open_read APP_HOME home
             getcwd path_join path_dirname _ _ Hs).
  rewrite (load_from_path_checks yaml_safe_load open_read path_dirname _ _ _ Hopen Hyaml).
  rewrite Hget. unfold default, id. rewrite Htruthy. reflexivity.
Qed.

(** X5. What a load can end in, when the file system and the parser raise
    no [SystemExit] of their own: one of the three fatal errors of the
    loader, [ConfigFileNotFoundException] or [ConfigInvalidException]. *)
Theorem load_config_errors (config_path config_string : option string) (e : exn) :
  (forall p e', open_read p = Raise e' -> is_Exception e' = true) ->
  (forall text e', yaml_safe_load text = Raise e' -> is_Exception e' = true) ->
  load config_string config_path = Raise e ->
  e = SystemExit ConfigSourceConflict
  \/ e = SystemExit ExampleConfigDetected
  \/ e = SystemExit UnsupportedConfigVersion
  \/ (exists p, e = ConfigFileNotFoundException p)
  \/ (exists underlying, e = ConfigInvalidException underlying).
Proof.
  intros Hopen Hyaml.
  assert (Hh : forall p body,
             (forall e', body = Raise e' ->
                         is_Exception e' = true
                         \/ e' = SystemExit ExampleConfigDetected
                         \/ e' = SystemExit UnsupportedConfigVersion) ->
             Core.load_handlers p body = Raise e ->
             e = SystemExit ConfigSourceConflict
             \/ e = SystemExit ExampleConfigDetected
             \/ e = SystemExit UnsupportedConfigVersion
             \/ (exists p, e = ConfigFileNotFoundException p)
             \/ (exists underlying, e = ConfigInvalidException underlying)).
  { intros p [self|e'] Hbody; cbn [Core.load_handlers]; [discriminate|].
    destruct (is_IOError e'); [intros [= <-]; eauto 6|].
    destruct (is_Exception e') eqn:E; [intros [= <-]; eauto 6|].
    intros [= <-]. destruct (Hbody e' eq_refl) as [H|[H|H]]; [congruence|auto|auto]. }
  assert (Hpath : forall p e',
             Core.load_from_path yaml_safe_load open_read path_dirname p = Raise e' ->
             is_Exception e' = true
             \/ e' = SystemExit ExampleConfigDetected
             \/ e' = SystemExit UnsupportedConfigVersion).
  { intros p e'. unfold Core.load_from_path.
    destruct (open_read p) as [text|e1] eqn:E1; cbn [mbind result_bind];
      [|intros [= <-]; left; eauto].
    destruct (yaml_safe_load text) as [tree|e2] eqn:E2; cbn [mbind result_bind config];
      [|intros [= <-]; left; eauto].
    destruct (Py.dict_get_method tree "example_config" VNone) as [ex|e3] eqn:E3;
      cbn [mbind result_bind].
    - destruct (Py.truthy ex); [intros [= <-]; auto|].
      destruct (Py.dict_get_method tree "config_version" (VInt 1)) as [ver|e4] eqn:E4;
        cbn [mbind result_bind].
      + destruct (Py.ne_2 ver); [intros [= <-]; auto|discriminate].
      + destruct tree; simpl in E4; try (injection E4 as <-; intros [= <-]; now left).
        now destruct (Py.dict_get "config_version" d).
    - destruct tree; simpl in E3; try (injection E3 as <-; intros [= <-]; now left).
      now destruct (Py.dict_get "example_config" d). }
  assert (Hstring : forall s e',
             Core.load_from_string yaml_safe_load textwrap_dedent s = Raise e' ->
             is_Exception e' = true
             \/ e' = SystemExit ExampleConfigDetected
             \/ e' = SystemExit UnsupportedConfigVersion).
  { intros s e'. unfold Core.load_from_string.
    destruct (yaml_safe_load (textwrap_dedent s)) eqn:E; cbn [mbind result_bind];
      [discriminate|intros [= <-]; left; eauto]. }
  unfold Core._load_config.
  destruct (Core.given config_path && Core.given config_string);
    [intros [= <-]; auto|].
  destruct config_string as [s|]; [destruct (Core.given (Some s))|];
    apply Hh; first [apply Hstring|apply Hpath].
Qed.

End LoadingErrors.

Lemma both_sources_conflict_witness :
  Sample.load (Some "config_version: 2") (Some "/etc/gitlabform/config.yml")
  = Raise (SystemExit ConfigSourceConflict)
  /\ Sample.construct (Some "/etc/gitlabform/config.yml") (Some "config_version: 2")
     = Raise (SystemExit ConfigSourceConflict).
Proof.
  apply (both_sources_conflict Sample.parse Sample.dedent Sample.open_read None
           "/home/user" "/srv" Sample.join Sample.dirname
           (Some "/etc/gitlabform/config.yml") (Some "config_version: 2"));
    reflexivity.
Defined.

Lemma unreadable_file_is_not_found_witness :
  Sample.construct (Some "/etc/gitlabform/missing.yml") None
  = Raise (ConfigFileNotFoundException (Some "/etc/gitlabform/missing.yml")).
Proof.
  apply (unreadable_file_is_not_found Sample.parse Sample.dedent Sample.open_read None
           "/home/user" "/srv" Sample.join Sample.dirname
           (Some "/etc/gitlabform/missing.yml") None);
    reflexivity.
Defined.

Lemma file_must_parse_to_a_mapping_witness :
  Sample.load None (Some "/etc/gitlabform/empty.yml")
  = Raise (ConfigInvalidException AttributeError)
  /\ (forall config_string,
        Core.given (Some config_string) = true ->
        Sample.parse (Sample.dedent config_string) = Ok VNone ->
        Sample.load (Some config_string) None
        = Ok {| config := VNone; config_dir := "." |}).
Proof.
  apply (file_must_parse_to_a_mapping Sample.parse Sample.dedent Sample.open_read None
           "/home/user" "/srv" Sample.join Sample.dirname
           (Some "/etc/gitlabform/empty.yml") "" VNone).
  - reflexivity.
  - reflexivity.
  - intros d H. discriminate H.
Defined.

Lemma example_config_is_refused_witness :
  Sample.construct (Some "/etc/gitlabform/example.yml") None
  = Raise (SystemExit ExampleConfigDetected).
Proof.
  apply (example_config_is_refused Sample.parse Sample.dedent Sample.open_read None
           "/home/user" "/srv" Sample.join Sample.dirname
           (Some "/etc/gitlabform/example.yml") None "example_config: true"
           [("example_config", VBool true); ("config_version", VInt 2)] (VBool true));
    reflexivity.
Defined.

Lemma load_config_errors_witness :
  ConfigInvalidException YAMLError = SystemExit ConfigSourceConflict
  \/ ConfigInvalidException YAMLError = SystemExit ExampleConfigDetected
  \/ ConfigInvalidException YAMLError = SystemExit UnsupportedConfigVersion
  \/ (exists p, ConfigInvalidException YAMLError = ConfigFileNotFoundException p)
  \/ (exists underlying, ConfigInvalidException YAMLError = ConfigInvalidException underlying).
Proof.
  apply (load_config_errors Sample.parse Sample.dedent Sample.open_read None
           "/home/user" "/srv" Sample.join Sample.dirname
           (Some "/etc/gitlabform/broken.yml") None (ConfigInvalidException YAMLError)).
  - intros p e'. unfold Sample.open_read.
    repeat match goal with |- context [if ?b then _ else _] => destruct b end;
      try discriminate. intros [= <-]. reflexivity.
  - intros text e'. unfold Sample.parse.
    repeat match goal with |- context [if ?b then _ else _] => destruct b end;
      try discriminate. intros [= <-]. reflexivity.
  - reflexivity.
Defined.

(** ** The scan and the detector, further *)

Module ScanMore.

Section Lower.

Context {L : PyStr.Lower}.

Lemma scan_app self before after :
  Core.scan_sections self (before ++ after)
  = (_ ← Core.scan_sections self before; Core.scan_sections self after).
Proof.
  induction before as [|path before IH]; [reflexivity|].
  cbn [app Core.scan_sections].
  destruct (Core.get self path (VInt 0)) as [section|e]; [|reflexivity].
  cbn [mbind result_bind].
  destruct (if Py.truthy section then _ else _) as [[]|e]; [|reflexivity].
  cbn [mbind result_bind]. exact IH.
Qed.

(** A scan that passes has looked at every section: each is falsy or
    without almost-duplicates. *)
Lemma scan_passed self paths path :
  Core.scan_sections self paths = Ok tt ->
  In path paths ->
  exists section,
    Core.get self path (VInt 0) = Ok section
    /\ (Py.truthy section = true -> Core._find_almost_duplicate self path = Ok []).
Proof.
  induction paths as [|p paths IH]; [intros _ []|].
  cbn [Core.scan_sections].
  destruct (Core.get self p (VInt 0)) as [section|e] eqn:Hget; [|discriminate].
  cbn [mbind result_bind].
  destruct (Py.truthy section) eqn:Ht.
  - destruct (Core._find_almost_duplicate self p) as [[|x xs]|e] eqn:Hdup;
      cbn [mbind result_bind]; try discriminate.
    intros Hrest [<-|Hin]; [|now apply IH].
    exists section. split; [exact Hget|auto].
  - cbn [mbind result_bind]. intros Hrest [<-|Hin]; [|now apply IH].
    exists section. split; [exact Hget|]. congruence.
Qed.

Lemma falsy_section_items section items :
  Spec.section_items section items -> Py.truthy section = false -> items = [].
Proof.
  intros [(d & -> & ->)| ->]; simpl.
  - destruct d; [reflexivity|discriminate].
  - destruct items; [reflexivity|discriminate].
Qed.

Lemma get_any_default self path section default :
  Core.get self path VNone = Ok section -> Core.get self path default = Ok section.
Proof.
  intros H. apply AccessorFacts.get_Ok_inv in H as [H|(_ & _ & H)]; [|congruence].
  now apply AccessorFacts.get_resolved.
Qed.

Lemma passed_scan_no_collision self path section items :
  PyStr.lower_idempotent ->
  Core._find_almost_duplicates self = Ok tt ->
  In path Core.protected_sections ->
  Core.get self path VNone = Ok section ->
  Spec.section_items section items ->
  ~ Spec.case_collision items.
Proof.
  intros Hidem Hscan Hin Hget Hitems Hcollision.
  destruct (scan_passed _ _ _ Hscan Hin) as (section' & Hget' & Hdup).
  rewrite (get_any_default _ _ _ _ Hget) in Hget'. injection Hget' as <-.
  destruct (Py.truthy section) eqn:Ht.
  - specialize (Hdup eq_refl).
    rewrite (DetectorFacts.find_almost_duplicate_items _ _ _ _ Hget Hitems) in Hdup.
    injection Hdup as Hdup.
    now apply (DetectorFacts.collision_reported items).
  - rewrite (falsy_section_items _ _ Hitems Ht) in Hcollision.
    destruct Hcollision as (x & _ & [] & _).
Qed.

Lemma collision_truthy section items :
  Spec.section_items section items -> Spec.case_collision items ->
  Py.truthy section = true.
Proof.
  intros Hitems Hc. destruct (Py.truthy section) eqn:Ht; [reflexivity|].
  rewrite (falsy_section_items _ _ Hitems Ht) in Hc.
  destruct Hc as (x & _ & [] & _).
Qed.

End Lower.

End ScanMore.

(** After a scan that passed, no protected section has two keys (or two
    entries) that differ only in case, [lower] being idempotent. *)
Theorem scanned_sections_have_no_collision {L : PyStr.Lower}
    (self : ConfigurationCore) (path : string) (section : value) (items : list string) :
  PyStr.lower_idempotent ->
  Core._find_almost_duplicates self = Ok tt ->
  In path Core.protected_sections ->
  Core.get self path VNone = Ok section ->
  Spec.section_items section items ->
  ~ Spec.case_collision items.
Proof. apply ScanMore.passed_scan_no_collision. Qed.

Section OnAscii.

Local Existing Instance PyStr.on_ascii.

Lemma scanned_sections_have_no_collision_witness :
  ~ Spec.case_collision ["*"; "team/*"; "team/proj"; "Other/App"].
Proof.
  apply (scanned_sections_have_no_collision Sample.configuration "projects_and_groups"
           (VDict [("*", VDict [("a", VInt 1)]);
                   ("team/*", VDict [("a", VInt 2); ("b", VInt 1)]);
                   ("team/proj", VDict [("a", VInt 3)]);
                   ("Other/App", VDict [])])
           ["*"; "team/*"; "team/proj"; "Other/App"]).
  - exact PyStrFacts.on_ascii_idempotent.
  - reflexivity.
  - simpl. auto.
  - reflexivity.
  - left. eexists. split; reflexivity.
Defined.

End OnAscii.

(** X8. The scan stops at the first protected section with a collision,
    when the sections before it pass: the error names that section and
    lists every item of it whose lower-cased form occurs twice. [lower]
    is idempotent, as [str.lower] is. *)
Theorem first_collision_is_fatal {L : PyStr.Lower}
    (self : ConfigurationCore) (before after : list string) (path : string)
    (section : value) (items : list string) :
  PyStr.lower_idempotent ->
  Core.protected_sections = before ++ path :: after ->
  Core.scan_sections self before = Ok tt ->
  Core.get self path VNone = Ok section ->
  Spec.section_items section items ->
  Spec.case_collision items ->
  Core._find_almost_duplicates self
  = Raise (SystemExit
             (AlmostDuplicateKeys path
                (List.filter
                   (fun x => Nat.leb 2 (length (Spec.collision_group x items)))
                   items))).
Proof.
  intros Hidem Hsplit Hbefore Hget Hitems Hcollision.
  unfold Core._find_almost_duplicates. rewrite Hsplit, ScanMore.scan_app, Hbefore.
  cbn [mbind result_bind Core.scan_sections].
  rewrite (ScanMore.get_any_default _ _ _ _ Hget). cbn [mbind result_bind].
  rewrite (ScanMore.collision_truthy _ _ Hitems Hcollision).
  rewrite (DetectorFacts.find_almost_duplicate_items _ _ _ _ Hget Hitems).
  cbn [mbind result_bind].
  pose proof (DetectorFacts.collision_reported _ Hidem Hcollision) as Hne.
  rewrite <- (DetectorFacts.almost_duplicates_among_collision _ Hidem Hcollision).
  destruct (Core.almost_duplicates_among items); [congruence|reflexivity].
Qed.

Section OnAscii.

Local Existing Instance PyStr.on_ascii.

Lemma first_collision_is_fatal_witness :
  Core._find_almost_duplicates
    {| config := VDict [("projects_and_groups", VDict [("team/*", VDict [])]);
                        ("skip_groups", VList [VStr "Old"; VStr "new"; VStr "old"])];
       config_dir := "." |}
  = Raise (SystemExit
             (AlmostDuplicateKeys "skip_groups"
                (List.filter
                   (fun x => Nat.leb 2 (length (Spec.collision_group x ["Old"; "new"; "old"])))
                   ["Old"; "new"; "old"]))).
Proof.
  apply (first_collision_is_fatal
           {| config := VDict [("projects_and_groups", VDict [("team/*", VDict [])]);
                               ("skip_groups", VList [VStr "Old"; VStr "new"; VStr "old"])];
              config_dir := "." |}
           ["projects_and_groups"] ["skip_projects"] "skip_groups"
           (VList [VStr "Old"; VStr "new"; VStr "old"]) ["Old"; "new"; "old"]).
  - exact PyStrFacts.on_ascii_idempotent.
  - reflexivity.
  - reflexivity.
  - reflexivity.
  - right. reflexivity.
  - exists "Old", "old". repeat split; simpl; auto.
Defined.

End OnAscii.

Module GroupFacts.

Section Lower.

Context {L : PyStr.Lower}.

Lemma collision_group_eq x y items :
  PyStr.lower y = PyStr.lower x ->
  Spec.collision_group y items = Spec.collision_group x items.
Proof. intros H. unfold Spec.collision_group. now rewrite H. Qed.

Lemma filter_filter_implied {A} (f g : A -> bool) l :
  (forall y, In y l -> f y = true -> g y = true) ->
  List.filter f (List.filter g l) = List.filter f l.
Proof.
  induction l as [|a l IH]; intros H; [reflexivity|]. simpl.
  destruct (g a) eqn:Hg; simpl.
  - destruct (f a); rewrite IH; auto; intros y Hy; apply H; now right.
  - destruct (f a) eqn:Hf.
    + rewrite (H a (or_introl eq_refl) Hf) in Hg. discriminate.
    + apply IH. intros y Hy. apply H. now right.
Qed.

(** What is reported when the two sets differ in size. *)
Lemma reported_groups items x :
  In x (List.filter (fun x => Nat.leb 2 (length (Spec.collision_group x items))) items) ->
  In x items
  /\ 2 <= length (Spec.collision_group x items)
  /\ Spec.collision_group x
       (List.filter (fun x => Nat.leb 2 (length (Spec.collision_group x items))) items)
     = Spec.collision_group x items.
Proof.
  intros H. apply filter_In in H as [Hin Hx]. apply Nat.leb_le in Hx.
  split; [exact Hin|split; [exact Hx|]].
  unfold Spec.collision_group at 1 3. apply filter_filter_implied.
  intros y _ Hy. apply String.eqb_eq in Hy.
  rewrite (collision_group_eq x y items Hy). now apply Nat.leb_le.
Qed.

End Lower.

End GroupFacts.

(** X9. The detector never reports one item alone, and it reports whole
    collision groups: every reported item is an item of the section whose
    lower-cased form occurs at least twice there, and all the items with
    that lower-cased form are reported with it. [lower] is idempotent, as
    [str.lower] is. *)
Theorem almost_duplicates_come_in_groups {L : PyStr.Lower}
    (self : ConfigurationCore) (path : string) (section : value) (items : list string) :
  PyStr.lower_idempotent ->
  Core.get self path VNone = Ok section ->
  Spec.section_items section items ->
  exists reported,
    Core._find_almost_duplicate self path = Ok reported
    /\ length reported <> 1
    /\ (forall x, In x reported ->
                  In x items
                  /\ 2 <= length (Spec.collision_group x items)
                  /\ Spec.collision_group x reported = Spec.collision_group x items).
Proof.
  intros Hidem Hget Hitems. exists (Core.almost_duplicates_among items).
  split; [now apply DetectorFacts.find_almost_duplicate_items with section|].
  unfold Core.almost_duplicates_among.
  destruct (negb _); [|simpl; split; [lia|intros x []]].
  rewrite DetectorFacts.almost_duplicates_of_filter.
  rewrite (filter_ext _ (fun x => Nat.leb 2 (length (Spec.collision_group x items))))
    by (intros x; now apply DetectorFacts.second_occurrence_group).
  split; [|intros x; apply GroupFacts.reported_groups].
  destruct (List.filter _ items) as [|x reported] eqn:E; [simpl; lia|].
  assert (Hx : In x (List.filter
                       (fun x => Nat.leb 2 (length (Spec.collision_group x items)))
                       items)) by (rewrite E; now left).
  apply GroupFacts.reported_groups in Hx as (_ & Hlen & Hgroup).
  rewrite E in Hgroup. rewrite <- Hgroup in Hlen.
  pose proof (filter_length_le
                (fun y => String.eqb (PyStr.lower y) (PyStr.lower x)) (x :: reported)) as Hle.
  unfold Spec.collision_group in Hlen. lia.
Qed.

Section OnAscii.

Local Existing Instance PyStr.on_ascii.

Lemma almost_duplicates_come_in_groups_witness :
  exists reported,
    Core._find_almost_duplicate
      {| config := VDict [("skip_projects",
                           VList [VStr "a/B"; VStr "c/d"; VStr "A/b"; VStr "a/b"])];
         config_dir := "." |}
      "skip_projects" = Ok reported
    /\ length reported <> 1
    /\ (forall x, In x reported ->
                  In x ["a/B"; "c/d"; "A/b"; "a/b"]
                  /\ 2 <= length (Spec.collision_group x ["a/B"; "c/d"; "A/b"; "a/b"])
                  /\ Spec.collision_group x reported
                     = Spec.collision_group x ["a/B"; "c/d"; "A/b"; "a/b"]).
Proof.
  apply (almost_duplicates_come_in_groups
           {| config := VDict [("skip_projects",
                                VList [VStr "a/B"; VStr "c/d"; VStr "A/b"; VStr "a/b"])];
              config_dir := "." |}
           "skip_projects"
           (VList [VStr "a/B"; VStr "c/d"; VStr "A/b"; VStr "a/b"])
           ["a/B"; "c/d"; "A/b"; "a/b"]).
  - exact PyStrFacts.on_ascii_idempotent.
  - reflexivity.
  - right. reflexivity.
Defined.

End OnAscii.

(** ** Case-insensitive lookup, further *)

Module LookupMore.

Section Lower.

Context {L : PyStr.Lower}.

Lemma lookup_ci_case d key key' :
  PyStr.lower key = PyStr.lower key' -> Spec.lookup_ci d key = Spec.lookup_ci d key'.
Proof.
  intros H. induction d as [|[k v] d IH]; [reflexivity|].
  simpl. now rewrite H, IH.
Qed.

Lemma dict_get_key {V} key (d : list (string * V)) v :
  Py.dict_get key d = Some v -> In key (Py.dict_keys d).
Proof.
  intros H. apply MergeFacts.dict_get_In in H.
  apply (in_map fst) in H. exact H.
Qed.

(** Without a collision among the keys, the entry found without regard
    to case for a key of the mapping is the entry of that key. *)
Lemma lookup_ci_exact d key v :
  ~ Spec.case_collision (Py.dict_keys d) ->
  Py.dict_get key d = Some v ->
  Spec.lookup_ci d key = Some v.
Proof.
  induction d as [|[k w] d IH]; intros Hno Hget; [discriminate|].
  simpl in *. destruct (String.eqb_spec k key) as [->|Hne].
  - now rewrite String.eqb_refl.
  - destruct (String.eqb_spec (PyStr.lower k) (PyStr.lower key)) as [Hl|Hl].
    + exfalso. apply Hno. exists k, key.
      split; [now left|]. split; [right; now apply (dict_get_key key d v)|].
      split; [exact Hne|exact Hl].
    + apply IH; [|exact Hget].
      intros (x & y & Hx & Hy & Hxy & Hlow). apply Hno.
      exists x, y. split; [now right|]. split; [now right|]. split; assumption.
Qed.

End Lower.

End LookupMore.

(** X11. [get_case_insensitively] does not depend on the case of the key it
    is asked for, and, when no two keys of the mapping differ only in
    case, a key of the mapping is found with its own value, in whatever
    case it is asked for. *)
Theorem get_case_insensitively_finds_the_key {L : PyStr.Lower}
    (d : list (string * value)) (key asked : string) (v : value) :
  PyStr.lower asked = PyStr.lower key ->
  Core.get_case_insensitively (VDict d) asked = Core.get_case_insensitively (VDict d) key
  /\ (~ Spec.case_collision (Py.dict_keys d) ->
      Py.dict_get key d = Some v ->
      Core.get_case_insensitively (VDict d) asked = Ok v).
Proof.
  intros Hcase. rewrite !LayerFacts.get_case_insensitively_lookup_ci.
  rewrite (LookupMore.lookup_ci_case d asked key Hcase). split; [reflexivity|].
  intros Hno Hget. now rewrite (LookupMore.lookup_ci_exact d key v Hno Hget).
Qed.

Section OnAscii.

Local Existing Instance PyStr.on_ascii.

Lemma get_case_insensitively_finds_the_key_witness :
  Core.get_case_insensitively
    (VDict [("team/*", VInt 1); ("Team/Proj", VInt 2)]) "TEAM/PROJ"
  = Core.get_case_insensitively
      (VDict [("team/*", VInt 1); ("Team/Proj", VInt 2)]) "Team/Proj"
  /\ (~ Spec.case_collision (Py.dict_keys [("team/*", VInt 1); ("Team/Proj", VInt 2)]) ->
      Py.dict_get "Team/Proj" [("team/*", VInt 1); ("Team/Proj", VInt 2)] = Some (VInt 2) ->
      Core.get_case_insensitively
        (VDict [("team/*", VInt 1); ("Team/Proj", VInt 2)]) "TEAM/PROJ"
      = Ok (VInt 2)).
Proof.
  apply (get_case_insensitively_finds_the_key
           [("team/*", VInt 1); ("Team/Proj", VInt 2)] "Team/Proj" "TEAM/PROJ" (VInt 2)).
  reflexivity.
Defined.

End OnAscii.

(** X12. Listing and lookup agree after the scan: every project that
    [get_projects] lists is a key of [projects_and_groups], and
    [get_project_config] returns the entry of that very key. [lower] is
    idempotent, as [str.lower] is. *)
Theorem listed_projects_have_their_entry {L : PyStr.Lower}
    (self : ConfigurationCore) (pg : list (string * value)) (projects : list string) :
  PyStr.lower_idempotent ->
  Core._find_almost_duplicates self = Ok tt ->
  Core.get self "projects_and_groups" VNone = Ok (VDict pg) ->
  Projects.get_projects self = Ok projects ->
  forall project,
    In project projects ->
    exists entry,
      Py.dict_get project pg = Some entry
      /\ Core.get_project_config self project = Ok entry.
Proof.
  intros Hidem Hscan Hget Hlist project Hin.
  assert (Hno : ~ Spec.case_collision (Py.dict_keys pg)).
  { apply (ScanMore.passed_scan_no_collision self "projects_and_groups" (VDict pg));
      [exact Hidem|exact Hscan|simpl; auto|exact Hget|].
    left. eexists. split; reflexivity. }
  unfold Projects.get_projects in Hlist. rewrite Hget in Hlist.
  cbn [mbind result_bind Py.keys_method] in Hlist. injection Hlist as <-.
  apply (Permutation_in _ (ListingFacts.sorted_perm _)) in Hin.
  apply filter_In in Hin as [Hkey _].
  destruct (Py.dict_get project pg) as [entry|] eqn:E.
  - exists entry. split; [reflexivity|].
    unfold Core.get_project_config. rewrite Hget. cbn [mbind result_bind].
    rewrite LayerFacts.get_case_insensitively_lookup_ci.
    now rewrite (LookupMore.lookup_ci_exact pg project entry Hno E).
  - apply MergeFacts.dict_get_None in E. contradiction.
Qed.

Section OnAscii.

Local Existing Instance PyStr.on_ascii.

Lemma listed_projects_have_their_entry_witness :
  exists entry,
    Py.dict_get "team/proj"
      [("*", VDict [("a", VInt 1)]);
       ("team/*", VDict [("a", VInt 2); ("b", VInt 1)]);
       ("team/proj", VDict [("a", VInt 3)]);
       ("Other/App", VDict [])] = Some entry
    /\ Core.get_project_config Sample.configuration "team/proj" = Ok entry.
Proof.
  apply (listed_projects_have_their_entry Sample.configuration
           [("*", VDict [("a", VInt 1)]);
            ("team/*", VDict [("a", VInt 2); ("b", VInt 1)]);
            ("team/proj", VDict [("a", VInt 3)]);
            ("Other/App", VDict [])]
           ["Other/App"; "team/proj"] PyStrFacts.on_ascii_idempotent
           eq_refl eq_refl eq_refl "team/proj").
  simpl. auto.
Defined.

End OnAscii.

(** ** The skip-list, further *)

Module SkipMore.

Section Lower.

Context {L : PyStr.Lower}.

Lemma entry_test_lower entry item :
  PyStr.lower_idempotent ->
  Body.entry_test (PyStr.lower entry) item = Body.entry_test entry item.
Proof. intros Hidem. unfold Body.entry_test. now rewrite Hidem. Qed.

Lemma is_skipped_strings an_array item :
  Core.is_skipped_case_insensitively (VList (map VStr an_array)) item
  = Ok (existsb (fun entry => Body.entry_test entry (PyStr.lower item)) an_array).
Proof.
  unfold Core.is_skipped_case_insensitively. cbn [Py.iter mbind result_bind].
  apply MatcherFacts.skipped_loop_strings.
Qed.

Lemma skipped_loop_app before after item :
  Core.skipped_loop (map VStr before ++ after) item
  = if existsb (fun entry => Body.entry_test entry item) before then Ok true
    else Core.skipped_loop after item.
Proof.
  induction before as [|entry before IH]; [reflexivity|].
  cbn [map app Core.skipped_loop Py.lower_method existsb mbind result_bind].
  unfold Body.entry_test at 1.
  destruct (String.eqb (PyStr.lower entry) item); [reflexivity|]. cbn [orb].
  destruct (_ && _); [reflexivity|exact IH].
Qed.

End Lower.

End SkipMore.

(** X13. The answer of [is_skipped_case_insensitively] does not depend on
    the case of the item or of the entries, [lower] being idempotent as
    [str.lower] is; and, whatever [lower] is, entries added before or
    after a list never turn a skipped item into one that is not. *)
Theorem skip_list_ignores_case_and_only_grows {L : PyStr.Lower}
    (an_array more : list string) (item : string) :
  (PyStr.lower_idempotent ->
   Core.is_skipped_case_insensitively
     (VList (map VStr (map PyStr.lower an_array))) (PyStr.lower item)
   = Core.is_skipped_case_insensitively (VList (map VStr an_array)) item)
  /\ (Core.is_skipped_case_insensitively (VList (map VStr an_array)) item = Ok true ->
      Core.is_skipped_case_insensitively (VList (map VStr (more ++ an_array))) item
      = Ok true
      /\ Core.is_skipped_case_insensitively (VList (map VStr (an_array ++ more))) item
         = Ok true).
Proof.
  rewrite !SkipMore.is_skipped_strings. split.
  - intros Hidem. rewrite Hidem. f_equal.
    induction an_array as [|entry an_array IH]; [reflexivity|].
    cbn [map existsb]. now rewrite SkipMore.entry_test_lower, IH.
  - intros [= H]. rewrite !existsb_app, H. split; [|reflexivity].
    now rewrite orb_true_r.
Qed.

Section OnAscii.

Local Existing Instance PyStr.on_ascii.

Lemma skip_list_ignores_case_and_only_grows_witness :
  Core.is_skipped_case_insensitively
    (VList (map VStr (map PyStr.lower ["Archive/*"]))) (PyStr.lower "ARCHIVE/2019")
  = Core.is_skipped_case_insensitively (VList (map VStr ["Archive/*"])) "ARCHIVE/2019"
  /\ Core.is_skipped_case_insensitively
       (VList (map VStr (["team/old"] ++ ["Archive/*"]))) "ARCHIVE/2019" = Ok true
  /\ Core.is_skipped_case_insensitively
       (VList (map VStr (["Archive/*"] ++ ["team/old"]))) "ARCHIVE/2019" = Ok true.
Proof.
  destruct (skip_list_ignores_case_and_only_grows ["Archive/*"] ["team/old"] "ARCHIVE/2019")
    as [Hcase Hgrows].
  split; [exact (Hcase PyStrFacts.on_ascii_idempotent)|].
  exact (Hgrows eq_refl).
Defined.

End OnAscii.

(** X14. An entry that is no string makes the call raise [AttributeError],
    unless an entry before it already matches the item: the entries are
    tried in order and the first match answers. *)
Theorem skip_list_with_a_non_string {L : PyStr.Lower}
    (before : list string) (bad : value) (after : list value) (item : string) :
  (forall s, bad <> VStr s) ->
  Core.is_skipped_case_insensitively (VList (map VStr before ++ bad :: after)) item
  = match Core.is_skipped_case_insensitively (VList (map VStr before)) item with
    | Ok true => Ok true
    | _ => Raise AttributeError
    end.
Proof.
  intros Hbad. rewrite SkipMore.is_skipped_strings.
  unfold Core.is_skipped_case_insensitively. cbn [Py.iter mbind result_bind].
  rewrite SkipMore.skipped_loop_app.
  destruct (existsb _ before); [reflexivity|].
  destruct bad; try reflexivity. now destruct (Hbad s).
Qed.

Section OnAscii.

Local Existing Instance PyStr.on_ascii.

Lemma skip_list_with_a_non_string_witness :
  Core.is_skipped_case_insensitively
    (VList (map VStr ["Archive/*"] ++ VInt 2024 :: [VStr "team/old"])) "team/old"
  = match Core.is_skipped_case_insensitively (VList (map VStr ["Archive/*"])) "team/old" with
    | Ok true => Ok true
    | _ => Raise AttributeError
    end.
Proof.
  apply (skip_list_with_a_non_string ["Archive/*"] (VInt 2024) [VStr "team/old"] "team/old").
  intros s H. discriminate H.
Defined.

End OnAscii.

(** X15. A skip section that is present and holds [None], a boolean or a
    number is not iterable: [is_group_skipped] and [is_project_skipped]
    raise [TypeError] for every name, although the scan at load time lets
    such a section pass when it is falsy. *)
Theorem scalar_skip_section_raises {L : PyStr.Lower} (self : ConfigurationCore) (section : value) (name : string) :
  (section = VNone \/ (exists b, section = VBool b) \/ (exists n, section = VInt n)) ->
  (Spec.resolves (config self) (PyStr.split "|" "skip_groups") section ->
   Core.is_group_skipped self name = Raise TypeError)
  /\ (Spec.resolves (config self) (PyStr.split "|" "skip_projects") section ->
      Core.is_project_skipped self name = Raise TypeError).
Proof.
  intros Hsection.
  assert (H : Core.is_skipped_case_insensitively section name = Raise TypeError).
  { destruct Hsection as [->|[[b ->]|[n ->]]]; reflexivity. }
  split; intros Hres.
  - unfold Core.is_group_skipped.
    rewrite (AccessorFacts.get_resolved _ _ _ _ Hres). exact H.
  - unfold Core.is_project_skipped.
    rewrite (AccessorFacts.get_resolved _ _ _ _ Hres). exact H.
Qed.

Section OnAscii.

Local Existing Instance PyStr.on_ascii.

Lemma scalar_skip_section_raises_witness :
  (Spec.resolves (VDict [("skip_groups", VNone)]) (PyStr.split "|" "skip_groups") VNone ->
   Core.is_group_skipped
     {| config := VDict [("skip_groups", VNone)]; config_dir := "." |} "team"
   = Raise TypeError)
  /\ (Spec.resolves (VDict [("skip_groups", VNone)]) (PyStr.split "|" "skip_projects") VNone ->
      Core.is_project_skipped
        {| config := VDict [("skip_groups", VNone)]; config_dir := "." |} "team"
      = Raise TypeError).
Proof.
  apply (scalar_skip_section_raises
           {| config := VDict [("skip_groups", VNone)]; config_dir := "." |} VNone "team").
  now left.
Defined.

End OnAscii.

(** ** The accessor, further *)

Module AccessorMore.

Import PyStrFacts.

Lemma split_from_append sep acc p q :
  PyStr.split_from sep acc (p +:+ String sep q)
  = PyStr.split_from sep acc p ++ PyStr.split_from sep EmptyString q.
Proof.
  revert acc; induction p as [|a p IH]; intros acc.
  - change (EmptyString +:+ String sep q) with (String sep q).
    simpl. now rewrite Ascii.eqb_refl.
  - rewrite append_cons. simpl. destruct (Ascii.eqb a sep).
    + now rewrite IH.
    + apply IH.
Qed.

Lemma descend_app tree before after :
  Core.descend tree (before ++ after)
  = (v ← Core.descend tree before; Core.descend v after).
Proof.
  revert tree; induction before as [|segment before IH]; intros tree; [reflexivity|].
  cbn [app Core.descend].
  destruct (Py.getitem tree segment) as [v|e]; [|reflexivity].
  cbn [mbind result_bind]. apply IH.
Qed.

End AccessorMore.

(** X16. Paths compose: when [get(p)] finds a value, [get(p + "|" + q,
    default)] is [get(q, default)] on that value; when it does not, the
    longer path fails as well. *)
Theorem get_composes (self : ConfigurationCore) (p q : string) (default : value) :
  (forall v,
      Core.get self p VNone = Ok v ->
      Core.get self (p +:+ "|" +:+ q) default
      = Core.get {| config := v; config_dir := config_dir self |} q default)
  /\ (Core.get self p VNone = Raise KeyNotFoundException ->
      Core.get self (p +:+ "|" +:+ q) default
      = if Py.is_not_None default then Ok default else Raise KeyNotFoundException).
Proof.
  assert (Hsplit : PyStr.split "|" (p +:+ "|" +:+ q) = PyStr.split "|" p ++ PyStr.split "|" q).
  { unfold PyStr.split. apply (AccessorMore.split_from_append "|" EmptyString p q). }
  unfold Core.get. rewrite Hsplit, AccessorMore.descend_app. cbn [config].
  destruct (Core.descend (config self) (PyStr.split "|" p)) as [w|e]; cbn [mbind result_bind].
  - split; [|discriminate]. intros v [= <-]. reflexivity.
  - split; [|reflexivity]. simpl. discriminate.
Qed.

(** ** The merger, further *)

Module MergeMore.

Import MergeFacts.

Lemma dict_set_same {V} key (v : V) d :
  Py.dict_get key d = Some v -> Py.dict_set key v d = d.
Proof.
  induction d as [|[k w] d IH]; simpl; [discriminate|].
  destruct (String.eqb k key); [now intros [= ->]|].
  intros H. now rewrite IH.
Qed.

Lemma In_dict_get {V} key (v : V) d :
  List.NoDup (Py.dict_keys d) -> In (key, v) d -> Py.dict_get key d = Some v.
Proof.
  induction d as [|[k w] d IH]; simpl; [intros _ []|].
  intros Hnd [[= -> ->]|Hin]; [now rewrite String.eqb_refl|].
  inversion Hnd as [|? ? Hk Hnd']; subst.
  destruct (String.eqb_spec k key) as [->|Hne]; [|now apply IH].
  exfalso. apply Hk. now apply (in_map fst) in Hin.
Qed.

(** Merging what the destination already holds changes nothing. *)
Lemma deepmerge_held src :
  forall dst,
    (forall key v, In (key, v) src -> Py.dict_get key dst = Some v) ->
    List.Forall (fun kv => forall dd, snd kv = VDict dd ->
                                      Mergedeep._deepmerge dd (snd kv) = dd) src ->
    Mergedeep._deepmerge dst (VDict src) = dst.
Proof.
  induction src as [|[k v] src IH]; intros dst Hheld Hsub; [reflexivity|].
  rewrite deepmerge_cons. inversion Hsub as [|? ? Hv Hsub']; subst.
  assert (Hstep : Body.merge_step k v dst = dst).
  { unfold Body.merge_step. rewrite (Hheld k v (or_introl eq_refl)).
    destruct v; try (apply dict_set_same; now apply Hheld; left).
    cbn [snd] in Hv. rewrite (Hv d eq_refl). apply dict_set_same. apply Hheld. now left. }
  rewrite Hstep. apply IH; [|exact Hsub'].
  intros key w Hin. apply Hheld. now right.
Qed.

Lemma well_formed_values d :
  Spec.well_formed (VDict d) -> List.Forall (fun kv => Spec.well_formed (snd kv)) d.
Proof.
  intros [_ H]. induction d as [|[k v] d IH]; constructor.
  - apply H.
  - apply IH, H.
Qed.

Lemma deepmerge_self v :
  Spec.well_formed v -> forall d, v = VDict d -> Mergedeep._deepmerge d v = d.
Proof.
  induction v as [| | | | |d IH] using value_induction; intros Hwf d' [=]; subst d'.
  apply deepmerge_held.
  - intros key v. apply In_dict_get. now apply well_formed_keys.
  - pose proof (well_formed_values d Hwf) as Hvalues.
    rewrite List.Forall_forall in *. intros kv Hin dd Hdd.
    apply (IH kv Hin); [now apply Hvalues|exact Hdd].
Qed.

Lemma not_in_keys key (keys : list string) :
  existsb (String.eqb key) keys = false <-> ~ In key keys.
Proof.
  rewrite <- not_true_iff_false, existsb_exists. split.
  - intros H Hin. apply H. exists key. split; [exact Hin|apply String.eqb_refl].
  - intros H (x & Hx & E). apply String.eqb_eq in E. congruence.
Qed.

(** The keys of a merge: those of the destination in their order, then
    the new keys of the source in theirs. *)
Lemma deepmerge_keys src :
  List.NoDup (Py.dict_keys src) ->
  forall dst,
    Py.dict_keys (Mergedeep._deepmerge dst (VDict src))
    = Py.dict_keys dst
      ++ List.filter (fun key => negb (existsb (String.eqb key) (Py.dict_keys dst)))
           (Py.dict_keys src).
Proof.
  induction src as [|[k v] src IH]; intros Hnd dst.
  - rewrite deepmerge_nil. simpl. now rewrite app_nil_r.
  - rewrite deepmerge_cons. inversion Hnd as [|? ? Hk Hnd']; subst.
    rewrite IH by exact Hnd'.
    assert (Hkeys : Py.dict_keys (Body.merge_step k v dst)
                    = if existsb (String.eqb k) (Py.dict_keys dst)
                      then Py.dict_keys dst else Py.dict_keys dst ++ [k]).
    { unfold Body.merge_step.
      destruct (Py.dict_get k dst) as [[]|]; try apply LayerFacts.dict_set_keys;
        destruct v; apply LayerFacts.dict_set_keys. }
    rewrite Hkeys. cbn [Py.dict_keys map fst List.filter].
    fold (Py.dict_keys src).
    destruct (existsb (String.eqb k) (Py.dict_keys dst)) eqn:E; cbn [negb].
    + reflexivity.
    + rewrite <- app_assoc. cbn [app]. do 2 f_equal.
      apply filter_ext_in. intros key Hin. f_equal.
      rewrite existsb_app. cbn [existsb].
      destruct (String.eqb_spec key k) as [->|Hne]; [contradiction|].
      now rewrite !orb_false_r.
Qed.

End MergeMore.

(** X17. [merge_configs] on well-formed mappings: the empty mapping is
    neutral on both sides, and merging a mapping with itself returns
    it. *)
Theorem merge_configs_neutral_and_idempotent (tree : list (string * value)) :
  Spec.well_formed (VDict tree) ->
  Core.merge_configs (VDict tree) (VDict []) = Ok (VDict tree)
  /\ Core.merge_configs (VDict []) (VDict tree) = Ok (VDict tree)
  /\ Core.merge_configs (VDict tree) (VDict tree) = Ok (VDict tree).
Proof.
  intros Hwf. pose proof (MergeFacts.well_formed_keys _ Hwf) as Hnd.
  split; [|split].
  - now rewrite MergeFacts.merge_configs_mappings.
  - rewrite MergeFacts.merge_configs_mappings by constructor.
    now rewrite MergeFacts.deepmerge_empty.
  - rewrite MergeFacts.merge_configs_mappings by exact Hnd.
    now rewrite (MergeMore.deepmerge_self (VDict tree) Hwf tree eq_refl).
Qed.

Lemma merge_configs_neutral_and_idempotent_witness :
  Core.merge_configs (VDict [("a", VInt 1); ("n", VDict [("x", VList [VInt 1])])]) (VDict [])
  = Ok (VDict [("a", VInt 1); ("n", VDict [("x", VList [VInt 1])])])
  /\ Core.merge_configs (VDict []) (VDict [("a", VInt 1); ("n", VDict [("x", VList [VInt 1])])])
     = Ok (VDict [("a", VInt 1); ("n", VDict [("x", VList [VInt 1])])])
  /\ Core.merge_configs (VDict [("a", VInt 1); ("n", VDict [("x", VList [VInt 1])])])
       (VDict [("a", VInt 1); ("n", VDict [("x", VList [VInt 1])])])
     = Ok (VDict [("a", VInt 1); ("n", VDict [("x", VList [VInt 1])])]).
Proof.
  apply (merge_configs_neutral_and_idempotent
           [("a", VInt 1); ("n", VDict [("x", VList [VInt 1])])]).
  simpl. repeat split; repeat constructor; simpl; intuition discriminate.
Defined.

(** X18. The merged mapping keeps the keys of the more general mapping in
    their order and puts the keys only the more specific one has after
    them, in their order; no key is lost and none is doubled. *)
Theorem merge_configs_keys (general specific : list (string * value)) :
  List.NoDup (Py.dict_keys general) ->
  List.NoDup (Py.dict_keys specific) ->
  exists merged,
    Core.merge_configs (VDict general) (VDict specific) = Ok (VDict merged)
    /\ Py.dict_keys merged
       = Py.dict_keys general
         ++ List.filter
              (fun key => negb (existsb (String.eqb key) (Py.dict_keys general)))
              (Py.dict_keys specific)
    /\ List.NoDup (Py.dict_keys merged).
Proof.
  intros Hg Hs. eexists. split; [now apply MergeFacts.merge_configs_mappings|]. split.
  - now apply MergeMore.deepmerge_keys.
  - now apply LayerFacts.deepmerge_NoDup.
Qed.

Lemma merge_configs_keys_witness :
  exists merged,
    Core.merge_configs (VDict [("b", VInt 1); ("a", VInt 1)])
      (VDict [("c", VInt 2); ("a", VInt 2)]) = Ok (VDict merged)
    /\ Py.dict_keys merged
       = Py.dict_keys [("b", VInt 1); ("a", VInt 1)]
         ++ List.filter
              (fun key => negb (existsb (String.eqb key)
                                        (Py.dict_keys [("b", VInt 1); ("a", VInt 1)])))
              (Py.dict_keys [("c", VInt 2); ("a", VInt 2)])
    /\ List.NoDup (Py.dict_keys merged).
Proof.
  apply (merge_configs_keys [("b", VInt 1); ("a", VInt 1)] [("c", VInt 2); ("a", VInt 2)]);
    repeat constructor; simpl; intuition discriminate.
Defined.

(** ** The project resolver, further *)

Module ProjectMore.

Section Lower.

Context {L : PyStr.Lower}.

Lemma rsplit1_None sep s : PyStr.rsplit1 sep s = None <-> PyStr.contains sep s = false.
Proof.
  induction s as [|a s IH]; simpl; [tauto|].
  destruct (PyStr.rsplit1 sep s) as [[l r]|].
  - split; [discriminate|]. intros H. apply orb_false_iff in H as [_ H].
    apply IH in H. discriminate.
  - destruct (Ascii.eqb a sep); simpl; [split; discriminate|].
    split; intros _; [now apply IH|reflexivity].
Qed.

(** A string and its lower-cased form have a slash or have none. *)
Lemma contains_slash_lower s :
  PyStr.lower_keeps_rsplit ->
  PyStr.contains "/" (PyStr.lower s) = PyStr.contains "/" s.
Proof.
  intros Hcut. specialize (Hcut s).
  destruct (PyStr.contains "/" s) eqn:E.
  - destruct (PyStr.contains "/" (PyStr.lower s)) eqn:E'; [reflexivity|].
    apply rsplit1_None in E'. rewrite E' in Hcut.
    destruct (PyStr.rsplit1 "/" s) as [[l r]|] eqn:E2; [discriminate|].
    apply rsplit1_None in E2. congruence.
  - apply rsplit1_None in E. rewrite E in Hcut. now apply rsplit1_None.
Qed.

Lemma first_key_ci_case a_dict keys key key' :
  PyStr.lower key = PyStr.lower key' ->
  Core.first_key_ci a_dict keys key = Core.first_key_ci a_dict keys key'.
Proof.
  intros H. induction keys as [|k keys IH]; [reflexivity|].
  cbn [Core.first_key_ci]. now rewrite H, IH.
Qed.

Lemma get_case_insensitively_case a_dict key key' :
  PyStr.lower key = PyStr.lower key' ->
  Core.get_case_insensitively a_dict key = Core.get_case_insensitively a_dict key'.
Proof.
  intros H. unfold Core.get_case_insensitively.
  destruct (Py.keys_method a_dict) as [keys|e]; [|reflexivity].
  cbn [mbind result_bind]. now apply first_key_ci_case.
Qed.

Lemma get_project_config_case self name name' :
  PyStr.lower name = PyStr.lower name' ->
  Core.get_project_config self name = Core.get_project_config self name'.
Proof.
  intros H. unfold Core.get_project_config.
  destruct (Core.get self "projects_and_groups" VNone) as [a_dict|e]; [|reflexivity].
  cbn [mbind result_bind]. now rewrite (get_case_insensitively_case a_dict name name' H).
Qed.

Lemma get_group_config_case self group group' :
  PyStr.lower_keeps_wildcard ->
  PyStr.lower group = PyStr.lower group' ->
  Core.get_group_config self group = Core.get_group_config self group'.
Proof.
  intros [Hkeeps _] H. apply get_project_config_case.
  rewrite !Hkeeps. now rewrite H.
Qed.

Lemma get_common_config_Ok self : exists common, Core.get_common_config self = Ok common.
Proof. apply AbsenceFacts.get_with_default. discriminate. Qed.

End Lower.

End ProjectMore.

(** X19. A name without a slash has no group: whatever the tree and the
    subgroup resolver, [get_effective_config_for_project] raises
    [ValueError] on it (the unpacking of [rsplit("/", 1)]). *)
Theorem project_name_needs_a_group {L : PyStr.Lower}
    (get_effective_subgroup_config : ConfigurationCore -> string -> result value)
    (self : ConfigurationCore) (name : string) :
  PyStr.contains "/" name = false ->
  Projects.get_effective_config_for_project get_effective_subgroup_config self name
  = Raise ValueError.
Proof.
  intros H. unfold Projects.get_effective_config_for_project.
  destruct (ProjectMore.get_common_config_Ok self) as [common ->].
  cbn [mbind result_bind]. apply ProjectMore.rsplit1_None in H. now rewrite H.
Qed.

Section OnAscii.

Local Existing Instance PyStr.on_ascii.

Lemma project_name_needs_a_group_witness :
  Projects.get_effective_config_for_project (fun _ _ => Ok (VDict []))
    Sample.configuration "proj"
  = Raise ValueError.
Proof.
  apply (project_name_needs_a_group (fun _ _ => Ok (VDict [])) Sample.configuration "proj").
  reflexivity.
Defined.

End OnAscii.

(** X20. The effective configuration does not depend on the case of the
    project's name, when the subgroup resolver does not depend on the
    case of the group it is asked for. [lower] keeps the cut of
    [rsplit("/", 1)] and a trailing [/*], as [str.lower] does. *)
Theorem effective_config_ignores_case {L : PyStr.Lower}
    (get_effective_subgroup_config : ConfigurationCore -> string -> result value)
    (self : ConfigurationCore) (name name' : string) :
  PyStr.lower_keeps_rsplit ->
  PyStr.lower_keeps_wildcard ->
  (forall group group',
      PyStr.lower group = PyStr.lower group' ->
      get_effective_subgroup_config self group = get_effective_subgroup_config self group') ->
  PyStr.lower name = PyStr.lower name' ->
  Projects.get_effective_config_for_project get_effective_subgroup_config self name
  = Projects.get_effective_config_for_project get_effective_subgroup_config self name'.
Proof.
  intros Hcut Hkeeps Hresolver Hname. unfold Projects.get_effective_config_for_project.
  destruct (Core.get_common_config self) as [common|e]; [|reflexivity].
  cbn [mbind result_bind].
  pose proof (Hcut name) as H1.
  pose proof (Hcut name') as H2.
  rewrite Hname, H2 in H1.
  destruct (PyStr.rsplit1 "/" name) as [[group project]|],
           (PyStr.rsplit1 "/" name') as [[group' project']|];
    try discriminate; [|reflexivity].
  injection H1 as Hg Hp.
  cbn [mbind result_bind].
  rewrite <- (ProjectMore.contains_slash_lower group Hcut),
          <- (ProjectMore.contains_slash_lower group' Hcut), Hg.
  rewrite (ProjectMore.get_group_config_case self group group' Hkeeps) by congruence.
  rewrite (Hresolver group group') by congruence.
  now rewrite (ProjectMore.get_project_config_case self name name' Hname).
Qed.

Section OnAscii.

Local Existing Instance PyStr.on_ascii.

Lemma effective_config_ignores_case_witness :
  Projects.get_effective_config_for_project (fun _ _ => Ok (VDict []))
    Sample.configuration "TEAM/Proj"
  = Projects.get_effective_config_for_project (fun _ _ => Ok (VDict []))
      Sample.configuration "team/proj".
Proof.
  apply (effective_config_ignores_case (fun _ _ => Ok (VDict []))
           Sample.configuration "TEAM/Proj" "team/proj").
  - exact PyStrFacts.on_ascii_keeps_rsplit.
  - exact PyStrFacts.on_ascii_keeps_wildcard.
  - reflexivity.
  - reflexivity.
Defined.

End OnAscii.

(** X21. A project of a top-level group for which neither the group nor the
    project has an entry gets the common configuration. *)
Theorem unconfigured_project_gets_the_common_config {L : PyStr.Lower}
    (get_effective_subgroup_config : ConfigurationCore -> string -> result value)
    (self : ConfigurationCore) (pg : list (string * value))
    (name group project : string) (common_config : list (string * value)) :
  Spec.well_formed (config self) ->
  Spec.projects_and_groups_of (config self) pg ->
  PyStr.rsplit1 "/" name = Some (group, project) ->
  PyStr.contains "/" group = false ->
  default (VDict []) (Py.dict_get "*" pg) = VDict common_config ->
  Spec.lookup_ci pg (group +:+ "/*") = None ->
  Spec.lookup_ci pg name = None ->
  Projects.get_effective_config_for_project get_effective_subgroup_config self name
  = Ok (VDict common_config).
Proof.
  intros Hwf Hpg Hsplit Hgroup Hcommon Hg Hp.
  pose proof (LayerFacts.projects_and_groups_well_formed _ _ Hwf Hpg) as Hwfpg.
  assert (Hnd : List.NoDup (Py.dict_keys common_config)).
  { apply MergeFacts.well_formed_keys. rewrite <- Hcommon.
    destruct (Py.dict_get "*" pg) as [v|] eqn:E; simpl.
    - now apply (MergeFacts.well_formed_value pg "*").
    - split; [constructor|exact I]. }
  unfold Projects.get_effective_config_for_project.
  rewrite (LayerFacts.get_common_config_layer _ _ Hpg), Hcommon.
  cbn [mbind result_bind]. rewrite Hsplit. cbn [mbind result_bind]. rewrite Hgroup.
  rewrite (LayerFacts.get_group_config_layer _ _ _ Hpg).
  rewrite (LayerFacts.get_project_config_layer _ _ _ Hpg).
  unfold Spec.layer. rewrite Hg, Hp. cbn [default mbind result_bind].
  rewrite (MergeFacts.merge_configs_mappings _ _ Hnd). cbn [mbind result_bind].
  rewrite MergeFacts.deepmerge_nil.
  rewrite (MergeFacts.merge_configs_mappings _ _ Hnd). reflexivity.
Qed.

Section OnAscii.

Local Existing Instance PyStr.on_ascii.

Lemma unconfigured_project_gets_the_common_config_witness :
  Projects.get_effective_config_for_project (fun _ _ => Raise TypeError)
    Sample.configuration "elsewhere/app"
  = Ok (VDict [("a", VInt 1)]).
Proof.
  apply (unconfigured_project_gets_the_common_config (fun _ _ => Raise TypeError)
           Sample.configuration
           [("*", VDict [("a", VInt 1)]);
            ("team/*", VDict [("a", VInt 2); ("b", VInt 1)]);
            ("team/proj", VDict [("a", VInt 3)]);
            ("Other/App", VDict [])]
           "elsewhere/app" "elsewhere" "app" [("a", VInt 1)]).
  - simpl. repeat split; repeat constructor; simpl; intuition discriminate.
  - left. apply AccessorFacts.descend_resolves. reflexivity.
  - reflexivity.
  - reflexivity.
  - reflexivity.
  - reflexivity.
  - reflexivity.
Defined.

End OnAscii.

(** X22. When [projects_and_groups] is there and is not a mapping (a list, a
    string, a number, [None]), [get_projects], [get_group_config] and
    [get_project_config] raise [AttributeError] (there are no [keys]),
    while [get_common_config] returns the empty mapping. *)
Theorem projects_and_groups_must_be_a_mapping {L : PyStr.Lower}
    (self : ConfigurationCore) (section : value) (name : string) :
  Spec.resolves (config self) (PyStr.split "|" "projects_and_groups") section ->
  (forall d, section <> VDict d) ->
  Projects.get_projects self = Raise AttributeError
  /\ Core.get_group_config self name = Raise AttributeError
  /\ Core.get_project_config self name = Raise AttributeError
  /\ Core.get_common_config self = Ok (VDict []).
Proof.
  intros Hres Hsection.
  pose proof (AccessorFacts.get_resolved self _ VNone _ Hres) as Hget.
  assert (Hkeys : Py.keys_method section = Raise AttributeError)
    by (destruct section; try reflexivity; now destruct (Hsection d)).
  unfold Projects.get_projects, Core.get_group_config, Core.get_project_config,
    Core.get_case_insensitively.
  rewrite Hget. cbn [mbind result_bind]. rewrite Hkeys.
  repeat split; try reflexivity.
  unfold Core.get_common_config, Core.get.
  change (PyStr.split "|" "projects_and_groups|*") with (["projects_and_groups"] ++ ["*"]).
  rewrite AccessorMore.descend_app.
  apply AccessorFacts.descend_resolves in Hres.
  change (PyStr.split "|" "projects_and_groups") with ["projects_and_groups"] in Hres.
  rewrite Hres. cbn [mbind result_bind Core.descend].
  destruct section; try reflexivity. now destruct (Hsection d).
Qed.

Section OnAscii.

Local Existing Instance PyStr.on_ascii.

Lemma projects_and_groups_must_be_a_mapping_witness :
  Projects.get_projects
    {| config := VDict [("projects_and_groups", VList [VStr "team/proj"])];
       config_dir := "." |}
  = Raise AttributeError
  /\ Core.get_group_config
       {| config := VDict [("projects_and_groups", VList [VStr "team/proj"])];
          config_dir := "." |} "team"
     = Raise AttributeError
  /\ Core.get_project_config
       {| config := VDict [("projects_and_groups", VList [VStr "team/proj"])];
          config_dir := "." |} "team"
     = Raise AttributeError
  /\ Core.get_common_config
       {| config := VDict [("projects_and_groups", VList [VStr "team/proj"])];
          config_dir := "." |}
     = Ok (VDict []).
Proof.
  apply (projects_and_groups_must_be_a_mapping
           {| config := VDict [("projects_and_groups", VList [VStr "team/proj"])];
              config_dir := "." |}
           (VList [VStr "team/proj"]) "team").
  - apply AccessorFacts.descend_resolves. reflexivity.
  - intros d H. discriminate H.
Defined.

End OnAscii.

(** X23. On every tree without [projects_and_groups], [get_projects] raises
    [KeyNotFoundException]; on one where it is a mapping the call
    returns, and no listed name is ["*"] or ends in ["/*"]. *)
Theorem get_projects_outcomes (self : ConfigurationCore) :
  (Spec.unresolved (config self) (PyStr.split "|" "projects_and_groups") ->
   Projects.get_projects self = Raise KeyNotFoundException)
  /\ (forall d,
        Spec.resolves (config self) (PyStr.split "|" "projects_and_groups") (VDict d) ->
        exists projects,
          Projects.get_projects self = Ok projects
          /\ List.Forall (fun project =>
                            project <> "*" /\ PyStr.endswith project "/*" = false)
               projects).
Proof.
  split.
  - intros H. unfold Projects.get_projects.
    now rewrite (AccessorFacts.get_unresolved _ _ _ H).
  - intros d H. unfold Projects.get_projects.
    rewrite (AccessorFacts.get_resolved _ _ VNone _ H).
    cbn [mbind result_bind Py.keys_method]. eexists. split; [reflexivity|].
    apply List.Forall_forall. intros project Hin.
    apply (Permutation_in _ (ListingFacts.sorted_perm _)) in Hin.
    apply filter_In in Hin as [_ Htest].
    apply andb_true_iff in Htest as [H1 H2].
    apply negb_true_iff in H1, H2. split; [now apply String.eqb_neq|exact H2].
Qed.

(** ** Construction, further *)

Section Construction.

Context {L : PyStr.Lower}.

Variable yaml_safe_load : string -> result value.
Variable textwrap_dedent : string -> string.
Variable open_read : string -> result string.
Variable APP_HOME : option string.
Variable home : string.
Variable getcwd : string.
Variable path_join : string -> string -> string.
Variable path_dirname : string -> string.

Local Abbreviation load :=
  (Core._load_config yaml_safe_load textwrap_dedent open_read APP_HOME home getcwd
     path_join path_dirname).
Local Abbreviation construct :=
  (Core.__init__ yaml_safe_load textwrap_dedent open_read APP_HOME home getcwd
     path_join path_dirname).



(** X6. With [APP_HOME] set and no inline string, the path that is given
    plays no part: the file read is [config.yml] under [APP_HOME]. *)
Theorem app_home_overrides_the_path
    (app_home : string) (config_string config_path config_path' : option string) :
  APP_HOME = Some app_home ->
  Core.given config_string = false ->
  load config_string config_path = load config_string config_path'
  /\ construct config_path config_string = construct config_path' config_string
  /\ (open_read (path_join app_home "config.yml") = Raise OSError ->
      load config_string config_path
      = Raise (ConfigFileNotFoundException (Some (path_join app_home "config.yml")))).
Proof.
  intros Happ Hs.
  assert (Hload : forall p,
             load config_string p
             = Core.load_handlers (Some (path_join app_home "config.yml"))
                 (Core.load_from_path yaml_safe_load open_read path_dirname
                    (path_join app_home "config.yml"))).
  { intros p.
    rewrite (load_config_from_path yaml_safe_load textwrap_dedent open_read APP_HOME home
               getcwd path_join path_dirname _ _ Hs).
    unfold Core.resolve_config_path. now rewrite Happ. }
  split; [now rewrite !Hload|]. split.
  - unfold Core.__init__. now rewrite !Hload.
  - intros Hopen. rewrite Hload. unfold Core.load_from_path. now rewrite Hopen.
Qed.

End Construction.

Section OnAscii.

Local Existing Instance PyStr.on_ascii.


Lemma app_home_overrides_the_path_witness :
  Core._load_config Sample.parse Sample.dedent Sample.open_read (Some "/etc/gitlabform")
    "/home/user" "/srv" Sample.join Sample.dirname None (Some "/tmp/other.yml")
  = Core._load_config Sample.parse Sample.dedent Sample.open_read (Some "/etc/gitlabform")
      "/home/user" "/srv" Sample.join Sample.dirname None None
  /\ Core.__init__ Sample.parse Sample.dedent Sample.open_read (Some "/etc/gitlabform")
       "/home/user" "/srv" Sample.join Sample.dirname (Some "/tmp/other.yml") None
     = Core.__init__ Sample.parse Sample.dedent Sample.open_read (Some "/etc/gitlabform")
         "/home/user" "/srv" Sample.join Sample.dirname None None
  /\ (Sample.open_read (Sample.join "/etc/gitlabform" "config.yml") = Raise OSError ->
      Core._load_config Sample.parse Sample.dedent Sample.open_read (Some "/etc/gitlabform")
        "/home/user" "/srv" Sample.join Sample.dirname None (Some "/tmp/other.yml")
      = Raise (ConfigFileNotFoundException
                 (Some (Sample.join "/etc/gitlabform" "config.yml")))).
Proof.
  apply (app_home_overrides_the_path Sample.parse Sample.dedent Sample.open_read
           (Some "/etc/gitlabform") "/home/user" "/srv" Sample.join Sample.dirname
           "/etc/gitlabform" None (Some "/tmp/other.yml") None); reflexivity.
Defined.

End OnAscii.

(** ** The scan on sections of another shape *)

Module ShapeFacts.

Section Lower.

Context {L : PyStr.Lower}.

Lemma strings_of_non_string before bad after :
  (forall s, bad <> VStr s) ->
  Core.strings_of (map VStr before ++ bad :: after) = Raise AttributeError.
Proof.
  intros Hbad. induction before as [|x before IH]; simpl.
  - destruct bad; try reflexivity. now destruct (Hbad s).
  - now rewrite IH.
Qed.

End Lower.

End ShapeFacts.

(** X10. A protected section that is a list with an entry that is no string,
    or that is [True] or a number other than 0, ends the scan, and with it
    the construction, in an [AttributeError] or a [TypeError] that nothing
    wraps, when the sections before it pass. *)
Theorem ill_shaped_section_ends_the_scan {L : PyStr.Lower}
    (self : ConfigurationCore) (before after : list string) (path : string)
    (section : value) :
  Core.protected_sections = before ++ path :: after ->
  Core.scan_sections self before = Ok tt ->
  Core.get self path VNone = Ok section ->
  ((exists strings bad rest,
       section = VList (map VStr strings ++ bad :: rest) /\ forall s, bad <> VStr s) ->
   Core._find_almost_duplicates self = Raise AttributeError)
  /\ (section = VBool true \/ (exists n, section = VInt n /\ n <> 0%Z) ->
      Core._find_almost_duplicates self = Raise TypeError).
Proof.
  intros Hsplit Hbefore Hget.
  assert (Hscan : Py.truthy section = true ->
                  forall e, Core._find_almost_duplicate self path = Raise e ->
                            Core._find_almost_duplicates self = Raise e).
  { intros Ht e He. unfold Core._find_almost_duplicates.
    rewrite Hsplit, ScanMore.scan_app, Hbefore.
    cbn [mbind result_bind Core.scan_sections].
    rewrite (ScanMore.get_any_default _ _ _ _ Hget). cbn [mbind result_bind].
    rewrite Ht, He. reflexivity. }
  split.
  - intros (strings & bad & rest & -> & Hbad). apply Hscan.
    + now destruct strings.
    + unfold Core._find_almost_duplicate. rewrite Hget.
      cbn [mbind result_bind Py.iter].
      now rewrite ShapeFacts.strings_of_non_string.
  - intros [->|(n & -> & Hn)].
    + apply Hscan; [reflexivity|].
      unfold Core._find_almost_duplicate. now rewrite Hget.
    + apply Hscan.
      * simpl. now apply negb_true_iff, Z.eqb_neq.
      * unfold Core._find_almost_duplicate. now rewrite Hget.
Qed.

Section OnAscii.

Local Existing Instance PyStr.on_ascii.

Lemma ill_shaped_section_ends_the_scan_witness :
  ((exists strings bad rest,
       VList [VStr "team"; VInt 7] = VList (map VStr strings ++ bad :: rest)
       /\ forall s, bad <> VStr s) ->
   Core._find_almost_duplicates
     {| config := VDict [("skip_groups", VList [VStr "team"; VInt 7])];
        config_dir := "." |}
   = Raise AttributeError)
  /\ (VList [VStr "team"; VInt 7] = VBool true
      \/ (exists n, VList [VStr "team"; VInt 7] = VInt n /\ n <> 0%Z) ->
      Core._find_almost_duplicates
        {| config := VDict [("skip_groups", VList [VStr "team"; VInt 7])];
           config_dir := "." |}
      = Raise TypeError).
Proof.
  apply (ill_shaped_section_ends_the_scan
           {| config := VDict [("skip_groups", VList [VStr "team"; VInt 7])];
              config_dir := "." |}
           ["projects_and_groups"] ["skip_projects"] "skip_groups"
           (VList [VStr "team"; VInt 7])); reflexivity.
Defined.

End OnAscii.
